(** * Live block migration (block-migration.c): a shallow embedding

    The sender-side engine (bulk scan, dirty scan, asynchronous read
    pipeline, send path), the wire codec and the receiver of
    [block-migration.c] are embedded as executable functions over an
    explicit machine state.  Integers of the C code are [Z]; a narrowing
    conversion is written where the code performs one.  Pointers between
    the structures ([blk->bmds], [bmds->bs]) are indices into the lists
    that own the pointed-to objects, so that a flag read through such a
    pointer is the flag at the time of the read. *)

From Stdlib Require Import ZArith List Lia Bool Sorted.
From stdpp Require Import base list.
Local Open Scope Z_scope.

(** ** Wire flags and constants defined in the file *)

Definition BLK_MIG_FLAG_DEVICE_BLOCK : Z := 0x01.
Definition BLK_MIG_FLAG_EOS : Z := 0x02.
Definition BLK_MIG_FLAG_PROGRESS : Z := 0x04.
Definition BLK_MIG_FLAG_ZERO_BLOCK : Z := 0x08.
Definition MAX_IS_ALLOCATED_SEARCH : Z := 65536.

(** errno values used by the file *)
Definition EIO : Z := 5.
Definition EINVAL : Z := 22.

(** [sizeof(VECTYPE)], the width in bytes of [__m128i]. *)
Definition VECSIZE : Z := 16.

(** [sizeof(unsigned long) * 8] on the LP64 targets the file is built for. *)
Definition BITS_PER_LONG : Z := 64.

(** ** The migration stream as seen by the sender

    What the sender does to its [QEMUFile] is a log of events: a byte put
    on the stream, or an explicit flush. *)

Inductive fev : Type :=
| Put (b : Z)
| Flush.

Definition QEMUFile : Type := list fev.

Definition is_put (e : fev) : bool :=
  match e with Put _ => true | Flush => false end.

(** The bytes carried by a log, in order. *)
Fixpoint bytes_of (f : QEMUFile) : list Z :=
  match f with
  | [] => []
  | Put b :: f' => b :: bytes_of f'
  | Flush :: f' => bytes_of f'
  end.

(** ** What the headers outside the file provide

    [block.h] fixes the sector size and the dirty-chunk size; the transport
    decides when the sender is over its rate limit; the comparison of
    [is_stage2_completed] is carried out in [long double] arithmetic.  None
    of these is in the file: they are the fields of this class. *)

Class Platform : Type := {
  (** Modelled from the spec: [SECTOR_BITS], log2 of the sector size. *)
  BDRV_SECTOR_BITS : Z;
  (** Modelled from the spec: [SECTORS_PER_CHUNK], sectors per dirty chunk. *)
  BDRV_SECTORS_PER_DIRTY_CHUNK : Z;
  (** Modelled from the spec: [rate_limited() -> bool] of the transport. *)
  qemu_file_rate_limit : QEMUFile -> bool;
  (** Modelled from the spec: [rate_limit_window_bytes() -> int]. *)
  qemu_file_get_rate_limit : QEMUFile -> Z;
  (** Modelled from the spec: the outcome of the [long double] test
      [remaining_dirty / ((reads / total_time) * BLOCK_SIZE)
       <= migrate_max_downtime()], as a function of [remaining_dirty],
      [reads] and [total_time]. *)
  downtime_within_budget : Z -> Z -> Z -> bool
}.

(** ** The wire primitives of the transport *)

(** Modelled from the spec: [put_u8(byte)]; the argument is narrowed to
    eight bits. *)
Definition qemu_put_byte (f : QEMUFile) (v : Z) : QEMUFile :=
  f ++ [Put (v mod 256)].

(** Modelled from the spec: [put_bytes(ptr, len)]. *)
Definition qemu_put_buffer (f : QEMUFile) (buf : list Z) (size : Z) : QEMUFile :=
  f ++ map Put (take (Z.to_nat size) buf).

(** The [n] low-order bytes of [v], most significant first. *)
Fixpoint be_bytes (n : nat) (v : Z) : list Z :=
  match n with
  | O => []
  | S k => Z.shiftr v (8 * Z.of_nat k) mod 256 :: be_bytes k v
  end.

(** The value of a big-endian byte string, continuing from [acc]. *)
Fixpoint be_value (acc : Z) (bs : list Z) : Z :=
  match bs with
  | [] => acc
  | b :: bs' => be_value (acc * 256 + b) bs'
  end.

(** Modelled from the spec: [put_u64_be(word)]; the argument is converted
    to [uint64_t]. *)
Definition qemu_put_be64 (f : QEMUFile) (v : Z) : QEMUFile :=
  f ++ map Put (be_bytes 8 (v mod 2 ^ 64)).

(** Modelled from the spec: [flush()]. *)
Definition qemu_fflush (f : QEMUFile) : QEMUFile := f ++ [Flush].

(** Conversion of a 64-bit pattern to [int64_t]. *)
Definition to_int64 (v : Z) : Z :=
  let w := v mod 2 ^ 64 in if w <? 2 ^ 63 then w else w - 2 ^ 64.

(** Conversion to [int]. *)
Definition to_int (v : Z) : Z :=
  let w := v mod 2 ^ 32 in if w <? 2 ^ 31 then w else w - 2 ^ 32.

Section Codec.
Context {P : Platform}.

Definition BDRV_SECTOR_SIZE : Z := Z.shiftl 1 BDRV_SECTOR_BITS.

(** [#define BLOCK_SIZE (BDRV_SECTORS_PER_DIRTY_CHUNK << BDRV_SECTOR_BITS)] *)
Definition BLOCK_SIZE : Z := Z.shiftl BDRV_SECTORS_PER_DIRTY_CHUNK BDRV_SECTOR_BITS.

(** ** Zero-block detection *)

(** [_mm_cmpeq_epi8]: 0xFF in every byte lane where the operands agree. *)
Definition mm_cmpeq_epi8 (v1 v2 : list Z) : list Z :=
  zip_with (fun a b => if a =? b then 255 else 0) v1 v2.

(** [_mm_movemask_epi8]: the most significant bit of each lane, lane 0 in
    bit 0. *)
Fixpoint mm_movemask_epi8 (v : list Z) : Z :=
  match v with
  | [] => 0
  | b :: v' => Z.b2z (Z.testbit b 7) + 2 * mm_movemask_epi8 v'
  end.

Definition mm_setzero_si128 : list Z := replicate (Z.to_nat VECSIZE) 0.

(** [#define ALL_EQ(v1, v2) (_mm_movemask_epi8(_mm_cmpeq_epi8(v1, v2)) == 0xFFFF)] *)
Definition ALL_EQ (v1 v2 : list Z) : bool :=
  mm_movemask_epi8 (mm_cmpeq_epi8 v1 v2) =? 0xFFFF.

(** [p[i]] for [VECTYPE *p]: the sixteen bytes at offset [16 * i]. *)
Definition vec_at (p : list Z) (i : Z) : list Z :=
  take (Z.to_nat VECSIZE) (drop (Z.to_nat (VECSIZE * i)) p).

(** The [for] loop of [is_zero_blk], with [n] iterations left at index [i]. *)
Fixpoint is_zero_blk_loop (n : nat) (i : Z) (p : list Z) : Z :=
  match n with
  | O => 1
  | S n' =>
      if negb (ALL_EQ mm_setzero_si128 (vec_at p i)) then 0
      else is_zero_blk_loop n' (i + 1) p
  end.

Definition is_zero_blk (bufp : list Z) : Z :=
  is_zero_blk_loop (Z.to_nat (BLOCK_SIZE / VECSIZE)) 0 bufp.

End Codec.

(** ** C strings *)

(** [strlen]: the number of bytes before the first NUL. *)
Fixpoint strlen (s : list Z) : Z :=
  match s with
  | [] => 0
  | c :: s' => if c =? 0 then 0 else 1 + strlen s'
  end.

(** The string held by a [char] array: its bytes up to the first NUL. *)
Definition c_str (s : list Z) : list Z := take (Z.to_nat (strlen s)) s.

Fixpoint bytes_eqb (a b : list Z) : bool :=
  match a, b with
  | [], [] => true
  | x :: a', y :: b' => (x =? y) && bytes_eqb a' b'
  | _, _ => false
  end.

(** ** The structures of the file *)

(** What the engine can observe of a [BlockDriverState]. *)
Module BlockDriverState.
Record t : Type := mk {
  device_name : list Z;
  (** the value of [bdrv_getlength], in bytes *)
  getlength : Z;
  read_only : bool;
  in_use : Z;
  drive_refs : Z;
  (** the dirty bitmap, one flag per chunk; [None] while tracking is off *)
  dirty_bitmap : option (list bool);
  (** for a read of [nr] sectors at [sector]: the result code, and the
      contents of the chunk buffer once the read has finished *)
  read_result : Z -> Z -> Z * list Z;
  (** for a write of [nr] sectors at [sector]: the result code *)
  write_result : Z -> Z -> Z;
  (** the allocation probe: allocated or not, and the length of the run *)
  is_allocated : Z -> Z -> bool * Z
}.
Definition set_in_use (v : Z) (b : t) : t :=
  mk (device_name b) (getlength b) (read_only b) v (drive_refs b)
     (dirty_bitmap b) (read_result b) (write_result b) (is_allocated b).
Definition set_drive_refs (v : Z) (b : t) : t :=
  mk (device_name b) (getlength b) (read_only b) (in_use b) v
     (dirty_bitmap b) (read_result b) (write_result b) (is_allocated b).
Definition set_dirty_bitmap (v : option (list bool)) (b : t) : t :=
  mk (device_name b) (getlength b) (read_only b) (in_use b) (drive_refs b)
     v (read_result b) (write_result b) (is_allocated b).
End BlockDriverState.

(** [struct BlkMigDevState]; [bs] is the index of the device in the block
    layer's list. *)
Module BlkMigDevState.
Record t : Type := mk {
  bs : nat;
  bulk_completed : Z;
  shared_base : Z;
  sparse_enable : Z;
  cur_sector : Z;
  cur_dirty : Z;
  completed_sectors : Z;
  total_sectors : Z;
  dirty : Z;
  aio_bitmap : list Z
}.
Definition set_bulk_completed (v : Z) (d : t) : t :=
  mk (bs d) v (shared_base d) (sparse_enable d) (cur_sector d) (cur_dirty d)
     (completed_sectors d) (total_sectors d) (dirty d) (aio_bitmap d).
Definition set_cur_sector (v : Z) (d : t) : t :=
  mk (bs d) (bulk_completed d) (shared_base d) (sparse_enable d) v (cur_dirty d)
     (completed_sectors d) (total_sectors d) (dirty d) (aio_bitmap d).
Definition set_cur_dirty (v : Z) (d : t) : t :=
  mk (bs d) (bulk_completed d) (shared_base d) (sparse_enable d) (cur_sector d) v
     (completed_sectors d) (total_sectors d) (dirty d) (aio_bitmap d).
Definition set_completed_sectors (v : Z) (d : t) : t :=
  mk (bs d) (bulk_completed d) (shared_base d) (sparse_enable d) (cur_sector d)
     (cur_dirty d) v (total_sectors d) (dirty d) (aio_bitmap d).
Definition set_aio_bitmap (v : list Z) (d : t) : t :=
  mk (bs d) (bulk_completed d) (shared_base d) (sparse_enable d) (cur_sector d)
     (cur_dirty d) (completed_sectors d) (total_sectors d) (dirty d) v.
End BlkMigDevState.

(** [struct BlkMigBlock]; [bmds] is the index of the owning device state in
    [bmds_list].  The iovec fields only describe [buf] to the block layer. *)
Module BlkMigBlock.
Record t : Type := mk {
  buf : list Z;
  bmds : nat;
  sector : Z;
  nr_sectors : Z;
  ret : Z
}.
Definition set_buf (v : list Z) (b : t) : t :=
  mk v (bmds b) (sector b) (nr_sectors b) (ret b).
Definition set_ret (v : Z) (b : t) : t :=
  mk (buf b) (bmds b) (sector b) (nr_sectors b) v.
End BlkMigBlock.

(** [struct BlkMigState]; [total_time] and [prev_time_offset] hold sums and
    differences of nanosecond clock readings. *)
Module BlkMigState.
Record t : Type := mk {
  blk_enable : Z;
  shared_base : Z;
  sparse_enable : Z;
  bmds_list : list BlkMigDevState.t;
  blk_list : list BlkMigBlock.t;
  submitted : Z;
  read_done : Z;
  transferred : Z;
  total_sector_sum : Z;
  prev_progress : Z;
  bulk_completed : Z;
  total_time : Z;
  prev_time_offset : Z;
  reads : Z
}.
Definition set_params (e sh sp : Z) (s : t) : t :=
  mk e sh sp (bmds_list s) (blk_list s) (submitted s) (read_done s)
     (transferred s) (total_sector_sum s) (prev_progress s) (bulk_completed s)
     (total_time s) (prev_time_offset s) (reads s).
Definition set_bmds_list (v : list BlkMigDevState.t) (s : t) : t :=
  mk (blk_enable s) (shared_base s) (sparse_enable s) v (blk_list s)
     (submitted s) (read_done s) (transferred s) (total_sector_sum s)
     (prev_progress s) (bulk_completed s) (total_time s) (prev_time_offset s)
     (reads s).
Definition set_blk_list (v : list BlkMigBlock.t) (s : t) : t :=
  mk (blk_enable s) (shared_base s) (sparse_enable s) (bmds_list s) v
     (submitted s) (read_done s) (transferred s) (total_sector_sum s)
     (prev_progress s) (bulk_completed s) (total_time s) (prev_time_offset s)
     (reads s).
Definition set_submitted (v : Z) (s : t) : t :=
  mk (blk_enable s) (shared_base s) (sparse_enable s) (bmds_list s) (blk_list s)
     v (read_done s) (transferred s) (total_sector_sum s)
     (prev_progress s) (bulk_completed s) (total_time s) (prev_time_offset s)
     (reads s).
Definition set_read_done (v : Z) (s : t) : t :=
  mk (blk_enable s) (shared_base s) (sparse_enable s) (bmds_list s) (blk_list s)
     (submitted s) v (transferred s) (total_sector_sum s)
     (prev_progress s) (bulk_completed s) (total_time s) (prev_time_offset s)
     (reads s).
Definition set_transferred (v : Z) (s : t) : t :=
  mk (blk_enable s) (shared_base s) (sparse_enable s) (bmds_list s) (blk_list s)
     (submitted s) (read_done s) v (total_sector_sum s)
     (prev_progress s) (bulk_completed s) (total_time s) (prev_time_offset s)
     (reads s).
Definition set_total_sector_sum (v : Z) (s : t) : t :=
  mk (blk_enable s) (shared_base s) (sparse_enable s) (bmds_list s) (blk_list s)
     (submitted s) (read_done s) (transferred s) v
     (prev_progress s) (bulk_completed s) (total_time s) (prev_time_offset s)
     (reads s).
Definition set_prev_progress (v : Z) (s : t) : t :=
  mk (blk_enable s) (shared_base s) (sparse_enable s) (bmds_list s) (blk_list s)
     (submitted s) (read_done s) (transferred s) (total_sector_sum s)
     v (bulk_completed s) (total_time s) (prev_time_offset s) (reads s).
Definition set_bulk_completed (v : Z) (s : t) : t :=
  mk (blk_enable s) (shared_base s) (sparse_enable s) (bmds_list s) (blk_list s)
     (submitted s) (read_done s) (transferred s) (total_sector_sum s)
     (prev_progress s) v (total_time s) (prev_time_offset s) (reads s).
Definition set_total_time (v : Z) (s : t) : t :=
  mk (blk_enable s) (shared_base s) (sparse_enable s) (bmds_list s) (blk_list s)
     (submitted s) (read_done s) (transferred s) (total_sector_sum s)
     (prev_progress s) (bulk_completed s) v (prev_time_offset s) (reads s).
Definition set_prev_time_offset (v : Z) (s : t) : t :=
  mk (blk_enable s) (shared_base s) (sparse_enable s) (bmds_list s) (blk_list s)
     (submitted s) (read_done s) (transferred s) (total_sector_sum s)
     (prev_progress s) (bulk_completed s) (total_time s) v (reads s).
Definition set_reads (v : Z) (s : t) : t :=
  mk (blk_enable s) (shared_base s) (sparse_enable s) (bmds_list s) (blk_list s)
     (submitted s) (read_done s) (transferred s) (total_sector_sum s)
     (prev_progress s) (bulk_completed s) (total_time s) (prev_time_offset s) v.
End BlkMigState.

(** The incoming stream of the receiver: the bytes not yet consumed and the
    error recorded by the transport. *)
Module InFile.
Record t : Type := mk {
  pending : list Z;
  last_error : Z
}.
End InFile.

(** A call of [bdrv_write]: the device, the first sector, the sector count
    and the bytes handed to the block layer. *)
Module WriteCall.
Record t : Type := mk {
  dev : nat;
  sector : Z;
  nr_sectors : Z;
  data : list Z
}.
End WriteCall.

(** ** The machine: the globals of the file and the collaborators' state *)

Module System.
Record t : Type := mk {
  (** [static BlkMigState block_mig_state] *)
  block_mig_state : BlkMigState.t;
  (** [static int total_blocks, zero_blocks, bulk_blocks] *)
  total_blocks : Z;
  zero_blocks : Z;
  bulk_blocks : Z;
  (** the block layer: its devices in [bdrv_iterate] order, the reads given
      to [bdrv_aio_readv] and not yet completed (each with the device it
      was issued on and the [BlkMigBlock] passed as [opaque]), and the
      calls of [bdrv_write] *)
  bdrv_states : list BlockDriverState.t;
  aio_requests : list (nat * BlkMigBlock.t);
  bdrv_writes : list WriteCall.t;
  (** the outgoing and the incoming stream *)
  out_file : QEMUFile;
  in_file : InFile.t;
  (** [rt_clock], in nanoseconds *)
  rt_clock : Z
}.
Definition set_block_mig_state (v : BlkMigState.t) (s : t) : t :=
  mk v (total_blocks s) (zero_blocks s) (bulk_blocks s) (bdrv_states s)
     (aio_requests s) (bdrv_writes s) (out_file s) (in_file s) (rt_clock s).
Definition set_counts (a b c : Z) (s : t) : t :=
  mk (block_mig_state s) a b c (bdrv_states s)
     (aio_requests s) (bdrv_writes s) (out_file s) (in_file s) (rt_clock s).
Definition set_bdrv_states (v : list BlockDriverState.t) (s : t) : t :=
  mk (block_mig_state s) (total_blocks s) (zero_blocks s) (bulk_blocks s) v
     (aio_requests s) (bdrv_writes s) (out_file s) (in_file s) (rt_clock s).
Definition set_aio_requests (v : list (nat * BlkMigBlock.t)) (s : t) : t :=
  mk (block_mig_state s) (total_blocks s) (zero_blocks s) (bulk_blocks s)
     (bdrv_states s) v (bdrv_writes s) (out_file s) (in_file s) (rt_clock s).
Definition set_bdrv_writes (v : list WriteCall.t) (s : t) : t :=
  mk (block_mig_state s) (total_blocks s) (zero_blocks s) (bulk_blocks s)
     (bdrv_states s) (aio_requests s) v (out_file s) (in_file s) (rt_clock s).
Definition set_out_file (v : QEMUFile) (s : t) : t :=
  mk (block_mig_state s) (total_blocks s) (zero_blocks s) (bulk_blocks s)
     (bdrv_states s) (aio_requests s) (bdrv_writes s) v (in_file s) (rt_clock s).
Definition set_in_file (v : InFile.t) (s : t) : t :=
  mk (block_mig_state s) (total_blocks s) (zero_blocks s) (bulk_blocks s)
     (bdrv_states s) (aio_requests s) (bdrv_writes s) (out_file s) v (rt_clock s).
End System.

(** ** A state monad with failure

    A computation either returns a value and a new machine, or does not
    return normally: a failed [assert], a pointer that designates nothing,
    or a loop that the model cannot bound. *)

Definition M (A : Type) : Type := System.t -> option (A * System.t).

Definition ret {A : Type} (a : A) : M A := fun s => Some (a, s).

Definition bind {A B : Type} (m : M A) (k : A -> M B) : M B :=
  fun s => match m s with
           | Some (a, s') => k a s'
           | None => None
           end.

Definition stuck {A : Type} : M A := fun _ => None.

Definition get : M System.t := fun s => Some (s, s).

Definition modify (f : System.t -> System.t) : M unit := fun s => Some (tt, f s).

Definition assert (b : bool) : M unit := if b then ret tt else stuck.

Definition when (b : bool) (m : M unit) : M unit := if b then m else ret tt.

Notation "x <- c ;; k" := (bind c (fun x => k))
  (at level 100, c at next level, right associativity).
Notation "c ;;; k" := (bind c (fun _ => k))
  (at level 100, right associativity).

(** [block_mig_state] as the code names it. *)
Definition mig : M BlkMigState.t := fun s => Some (System.block_mig_state s, s).

Definition set_mig (f : BlkMigState.t -> BlkMigState.t) : M unit :=
  modify (fun s => System.set_block_mig_state (f (System.block_mig_state s)) s).

(** Dereference of a [BlkMigDevState *]. *)
Definition get_bmds (d : nat) : M BlkMigDevState.t :=
  st <- mig ;;
  match BlkMigState.bmds_list st !! d with
  | Some b => ret b
  | None => stuck
  end.

Definition set_bmds (d : nat) (f : BlkMigDevState.t -> BlkMigDevState.t) : M unit :=
  b <- get_bmds d ;;
  set_mig (fun st => BlkMigState.set_bmds_list (<[d := f b]> (BlkMigState.bmds_list st)) st).

(** Dereference of a [BlockDriverState *]. *)
Definition get_bs (i : nat) : M BlockDriverState.t :=
  s <- get ;;
  match System.bdrv_states s !! i with
  | Some b => ret b
  | None => stuck
  end.

Definition set_bs (i : nat) (f : BlockDriverState.t -> BlockDriverState.t) : M unit :=
  b <- get_bs i ;;
  modify (fun s => System.set_bdrv_states (<[i := f b]> (System.bdrv_states s)) s).

Definition with_file (f : QEMUFile -> QEMUFile) : M unit :=
  modify (fun s => System.set_out_file (f (System.out_file s)) s).

(** A C [int] used as a condition. *)
Definition truthy (v : Z) : bool := negb (v =? 0).

(** Conversion to [unsigned long]. *)
Definition to_ulong (v : Z) : Z := v mod 2 ^ BITS_PER_LONG.

(** An element of an [unsigned long] array; the model reads 0 outside it. *)
Definition word_at (a : list Z) (idx : Z) : Z := default 0 (a !! Z.to_nat idx).

Section Engine.
Context {P : Platform}.

(** ** The block layer, as far as the engine uses it *)

(** Modelled from the spec: [length(bs) -> bytes]. *)
Definition bdrv_getlength (i : nat) : M Z :=
  b <- get_bs i ;; ret (BlockDriverState.getlength b).

(** Modelled from the spec: [read_only(bs) -> bool]. *)
Definition bdrv_is_read_only (i : nat) : M bool :=
  b <- get_bs i ;; ret (BlockDriverState.read_only b).

(** The number of chunks of a device of [len] bytes. *)
Definition chunk_count (len : Z) : Z :=
  (Z.shiftr len BDRV_SECTOR_BITS + BDRV_SECTORS_PER_DIRTY_CHUNK - 1)
    / BDRV_SECTORS_PER_DIRTY_CHUNK.

(** Modelled from the spec: [set_dirty_tracking(bs, enable)]; enabling
    starts from a clean bitmap, disabling drops the bitmap. *)
Definition bdrv_set_dirty_tracking (i : nat) (enable : Z) : M unit :=
  set_bs i (fun b =>
    if truthy enable then
      match BlockDriverState.dirty_bitmap b with
      | Some _ => b
      | None =>
          BlockDriverState.set_dirty_bitmap
            (Some (replicate (Z.to_nat (chunk_count (BlockDriverState.getlength b))) false)) b
      end
    else BlockDriverState.set_dirty_bitmap None b).

(** Modelled from the spec: [get_dirty(bs, sector) -> bool], the flag of the
    chunk that holds [sector]; false past the end of the device. *)
Definition bdrv_get_dirty (i : nat) (sector : Z) : M bool :=
  b <- get_bs i ;;
  ret (match BlockDriverState.dirty_bitmap b with
       | Some bm =>
           (0 <=? sector)
           && (Z.shiftl sector BDRV_SECTOR_BITS <? BlockDriverState.getlength b)
           && default false (bm !! Z.to_nat (sector ÷ BDRV_SECTORS_PER_DIRTY_CHUNK))
       | None => false
       end).

(** The flags of the chunks [lo .. hi] cleared. *)
Definition clear_chunks (lo hi : Z) (bm : list bool) : list bool :=
  imap (fun k b => if (lo <=? Z.of_nat k) && (Z.of_nat k <=? hi) then false else b) bm.

(** Modelled from the spec: [reset_dirty(bs, sector, n)], which clears the
    flag of every chunk touched by [sector, sector + n). *)
Definition bdrv_reset_dirty (i : nat) (cur_sector nr_sectors : Z) : M unit :=
  set_bs i (fun b =>
    BlockDriverState.set_dirty_bitmap
      (clear_chunks (cur_sector ÷ BDRV_SECTORS_PER_DIRTY_CHUNK)
                    ((cur_sector + nr_sectors - 1) ÷ BDRV_SECTORS_PER_DIRTY_CHUNK)
         <$> BlockDriverState.dirty_bitmap b) b).

(** Modelled from the spec: [dirty_count(bs) -> chunks]. *)
Definition bdrv_get_dirty_count (i : nat) : M Z :=
  b <- get_bs i ;;
  ret (match BlockDriverState.dirty_bitmap b with
       | Some bm => Z.of_nat (length (filter (fun x => x = true) bm))
       | None => 0
       end).

(** Modelled from the spec: [is_allocated(bs, sector, max_search) ->
    (bool allocated, int run_sectors)]. *)
Definition bdrv_is_allocated (i : nat) (sector max_search : Z) : M (bool * Z) :=
  b <- get_bs i ;; ret (BlockDriverState.is_allocated b sector max_search).

(** Modelled from the spec: [read(bs, sector, buf, n) -> result]; the
    result code and the buffer after the read. *)
Definition bdrv_read (i : nat) (sector nr_sectors : Z) : M (Z * list Z) :=
  b <- get_bs i ;; ret (BlockDriverState.read_result b sector nr_sectors).

(** Modelled from the spec: [write(bs, sector, buf, n) -> result]; the call
    is recorded with the [n] sectors of [buf] it hands over. *)
Definition bdrv_write (i : nat) (sector : Z) (buf : list Z) (nr_sectors : Z) : M Z :=
  b <- get_bs i ;;
  modify (fun s =>
    System.set_bdrv_writes
      (System.bdrv_writes s ++
         [WriteCall.mk i sector nr_sectors
            (take (Z.to_nat (nr_sectors * BDRV_SECTOR_SIZE)) buf)]) s) ;;;
  ret (BlockDriverState.write_result b sector nr_sectors).

(** Modelled from the spec: [async_read(bs, sector, iovec, n, completion,
    ctx) -> handle]; the request joins the reads in flight. *)
Definition bdrv_aio_readv (i : nat) (opaque : BlkMigBlock.t) : M unit :=
  modify (fun s => System.set_aio_requests (System.aio_requests s ++ [(i, opaque)]) s).

(** The first device whose name is the C string held by [name]. *)
Definition find_device (states : list BlockDriverState.t) (name : list Z) : option nat :=
  fst <$> list_find
    (fun b => bytes_eqb (c_str (BlockDriverState.device_name b)) (c_str name) = true)
    states.

(** Modelled from the spec: [find(name) -> bs], by comparison of C strings. *)
Definition bdrv_find (name : list Z) : M (option nat) :=
  s <- get ;; ret (find_device (System.bdrv_states s) name).

(** Modelled from the spec: [set_in_use(bs, bool)]. *)
Definition bdrv_set_in_use (i : nat) (v : Z) : M unit :=
  set_bs i (BlockDriverState.set_in_use v).

(** Modelled from the spec: the drive reference table, acquire. *)
Definition drive_get_ref (i : nat) : M unit :=
  set_bs i (fun b => BlockDriverState.set_drive_refs (BlockDriverState.drive_refs b + 1) b).

(** Modelled from the spec: the drive reference table, release. *)
Definition drive_put_ref (i : nat) : M unit :=
  set_bs i (fun b => BlockDriverState.set_drive_refs (BlockDriverState.drive_refs b - 1) b).

(** Modelled from the spec: [monotonic_nanos() -> int]. *)
Definition qemu_get_clock_ns : M Z := s <- get ;; ret (System.rt_clock s).

(** ** blk_send *)

Definition blk_send (blk : BlkMigBlock.t) : M unit :=
  let zero_blk := is_zero_blk (BlkMigBlock.buf blk) in
  modify (fun s => System.set_counts (System.total_blocks s + 1)
                     (System.zero_blocks s) (System.bulk_blocks s) s) ;;;
  when (truthy zero_blk)
    (modify (fun s => System.set_counts (System.total_blocks s)
                        (System.zero_blocks s + 1) (System.bulk_blocks s) s)) ;;;
  bmds <- get_bmds (BlkMigBlock.bmds blk) ;;
  when (negb (truthy (BlkMigDevState.bulk_completed bmds)))
    (modify (fun s => System.set_counts (System.total_blocks s)
                        (System.zero_blocks s) (System.bulk_blocks s + 1) s)) ;;;
  if truthy zero_blk && truthy (BlkMigDevState.sparse_enable bmds)
     && negb (truthy (BlkMigDevState.bulk_completed bmds))
  then ret tt
  else
    with_file (fun f =>
      qemu_put_be64 f
        (Z.lor (Z.lor (Z.shiftl (BlkMigBlock.sector blk) BDRV_SECTOR_BITS)
                      BLK_MIG_FLAG_DEVICE_BLOCK)
               (zero_blk * BLK_MIG_FLAG_ZERO_BLOCK))) ;;;
    bs <- get_bs (BlkMigDevState.bs bmds) ;;
    let len := to_int (strlen (BlockDriverState.device_name bs)) in
    with_file (fun f => qemu_put_byte f len) ;;;
    with_file (fun f => qemu_put_buffer f (BlockDriverState.device_name bs) len) ;;;
    if negb (truthy zero_blk)
    then with_file (fun f => qemu_put_buffer f (BlkMigBlock.buf blk) BLOCK_SIZE)
    else with_file qemu_fflush.

(** ** The in-flight bitmap *)

Definition bmds_aio_inflight (d : nat) (sector : Z) : M Z :=
  bmds <- get_bmds d ;;
  let chunk := sector ÷ BDRV_SECTORS_PER_DIRTY_CHUNK in
  len <- bdrv_getlength (BlkMigDevState.bs bmds) ;;
  if Z.shiftl sector BDRV_SECTOR_BITS <? len then
    ret (Z.b2z (truthy
           (Z.land (word_at (BlkMigDevState.aio_bitmap bmds) (to_ulong chunk / BITS_PER_LONG))
                   (Z.shiftl 1 (to_ulong chunk mod BITS_PER_LONG)))))
  else ret 0.

(** The [for] loop of [bmds_set_aio_inflight], with [n] chunks left from
    [start]. *)
Fixpoint set_aio_loop (n : nat) (start : Z) (set : Z) (bitmap : list Z) : list Z :=
  match n with
  | O => bitmap
  | S n' =>
      let idx := to_ulong start / BITS_PER_LONG in
      let bit := to_ulong start mod BITS_PER_LONG in
      let val := word_at bitmap idx in
      let val' :=
        if truthy set then Z.lor val (Z.shiftl 1 bit)
        else Z.land val (to_ulong (Z.lnot (Z.shiftl 1 bit))) in
      set_aio_loop n' (start + 1) set (<[Z.to_nat idx := val']> bitmap)
  end.

Definition bmds_set_aio_inflight (d : nat) (sector_num nb_sectors set : Z) : M unit :=
  let start := sector_num ÷ BDRV_SECTORS_PER_DIRTY_CHUNK in
  let end_ := (sector_num + nb_sectors - 1) ÷ BDRV_SECTORS_PER_DIRTY_CHUNK in
  set_bmds d (fun b =>
    BlkMigDevState.set_aio_bitmap
      (set_aio_loop (Z.to_nat (end_ - start + 1)) start set (BlkMigDevState.aio_bitmap b)) b).

(** [g_malloc0(bitmap_size)]: the code sizes the bitmap in bytes and uses
    it as an array of [unsigned long]; the model gives it the whole words
    that hold those bytes. *)
Definition alloc_aio_bitmap (len : Z) : list Z :=
  let bitmap_size :=
    (Z.shiftr len BDRV_SECTOR_BITS + BDRV_SECTORS_PER_DIRTY_CHUNK * 8 - 1)
      ÷ (BDRV_SECTORS_PER_DIRTY_CHUNK * 8) in
  replicate (Z.to_nat ((bitmap_size + 7) / 8)) 0.

(** ** Read completion *)

Definition blk_mig_read_cb (opaque : BlkMigBlock.t) (r : Z) : M unit :=
  curr_time <- qemu_get_clock_ns ;;
  let blk := BlkMigBlock.set_ret r opaque in
  set_mig (fun st => BlkMigState.set_reads (BlkMigState.reads st + 1) st) ;;;
  set_mig (fun st => BlkMigState.set_total_time
             (BlkMigState.total_time st + (curr_time - BlkMigState.prev_time_offset st)) st) ;;;
  set_mig (BlkMigState.set_prev_time_offset curr_time) ;;;
  set_mig (fun st => BlkMigState.set_blk_list (BlkMigState.blk_list st ++ [blk]) st) ;;;
  bmds_set_aio_inflight (BlkMigBlock.bmds blk) (BlkMigBlock.sector blk)
    (BlkMigBlock.nr_sectors blk) 0 ;;;
  set_mig (fun st => BlkMigState.set_submitted (BlkMigState.submitted st - 1) st) ;;;
  set_mig (fun st => BlkMigState.set_read_done (BlkMigState.read_done st + 1) st) ;;;
  st <- mig ;;
  assert (0 <=? BlkMigState.submitted st).

(** The block layer completes one read: the buffer is filled and the
    completion callback runs with the result code. *)
Definition aio_complete (req : nat * BlkMigBlock.t) : M unit :=
  let '(i, blk) := req in
  r <- bdrv_read i (BlkMigBlock.sector blk) (BlkMigBlock.nr_sectors blk) ;;
  blk_mig_read_cb (BlkMigBlock.set_buf (snd r) blk) (fst r).

Fixpoint aio_complete_all (reqs : list (nat * BlkMigBlock.t)) : M unit :=
  match reqs with
  | [] => ret tt
  | req :: reqs' => aio_complete req ;;; aio_complete_all reqs'
  end.

(** Modelled from the spec: [drain_all()], which waits for all outstanding
    reads; they complete in the order of their submission. *)
Definition bdrv_drain_all : M unit :=
  s <- get ;;
  modify (System.set_aio_requests []) ;;;
  aio_complete_all (System.aio_requests s).

End Engine.

Section Lifecycle.
Context {P : Platform}.

(** ** Bulk phase *)

(** The [while] loop that skips unallocated runs of a shared-base device. *)
Fixpoint skip_unallocated (fuel : nat) (bs : nat) (total_sectors cur_sector : Z) : M Z :=
  match fuel with
  | O => stuck
  | S fuel' =>
      if cur_sector <? total_sectors then
        r <- bdrv_is_allocated bs cur_sector MAX_IS_ALLOCATED_SEARCH ;;
        if fst r then ret cur_sector
        else skip_unallocated fuel' bs total_sectors (cur_sector + snd r)
      else ret cur_sector
  end.

Definition mig_save_device_bulk (d : nat) : M Z :=
  bmds <- get_bmds d ;;
  let total_sectors := BlkMigDevState.total_sectors bmds in
  let bs := BlkMigDevState.bs bmds in
  cur_sector <-
    (if truthy (BlkMigDevState.shared_base bmds)
     then skip_unallocated
            (S (Z.to_nat (total_sectors - BlkMigDevState.cur_sector bmds)))
            bs total_sectors (BlkMigDevState.cur_sector bmds)
     else ret (BlkMigDevState.cur_sector bmds)) ;;
  if total_sectors <=? cur_sector then
    set_bmds d (fun b => BlkMigDevState.set_cur_sector total_sectors
                           (BlkMigDevState.set_completed_sectors total_sectors b)) ;;;
    ret 1
  else
    set_bmds d (BlkMigDevState.set_completed_sectors cur_sector) ;;;
    let cur_sector := Z.land cur_sector (Z.lnot (BDRV_SECTORS_PER_DIRTY_CHUNK - 1)) in
    (* we are going to transfer a full block even if it is not allocated *)
    let nr_sectors :=
      if total_sectors - cur_sector <? BDRV_SECTORS_PER_DIRTY_CHUNK
      then to_int (total_sectors - cur_sector)
      else BDRV_SECTORS_PER_DIRTY_CHUNK in
    let blk := BlkMigBlock.mk [] d cur_sector nr_sectors 0 in
    st <- mig ;;
    when (BlkMigState.submitted st =? 0)
      (now <- qemu_get_clock_ns ;; set_mig (BlkMigState.set_prev_time_offset now)) ;;;
    bdrv_aio_readv bs blk ;;;
    set_mig (fun st => BlkMigState.set_submitted (BlkMigState.submitted st + 1) st) ;;;
    bdrv_reset_dirty bs cur_sector nr_sectors ;;;
    set_bmds d (BlkMigDevState.set_cur_sector (cur_sector + nr_sectors)) ;;;
    b <- get_bmds d ;;
    ret (Z.b2z (total_sectors <=? BlkMigDevState.cur_sector b)).

Definition set_dirty_tracking (enable : Z) : M unit :=
  st <- mig ;;
  foldr (fun b k => bdrv_set_dirty_tracking (BlkMigDevState.bs b) enable ;;; k)
        (ret tt) (BlkMigState.bmds_list st).

(** The callback given to [bdrv_iterate], for the device of index [bs]. *)
Definition init_blk_migration_it (bs : nat) : M unit :=
  ro <- bdrv_is_read_only bs ;;
  if negb ro then
    len <- bdrv_getlength bs ;;
    let sectors := Z.shiftr len BDRV_SECTOR_BITS in
    if sectors <=? 0 then ret tt
    else
      st <- mig ;;
      let bmds :=
        BlkMigDevState.mk bs 0 (BlkMigState.shared_base st)
          (BlkMigState.sparse_enable st) 0 0 0 sectors 0 (alloc_aio_bitmap len) in
      drive_get_ref bs ;;;
      bdrv_set_in_use bs 1 ;;;
      set_mig (fun st => BlkMigState.set_total_sector_sum
                 (BlkMigState.total_sector_sum st + sectors) st) ;;;
      set_mig (fun st => BlkMigState.set_bmds_list (BlkMigState.bmds_list st ++ [bmds]) st)
  else ret tt.

(** Modelled from the spec: [iterate_all(fn, ctx)], over the devices in
    their order in the block layer. *)
Definition bdrv_iterate (it : nat -> M unit) : M unit :=
  s <- get ;;
  foldr (fun i k => it i ;;; k) (ret tt) (seq 0 (length (System.bdrv_states s))).

Definition init_blk_migration : M unit :=
  set_mig (BlkMigState.set_submitted 0) ;;;
  set_mig (BlkMigState.set_read_done 0) ;;;
  set_mig (BlkMigState.set_transferred 0) ;;;
  set_mig (BlkMigState.set_total_sector_sum 0) ;;;
  set_mig (BlkMigState.set_prev_progress (-1)) ;;;
  set_mig (BlkMigState.set_bulk_completed 0) ;;;
  set_mig (BlkMigState.set_total_time 0) ;;;
  set_mig (BlkMigState.set_reads 0) ;;;
  modify (System.set_counts 0 0 0) ;;;
  bdrv_iterate init_blk_migration_it.

(** The [QSIMPLEQ_FOREACH] of [blk_mig_save_bulked_block] over the device
    states of indices [ds]; returns [completed_sector_sum] and [ret]. *)
Fixpoint bulked_foreach (ds : list nat) (completed_sector_sum : Z) : M (Z * Z) :=
  match ds with
  | [] => ret (completed_sector_sum, 0)
  | d :: ds' =>
      bmds <- get_bmds d ;;
      if BlkMigDevState.bulk_completed bmds =? 0 then
        r <- mig_save_device_bulk d ;;
        when (r =? 1) (set_bmds d (BlkMigDevState.set_bulk_completed 1)) ;;;
        bmds' <- get_bmds d ;;
        ret (completed_sector_sum + BlkMigDevState.completed_sectors bmds', 1)
      else
        bulked_foreach ds' (completed_sector_sum + BlkMigDevState.completed_sectors bmds)
  end.

Definition blk_mig_save_bulked_block : M Z :=
  st <- mig ;;
  r <- bulked_foreach (seq 0 (length (BlkMigState.bmds_list st))) 0 ;;
  let completed_sector_sum := fst r in
  st <- mig ;;
  let progress :=
    if negb (BlkMigState.total_sector_sum st =? 0)
    then to_int (completed_sector_sum * 100 ÷ BlkMigState.total_sector_sum st)
    else 100 in
  when (negb (progress =? BlkMigState.prev_progress st))
    (set_mig (BlkMigState.set_prev_progress progress) ;;;
     with_file (fun f => qemu_put_be64 f
                  (Z.lor (Z.shiftl progress BDRV_SECTOR_BITS) BLK_MIG_FLAG_PROGRESS))) ;;;
  ret (snd r).

Definition blk_mig_reset_dirty_cursor : M unit :=
  set_mig (fun st => BlkMigState.set_bmds_list
             (map (BlkMigDevState.set_cur_dirty 0) (BlkMigState.bmds_list st)) st).

(** ** Dirty phase *)

(** The [for] loop of [mig_save_device_dirty] from [sector] on, followed by
    the [return] it leads to. *)
Fixpoint dirty_scan (fuel : nat) (d : nat) (is_async : Z) (sector : Z) : M Z :=
  match fuel with
  | O => stuck
  | S fuel' =>
      bmds <- get_bmds d ;;
      let total_sectors := BlkMigDevState.total_sectors bmds in
      if sector <? BlkMigDevState.total_sectors bmds then
        inflight <- bmds_aio_inflight d sector ;;
        when (truthy inflight) bdrv_drain_all ;;;
        is_dirty <- bdrv_get_dirty (BlkMigDevState.bs bmds) sector ;;
        if is_dirty then
          let nr_sectors :=
            if total_sectors - sector <? BDRV_SECTORS_PER_DIRTY_CHUNK
            then to_int (total_sectors - sector)
            else BDRV_SECTORS_PER_DIRTY_CHUNK in
          let blk := BlkMigBlock.mk [] d sector nr_sectors 0 in
          err <-
            (if truthy is_async then
               st <- mig ;;
               when (BlkMigState.submitted st =? 0)
                 (now <- qemu_get_clock_ns ;;
                  set_mig (BlkMigState.set_prev_time_offset now)) ;;;
               bdrv_aio_readv (BlkMigDevState.bs bmds) blk ;;;
               set_mig (fun st => BlkMigState.set_submitted
                          (BlkMigState.submitted st + 1) st) ;;;
               bmds_set_aio_inflight d sector nr_sectors 1 ;;;
               ret None
             else
               r <- bdrv_read (BlkMigDevState.bs bmds) sector nr_sectors ;;
               if fst r <? 0 then ret (Some (fst r))
               else blk_send (BlkMigBlock.set_buf (snd r) blk) ;;; ret None) ;;
          match err with
          | Some r => (* error: *) ret r
          | None =>
              bdrv_reset_dirty (BlkMigDevState.bs bmds) sector nr_sectors ;;;
              (* break *)
              b <- get_bmds d ;;
              ret (Z.b2z (BlkMigDevState.total_sectors b <=? BlkMigDevState.cur_dirty b))
          end
        else
          set_bmds d (BlkMigDevState.set_cur_dirty (sector + BDRV_SECTORS_PER_DIRTY_CHUNK)) ;;;
          dirty_scan fuel' d is_async (sector + BDRV_SECTORS_PER_DIRTY_CHUNK)
      else
        b <- get_bmds d ;;
        ret (Z.b2z (BlkMigDevState.total_sectors b <=? BlkMigDevState.cur_dirty b))
  end.

Definition mig_save_device_dirty (d : nat) (is_async : Z) : M Z :=
  bmds <- get_bmds d ;;
  dirty_scan
    (S (Z.to_nat (BlkMigDevState.total_sectors bmds - BlkMigDevState.cur_dirty bmds)))
    d is_async (BlkMigDevState.cur_dirty bmds).

(** The [QSIMPLEQ_FOREACH] of [blk_mig_save_dirty_block]. *)
Fixpoint dirty_foreach (ds : list nat) (is_async : Z) (r0 : Z) : M Z :=
  match ds with
  | [] => ret r0
  | d :: ds' =>
      r <- mig_save_device_dirty d is_async ;;
      if r <=? 0 then ret r else dirty_foreach ds' is_async r
  end.

Definition blk_mig_save_dirty_block (is_async : Z) : M Z :=
  st <- mig ;;
  dirty_foreach (seq 0 (length (BlkMigState.bmds_list st))) is_async 1.

(** ** Send path *)

(** The [while] loop of [flush_blks]. *)
Fixpoint flush_loop (fuel : nat) : M Z :=
  match fuel with
  | O => stuck
  | S fuel' =>
      st <- mig ;;
      match BlkMigState.blk_list st with
      | [] => ret 0
      | blk :: rest =>
          s <- get ;;
          if qemu_file_rate_limit (System.out_file s) then ret 0
          else if BlkMigBlock.ret blk <? 0 then ret (BlkMigBlock.ret blk)
          else
            blk_send blk ;;;
            set_mig (BlkMigState.set_blk_list rest) ;;;
            set_mig (fun st => BlkMigState.set_read_done (BlkMigState.read_done st - 1) st) ;;;
            set_mig (fun st => BlkMigState.set_transferred (BlkMigState.transferred st + 1) st) ;;;
            st' <- mig ;;
            assert (0 <=? BlkMigState.read_done st') ;;;
            flush_loop fuel'
      end
  end.

Definition flush_blks : M Z :=
  st <- mig ;;
  flush_loop (S (length (BlkMigState.blk_list st))).

(** ** Convergence test *)

Definition get_remaining_dirty : M Z :=
  st <- mig ;;
  dirty <- foldr (fun b k => n <- bdrv_get_dirty_count (BlkMigDevState.bs b) ;;
                             m <- k ;; ret (n + m))
                 (ret 0) (BlkMigState.bmds_list st) ;;
  ret (dirty * BLOCK_SIZE).

(** [compute_read_bwidth] and the comparison that uses it are [long double]
    computations: the model keeps the assertion and takes the outcome of
    the comparison from the platform. *)
Definition is_stage2_completed : M Z :=
  st <- mig ;;
  if BlkMigState.bulk_completed st =? 1 then
    remaining_dirty <- get_remaining_dirty ;;
    if remaining_dirty =? 0 then ret 1
    else
      assert (negb (BlkMigState.total_time st =? 0)) ;;;
      if downtime_within_budget remaining_dirty (BlkMigState.reads st)
           (BlkMigState.total_time st)
      then ret 1
      else ret 0
  else ret 0.

(** ** Cleanup and the lifecycle hooks *)

Definition blk_mig_cleanup : M unit :=
  bdrv_drain_all ;;;
  set_dirty_tracking 0 ;;;
  st <- mig ;;
  foldr (fun b k => bdrv_set_in_use (BlkMigDevState.bs b) 0 ;;;
                    drive_put_ref (BlkMigDevState.bs b) ;;; k)
        (ret tt) (BlkMigState.bmds_list st) ;;;
  set_mig (BlkMigState.set_bmds_list []) ;;;
  set_mig (BlkMigState.set_blk_list []).

Definition block_save_setup : M Z :=
  init_blk_migration ;;;
  (* start track dirty blocks *)
  set_dirty_tracking 1 ;;;
  r <- flush_blks ;;
  if truthy r then blk_mig_cleanup ;;; ret r
  else
    blk_mig_reset_dirty_cursor ;;;
    with_file (fun f => qemu_put_be64 f BLK_MIG_FLAG_EOS) ;;;
    ret 0.

(** The rate-control [while] loop of [block_save_iterate]; [r] is the
    current value of the local [ret]. *)
Fixpoint iterate_loop (fuel : nat) (r : Z) : M Z :=
  match fuel with
  | O => stuck
  | S fuel' =>
      st <- mig ;;
      s <- get ;;
      if (BlkMigState.submitted st + BlkMigState.read_done st) * BLOCK_SIZE
           <? qemu_file_get_rate_limit (System.out_file s)
      then
        if BlkMigState.bulk_completed st =? 0 then
          (* first finish the bulk phase *)
          b <- blk_mig_save_bulked_block ;;
          when (b =? 0)
            (* finished saving bulk on all devices *)
            (set_mig (BlkMigState.set_bulk_completed 1)) ;;;
          iterate_loop fuel' r
        else
          r' <- blk_mig_save_dirty_block 1 ;;
          if negb (r' =? 0) then (* no more dirty blocks *) ret r'
          else iterate_loop fuel' r'
      else ret r
  end.

(** [block_save_iterate]; [fuel] bounds the iterations of the rate-control
    loop, whose length depends on the transport. *)
Definition block_save_iterate (fuel : nat) : M Z :=
  r <- flush_blks ;;
  if truthy r then blk_mig_cleanup ;;; ret r
  else
    blk_mig_reset_dirty_cursor ;;;
    (* control the rate of transfer *)
    r <- iterate_loop fuel r ;;
    if truthy r then blk_mig_cleanup ;;; ret r
    else
      r <- flush_blks ;;
      if truthy r then blk_mig_cleanup ;;; ret r
      else
        with_file (fun f => qemu_put_be64 f BLK_MIG_FLAG_EOS) ;;;
        is_stage2_completed.

End Lifecycle.

(** ** Receiver *)

(** The locals of [block_load] that live across iterations of its loop. *)
Module LoadLocals.
Record t : Type := mk {
  device_name : list Z;
  bs_prev : option nat;
  buf : list Z;
  total_sectors : Z;
  buf_is_zeroed : Z
}.
End LoadLocals.

(** What one pass through the body of the [do ... while] loop leads to. *)
Inductive load_next : Type :=
| Again (l : LoadLocals.t) (flags : Z)
| Return (r : Z).

Section Receiver.
Context {P : Platform}.

(** Modelled from the spec: the receiver "recovers the sector by shifting
    right by SECTOR_BITS after masking off the low bits below the sector
    size"; the mask keeps the bits from the sector size up. *)
Definition BDRV_SECTOR_MASK : Z := Z.lnot (BDRV_SECTOR_SIZE - 1).

Definition set_in_error (e : Z) : M unit :=
  modify (fun s =>
    let f := System.in_file s in
    System.set_in_file
      (InFile.mk (InFile.pending f)
         (if InFile.last_error f =? 0 then e else InFile.last_error f)) s).

(** Modelled from the spec: [get_u8()]; past the end of the stream the
    transport records a read failure and yields 0. *)
Definition qemu_get_byte : M Z :=
  s <- get ;;
  match InFile.pending (System.in_file s) with
  | b :: rest =>
      modify (System.set_in_file (InFile.mk rest (InFile.last_error (System.in_file s)))) ;;;
      ret b
  | [] => set_in_error (- EIO) ;;; ret 0
  end.

Fixpoint qemu_get_bytes (n : nat) : M (list Z) :=
  match n with
  | O => ret []
  | S n' => b <- qemu_get_byte ;; bs <- qemu_get_bytes n' ;; ret (b :: bs)
  end.

(** Modelled from the spec: [get_u64_be()]. *)
Definition qemu_get_be64 : M Z :=
  bs <- qemu_get_bytes 8 ;; ret (be_value 0 bs).

(** Modelled from the spec: [get_bytes(ptr, len)]; the bytes received
    overwrite the start of the buffer, and a short read is a read failure. *)
Definition qemu_get_buffer (buf : list Z) (size : Z) : M (list Z) :=
  s <- get ;;
  let f := System.in_file s in
  let got := take (Z.to_nat size) (InFile.pending f) in
  modify (System.set_in_file
            (InFile.mk (drop (Z.to_nat size) (InFile.pending f)) (InFile.last_error f))) ;;;
  when (Z.of_nat (length got) <? size) (set_in_error (- EIO)) ;;;
  ret (got ++ drop (length got) buf).

(** Modelled from the spec: [error() -> result]. *)
Definition qemu_file_get_error : M Z :=
  s <- get ;; ret (InFile.last_error (System.in_file s)).

(** The body of the [do ... while] loop of [block_load]. *)
Definition block_load_body (l : LoadLocals.t) : M load_next :=
  w <- qemu_get_be64 ;;
  let addr := to_int64 w in
  let flags := to_int (Z.land addr (Z.lnot BDRV_SECTOR_MASK)) in
  let addr := Z.shiftr addr BDRV_SECTOR_BITS in
  step <-
    (if truthy (Z.land flags BLK_MIG_FLAG_DEVICE_BLOCK) then
       (* get device name *)
       len <- qemu_get_byte ;;
       name <- qemu_get_buffer (LoadLocals.device_name l) len ;;
       let device_name := <[Z.to_nat len := 0]> name in
       found <- bdrv_find device_name ;;
       match found with
       | None => ret (Return (- EINVAL))
       | Some bs =>
           len_or_err <-
             (if negb (bool_decide (Some bs = LoadLocals.bs_prev l)) then
                n <- bdrv_getlength bs ;;
                let total_sectors := Z.shiftr n BDRV_SECTOR_BITS in
                if total_sectors <=? 0 then ret None
                else ret (Some (Some bs, total_sectors))
              else ret (Some (LoadLocals.bs_prev l, LoadLocals.total_sectors l))) ;;
           match len_or_err with
           | None => ret (Return (- EINVAL))
           | Some (bs_prev, total_sectors) =>
               let nr_sectors :=
                 if total_sectors - addr <? BDRV_SECTORS_PER_DIRTY_CHUNK
                 then to_int (total_sectors - addr)
                 else BDRV_SECTORS_PER_DIRTY_CHUNK in
               buf <-
                 (if truthy (Z.land flags BLK_MIG_FLAG_ZERO_BLOCK) then
                    ret (if negb (truthy (LoadLocals.buf_is_zeroed l))
                         then replicate (Z.to_nat BLOCK_SIZE) 0
                                ++ drop (Z.to_nat BLOCK_SIZE) (LoadLocals.buf l)
                         else LoadLocals.buf l, 1)
                  else
                    b <- qemu_get_buffer (LoadLocals.buf l) BLOCK_SIZE ;;
                    ret (b, 0)) ;;
               r <- bdrv_write bs addr (fst buf) nr_sectors ;;
               if r <? 0 then ret (Return r)
               else ret (Again (LoadLocals.mk device_name bs_prev (fst buf)
                                  total_sectors (snd buf)) flags)
           end
       end
     else if truthy (Z.land flags BLK_MIG_FLAG_PROGRESS) then
       ret (Again l flags)
     else if negb (truthy (Z.land flags BLK_MIG_FLAG_EOS)) then
       ret (Return (- EINVAL))
     else ret (Again l flags)) ;;
  match step with
  | Return r => ret (Return r)
  | Again l' flags' =>
      e <- qemu_file_get_error ;;
      if negb (e =? 0) then ret (Return e) else ret (Again l' flags')
  end.

Fixpoint block_load_loop (fuel : nat) (l : LoadLocals.t) : M Z :=
  match fuel with
  | O => stuck
  | S fuel' =>
      step <- block_load_body l ;;
      match step with
      | Return r => ret r
      | Again l' flags =>
          if negb (truthy (Z.land flags BLK_MIG_FLAG_EOS))
          then block_load_loop fuel' l'
          else ret 0
      end
  end.

(** [block_load]; [stack] and [heap] are what the uninitialised array
    [device_name] and the fresh [buf] hold on entry. *)
Definition block_load (stack heap : list Z) : M Z :=
  s <- get ;;
  block_load_loop (S (length (InFile.pending (System.in_file s))))
    (LoadLocals.mk stack None heap 0 0).

End Receiver.

(** ** Parameters *)

(** Modelled from the spec: the three booleans [blk], [shared] and [sparse]
    that the migration driver passes in [MigrationParams]. *)
Module MigrationParams.
Record t : Type := mk {
  blk : bool;
  shared : bool;
  sparse : bool
}.
End MigrationParams.

Definition block_set_params (params : MigrationParams.t) : M unit :=
  set_mig (fun st => BlkMigState.set_params (Z.b2z (MigrationParams.blk params))
                       (BlkMigState.shared_base st) (BlkMigState.sparse_enable st) st) ;;;
  set_mig (fun st => BlkMigState.set_params (BlkMigState.blk_enable st)
                       (Z.b2z (MigrationParams.shared params))
                       (BlkMigState.sparse_enable st) st) ;;;
  set_mig (fun st => BlkMigState.set_params (BlkMigState.blk_enable st)
                       (BlkMigState.shared_base st)
                       (Z.b2z (MigrationParams.sparse params)) st) ;;;
  (* shared base means that blk_enable = 1 *)
  set_mig (fun st => BlkMigState.set_params
                       (Z.lor (BlkMigState.blk_enable st)
                              (Z.b2z (MigrationParams.shared params)))
                       (BlkMigState.shared_base st) (BlkMigState.sparse_enable st) st) ;;;
  (* sparse means that blk_enable== 1 *)
  set_mig (fun st => BlkMigState.set_params
                       (Z.lor (BlkMigState.blk_enable st)
                              (Z.b2z (MigrationParams.sparse params)))
                       (BlkMigState.shared_base st) (BlkMigState.sparse_enable st) st).

Definition block_is_active : M bool :=
  st <- mig ;; ret (BlkMigState.blk_enable st =? 1).

(** ** Frames *)

Section Frames.
Context {P : Platform}.

(** The events of a device-block frame, as [blk_send] produces them. *)
Definition sent_frame (sector : Z) (name buf : list Z) (zero_blk : Z) : QEMUFile :=
  let f :=
    qemu_put_be64 []
      (Z.lor (Z.lor (Z.shiftl sector BDRV_SECTOR_BITS) BLK_MIG_FLAG_DEVICE_BLOCK)
             (zero_blk * BLK_MIG_FLAG_ZERO_BLOCK)) in
  let len := to_int (strlen name) in
  let f := qemu_put_byte f len in
  let f := qemu_put_buffer f name len in
  if negb (truthy zero_blk) then qemu_put_buffer f buf BLOCK_SIZE else qemu_fflush f.

(** The layout of a device-block frame in the words of the specification:
    header, length byte, name, then payload or flush. *)
Definition device_block_frame (sector : Z) (name buf : list Z) (zero : bool) : QEMUFile :=
  map Put (be_bytes 8
             (Z.lor (Z.lor (Z.shiftl sector BDRV_SECTOR_BITS) BLK_MIG_FLAG_DEVICE_BLOCK)
                    (if zero then BLK_MIG_FLAG_ZERO_BLOCK else 0) mod 2 ^ 64))
  ++ [Put (strlen name)]
  ++ map Put (c_str name)
  ++ (if zero then [Flush] else map Put buf).

(** The condition under which [blk_send] sends nothing. *)
Definition elided (buf : list Z) (bmds : BlkMigDevState.t) : Prop :=
  Forall (fun b => b = 0) buf
  /\ BlkMigDevState.sparse_enable bmds <> 0
  /\ BlkMigDevState.bulk_completed bmds = 0.

End Frames.

(** ** Receiver-side notions used in the statements *)

(** The machine with [rest] as the bytes still to be received. *)
Definition with_pending (rest : list Z) (s : System.t) : System.t :=
  System.set_in_file (InFile.mk rest (InFile.last_error (System.in_file s))) s.

Section LoadInvariant.
Context {P : Platform}.

(** What holds of the locals of [block_load] at the head of its loop: the
    array [device_name] has its 256 bytes, [buf] is a chunk buffer that
    holds zeros when [buf_is_zeroed] says so, and the cached sector count
    is that of the device last written. *)
Definition load_inv (l : LoadLocals.t) (s : System.t) : Prop :=
  length (LoadLocals.device_name l) = 256%nat
  /\ Z.of_nat (length (LoadLocals.buf l)) = BLOCK_SIZE
  /\ (LoadLocals.buf_is_zeroed l <> 0 -> Forall (fun b => b = 0) (LoadLocals.buf l))
  /\ (forall bs, LoadLocals.bs_prev l = Some bs ->
        exists b, System.bdrv_states s !! bs = Some b
                  /\ LoadLocals.total_sectors l
                     = Z.shiftr (BlockDriverState.getlength b) BDRV_SECTOR_BITS).

End LoadInvariant.

(** ** Engine-side notions used in the statements *)

(** The bit of chunk [c] in an array of [unsigned long]. *)
Definition bit_at (bitmap : list Z) (c : Z) : bool :=
  Z.testbit (word_at bitmap (to_ulong c / BITS_PER_LONG)) (to_ulong c mod BITS_PER_LONG).

(** Two device states that differ at most in the contents of the in-flight
    bitmap and in the dirty cursor. *)
Definition same_dev (b b' : BlkMigDevState.t) : Prop :=
  BlkMigDevState.set_aio_bitmap [] (BlkMigDevState.set_cur_dirty 0 b)
  = BlkMigDevState.set_aio_bitmap [] (BlkMigDevState.set_cur_dirty 0 b')
  /\ length (BlkMigDevState.aio_bitmap b) = length (BlkMigDevState.aio_bitmap b').

Definition devs_agree (l l' : list BlkMigDevState.t) : Prop :=
  forall d b, l !! d = Some b -> exists b', l' !! d = Some b' /\ same_dev b b'.

(** Two devices of the block layer that differ at most in their dirty
    bitmap. *)
Definition same_drive (b b' : BlockDriverState.t) : Prop :=
  BlockDriverState.set_dirty_bitmap None b = BlockDriverState.set_dirty_bitmap None b'.

Definition drives_agree (l l' : list BlockDriverState.t) : Prop :=
  forall i b, l !! i = Some b -> exists b', l' !! i = Some b' /\ same_drive b b'.

(** The bitmaps of all device states are the same in [l] and [l']. *)
Definition bitmaps_kept (l l' : list BlkMigDevState.t) : Prop :=
  forall i b, l !! i = Some b ->
    exists b', l' !! i = Some b' /\ BlkMigDevState.aio_bitmap b' = BlkMigDevState.aio_bitmap b.

(** Every device state points to a device of the block layer. *)
Definition devs_valid (s : System.t) : Prop :=
  Forall (fun b => (BlkMigDevState.bs b < length (System.bdrv_states s))%nat)
         (BlkMigState.bmds_list (System.block_mig_state s)).

(** Every pointer held by the engine designates an object, and no more
    reads are outstanding than [submitted] counts: each device state points
    to a device of the block layer, and each read in flight has a device
    and an owning device state. *)
Definition well_formed (s : System.t) : bool :=
  let st := System.block_mig_state s in
  forallb (fun b => (BlkMigDevState.bs b <? length (System.bdrv_states s))%nat)
          (BlkMigState.bmds_list st)
  && forallb (fun req =>
                (fst req <? length (System.bdrv_states s))%nat
                && (BlkMigBlock.bmds (snd req) <? length (BlkMigState.bmds_list st))%nat)
             (System.aio_requests s)
  && (Z.of_nat (length (System.aio_requests s)) <=? BlkMigState.submitted st).

Section EngineNotions.
Context {P : Platform}.

(** The machine after [blk_mig_read_cb] has run for [blk], owned by the
    device state [b], with result [r]. *)
Definition after_read_cb (blk : BlkMigBlock.t) (r : Z) (b : BlkMigDevState.t)
           (s : System.t) : System.t :=
  let st := System.block_mig_state s in
  let start := BlkMigBlock.sector blk ÷ BDRV_SECTORS_PER_DIRTY_CHUNK in
  let end_ := (BlkMigBlock.sector blk + BlkMigBlock.nr_sectors blk - 1)
                ÷ BDRV_SECTORS_PER_DIRTY_CHUNK in
  System.set_block_mig_state
    (BlkMigState.mk (BlkMigState.blk_enable st) (BlkMigState.shared_base st)
       (BlkMigState.sparse_enable st)
       (<[BlkMigBlock.bmds blk :=
            BlkMigDevState.set_aio_bitmap
              (set_aio_loop (Z.to_nat (end_ - start + 1)) start 0
                 (BlkMigDevState.aio_bitmap b)) b]> (BlkMigState.bmds_list st))
       (BlkMigState.blk_list st ++ [BlkMigBlock.set_ret r blk])
       (BlkMigState.submitted st - 1) (BlkMigState.read_done st + 1)
       (BlkMigState.transferred st) (BlkMigState.total_sector_sum st)
       (BlkMigState.prev_progress st) (BlkMigState.bulk_completed st)
       (BlkMigState.total_time st + (System.rt_clock s - BlkMigState.prev_time_offset st))
       (System.rt_clock s) (BlkMigState.reads st + 1)) s.

(** The counters of the pipeline agree with the queues they count. *)
Definition counters_inv (s : System.t) : Prop :=
  let st := System.block_mig_state s in
  Z.of_nat (length (BlkMigState.blk_list st)) = BlkMigState.read_done st
  /\ Z.of_nat (length (System.aio_requests s)) = BlkMigState.submitted st
  /\ 0 <= BlkMigState.read_done st
  /\ 0 <= BlkMigState.submitted st.

(** What [n] completion callbacks change: the counters move by [n], the
    queue grows by [n], and the device states keep all but their bitmaps. *)
Definition drained (n : Z) (s s' : System.t) : Prop :=
  let st := System.block_mig_state s in
  let st' := System.block_mig_state s' in
  System.bdrv_states s' = System.bdrv_states s
  /\ System.out_file s' = System.out_file s
  /\ System.total_blocks s' = System.total_blocks s
  /\ System.aio_requests s' = System.aio_requests s
  /\ devs_agree (BlkMigState.bmds_list st) (BlkMigState.bmds_list st')
  /\ (forall d b b', BlkMigState.bmds_list st !! d = Some b ->
        BlkMigState.bmds_list st' !! d = Some b' ->
        BlkMigDevState.cur_dirty b' = BlkMigDevState.cur_dirty b)
  /\ BlkMigState.submitted st' = BlkMigState.submitted st - n
  /\ BlkMigState.read_done st' = BlkMigState.read_done st + n
  /\ Z.of_nat (length (BlkMigState.blk_list st'))
     = Z.of_nat (length (BlkMigState.blk_list st)) + n
  /\ BlkMigState.transferred st' = BlkMigState.transferred st
  /\ (0 < n -> 0 <= BlkMigState.submitted st').

(** The sector count of the chunk read at [sector] on a device of [total]
    sectors. *)
Definition chunk_sectors (total sector : Z) : Z :=
  if total - sector <? BDRV_SECTORS_PER_DIRTY_CHUNK
  then to_int (total - sector)
  else BDRV_SECTORS_PER_DIRTY_CHUNK.

(** What the scan of [mig_save_device_dirty] changes before it copies
    anything: reads may have been drained and dirty cursors advanced. *)
Definition quiet (s s' : System.t) : Prop :=
  let st := System.block_mig_state s in
  let st' := System.block_mig_state s' in
  System.bdrv_states s' = System.bdrv_states s
  /\ System.out_file s' = System.out_file s
  /\ System.total_blocks s' = System.total_blocks s
  /\ devs_agree (BlkMigState.bmds_list st) (BlkMigState.bmds_list st')
  /\ length (BlkMigState.bmds_list st') = length (BlkMigState.bmds_list st)
  /\ (counters_inv s -> counters_inv s')
  /\ BlkMigState.transferred st' = BlkMigState.transferred st.

(** What a call of [mig_save_device_dirty] on device state [d], which was
    [b] in machine [s], has done when it returns [r] in machine [s']:
    either the device is exhausted ([r = 1]), or the chunk at the dirty
    cursor has been copied ([r = 0]), or a synchronous read has failed
    ([r < 0]). *)
Definition dirty_step_post (d : nat) (is_async : Z) (b : BlkMigDevState.t)
           (s : System.t) (r : Z) (s' : System.t) : Prop :=
  let st := System.block_mig_state s in
  let st' := System.block_mig_state s' in
  let total := BlkMigDevState.total_sectors b in
  exists b',
    BlkMigState.bmds_list st' !! d = Some b'
    /\ same_dev b b'
    /\ BlkMigDevState.cur_dirty b <= BlkMigDevState.cur_dirty b'
    /\ devs_agree (BlkMigState.bmds_list st) (BlkMigState.bmds_list st')
    /\ length (BlkMigState.bmds_list st') = length (BlkMigState.bmds_list st)
    /\ drives_agree (System.bdrv_states s) (System.bdrv_states s')
    /\ (counters_inv s -> counters_inv s')
    /\ BlkMigState.transferred st' = BlkMigState.transferred st
    /\ ((r = 1 /\ total <= BlkMigDevState.cur_dirty b'
         /\ System.bdrv_states s' = System.bdrv_states s
         /\ System.out_file s' = System.out_file s)
        \/ (r = 0 /\ BlkMigDevState.cur_dirty b' < total
            /\ let sector := BlkMigDevState.cur_dirty b' in
               let nr := chunk_sectors total sector in
               (forall t, sector <= t <= sector + nr - 1 ->
                          bdrv_get_dirty (BlkMigDevState.bs b) t s' = Some (false, s'))
               /\ (truthy is_async = true ->
                   (exists reqs,
                      System.aio_requests s'
                      = reqs ++ [(BlkMigDevState.bs b, BlkMigBlock.mk [] d sector nr 0)])
                   /\ (1 <= nr ->
                       to_ulong (sector ÷ BDRV_SECTORS_PER_DIRTY_CHUNK) / BITS_PER_LONG
                       < Z.of_nat (length (BlkMigDevState.aio_bitmap b)) ->
                       bit_at (BlkMigDevState.aio_bitmap b')
                              (sector ÷ BDRV_SECTORS_PER_DIRTY_CHUNK) = true))
               /\ (truthy is_async = false ->
                   System.total_blocks s' = System.total_blocks s + 1))
        \/ (r < 0 /\ truthy is_async = false
            /\ BlkMigDevState.cur_dirty b' < total
            /\ System.bdrv_states s' = System.bdrv_states s
            /\ System.out_file s' = System.out_file s)).

End EngineNotions.

(** ** Observation points of a session *)

Section Session.
Context {P : Platform}.

(** Modelled from the spec: an asynchronous read completes "via its
    completion callback, which is re-entered on the same task"; the block
    layer may complete any outstanding read, here the [i]-th. *)
Definition aio_complete_nth (i : nat) : M unit :=
  s <- get ;;
  match System.aio_requests s !! i with
  | None => stuck
  | Some req =>
      modify (System.set_aio_requests (delete i (System.aio_requests s))) ;;;
      aio_complete req
  end.

(** The operations of the engine between which the machine is observed. *)
Inductive engine_op : Type :=
| OpReadCompletes (i : nat)
| OpFlush
| OpBulkStep
| OpBulkDevice (d : nat)
| OpDirtyStep (is_async : Z)
| OpDirtyDevice (d : nat) (is_async : Z).

Definition run_op (o : engine_op) : M unit :=
  match o with
  | OpReadCompletes i => aio_complete_nth i
  | OpFlush => flush_blks ;;; ret tt
  | OpBulkStep => blk_mig_save_bulked_block ;;; ret tt
  | OpBulkDevice d => mig_save_device_bulk d ;;; ret tt
  | OpDirtyStep is_async => blk_mig_save_dirty_block is_async ;;; ret tt
  | OpDirtyDevice d is_async => mig_save_device_dirty d is_async ;;; ret tt
  end.

(** The machines observed along a run of operations, the first one
    included. *)
Fixpoint observe (ops : list engine_op) (s : System.t) : option (list System.t) :=
  match ops with
  | [] => Some [s]
  | o :: ops' =>
      match run_op o s with
      | Some (_, s') => cons s <$> observe ops' s'
      | None => None
      end
  end.

(** The part of the machine that the counters talk about. *)
Definition pipeline (s : System.t)
  : list BlkMigBlock.t * list (nat * BlkMigBlock.t) * Z * Z * Z :=
  let st := System.block_mig_state s in
  (BlkMigState.blk_list st, System.aio_requests s, BlkMigState.submitted st,
   BlkMigState.read_done st, BlkMigState.transferred st).

Definition transferred_le (s s' : System.t) : Prop :=
  BlkMigState.transferred (System.block_mig_state s)
  <= BlkMigState.transferred (System.block_mig_state s').

End Session.

(** ** Concrete machines

    The platform of the QEMU tree the file belongs to (512-byte sectors,
    chunks of 2048 sectors), the same with a transport that is over its
    rate limit, and a small platform (16-byte sectors, chunks of 2 sectors)
    on which whole buffers can be written out. *)

Module Example.

Definition qemu : Platform := {|
  BDRV_SECTOR_BITS := 9;
  BDRV_SECTORS_PER_DIRTY_CHUNK := 2048;
  qemu_file_rate_limit := fun _ => false;
  qemu_file_get_rate_limit := fun _ => 33554432;
  downtime_within_budget := fun _ _ _ => true
|}.

Definition qemu_limited : Platform := {|
  BDRV_SECTOR_BITS := 9;
  BDRV_SECTORS_PER_DIRTY_CHUNK := 2048;
  qemu_file_rate_limit := fun _ => true;
  qemu_file_get_rate_limit := fun _ => 33554432;
  downtime_within_budget := fun _ _ _ => true
|}.

Definition tiny : Platform := {|
  BDRV_SECTOR_BITS := 4;
  BDRV_SECTORS_PER_DIRTY_CHUNK := 2;
  qemu_file_rate_limit := fun _ => false;
  qemu_file_get_rate_limit := fun _ => 1024;
  downtime_within_budget := fun _ _ _ => true
|}.

(** The result machine of a computation (the machine itself if the
    computation does not return). *)
Definition exec {A : Type} (m : M A) (s : System.t) : System.t :=
  match m s with
  | Some (_, s') => s'
  | None => s
  end.

(** The value returned by a computation, if it returns. *)
Definition outcome {A : Type} (m : M A) (s : System.t) : option A :=
  fst <$> m s.

(** The device name "vda". *)
Definition vda : list Z := [118; 100; 97].

(** A writable device of [len] bytes whose reads succeed and fill the chunk
    buffer with [fill]. *)
Definition drive (len : Z) (dirty : option (list bool)) (fill : list Z)
  : BlockDriverState.t :=
  BlockDriverState.mk vda len false 0 0 dirty
    (fun _ _ => (0, fill)) (fun _ _ => 0) (fun _ n => (true, n)).

(** The engine as [blk_mig_init] leaves it, with block migration enabled. *)
Definition idle_state : BlkMigState.t :=
  BlkMigState.mk 1 0 0 [] [] 0 0 0 0 0 0 0 0 0.

Definition machine (drives : list BlockDriverState.t) : System.t :=
  System.mk idle_state 0 0 0 drives [] [] [] (InFile.mk [] 0) 1000.

(** One device of one chunk (1 MiB), nothing dirty: before setup. *)
Definition clean_1m : System.t :=
  machine [drive 1048576 None (replicate (Z.to_nat 1048576) 0)].

(** One device of two chunks in the dirty phase: the bulk phase is over, no
    read is outstanding, and the guest has dirtied chunk 0. *)
Definition dirty_2m : System.t :=
  System.mk
    (BlkMigState.mk 1 0 0
       [BlkMigDevState.mk 0 1 0 0 4096 0 4096 4096 0 [0]]
       [] 0 0 2 4096 100 1 5000 900 2)
    2 0 2
    [drive 2097152 (Some [true; false]) []] [] [] [] (InFile.mk [] 0) 1000.

(** The same engine with a failed read at the head of the pending queue. *)
Definition failed_head : System.t :=
  System.mk
    (BlkMigState.mk 1 0 0
       [BlkMigDevState.mk 0 1 0 0 4096 0 4096 4096 0 [0]]
       [BlkMigBlock.mk [] 0 0 2048 (- EIO)] 0 1 1 4096 100 1 5000 900 2)
    1 0 1
    [drive 2097152 (Some [false; false]) []] [] [] [] (InFile.mk [] 0) 1000.

(** On the small platform: a device of three sectors (one chunk and a short
    tail), whose reads fill the 32-byte chunk buffer with sevens. *)
Definition tiny_machine : System.t :=
  machine [drive 48 None (replicate 32 7)].

(** A sender on the small platform, about to send the short tail. *)
Definition tiny_sender : System.t :=
  System.mk
    (BlkMigState.mk 1 0 0
       [BlkMigDevState.mk 0 1 0 0 3 0 3 3 0 [0]]
       [] 0 0 1 3 100 1 50 9 1)
    1 0 1
    [drive 48 (Some [false; false]) (replicate 32 7)] [] [] [] (InFile.mk [] 0) 1000.

Definition tail_block : BlkMigBlock.t :=
  BlkMigBlock.mk (replicate 32 7) 0 2 1 0.

Definition tiny_sent : System.t :=
  Eval vm_compute in exec (blk_send (P := tiny) tail_block) tiny_sender.

Definition tail_frame : QEMUFile := System.out_file tiny_sent.

(** A receiver on the small platform, with the frame of the tail and an
    end-of-stream marker to read. *)
Definition tiny_receiver : System.t :=
  System.mk idle_state 0 0 0 [drive 48 None []] [] [] []
    (InFile.mk (bytes_of tail_frame ++ [0; 0; 0; 0; 0; 0; 0; 2]) 0) 1000.

Definition tiny_locals : LoadLocals.t :=
  LoadLocals.mk (replicate 256 0) None (replicate 32 0) 0 0.

(** A short session on the small platform: two bulk steps submit the two
    reads, the first read completes and is flushed, the bulk phase ends,
    and a dirty step finds nothing to copy. *)
Definition tiny_started : System.t :=
  Eval vm_compute in exec (block_save_setup (P := tiny)) tiny_machine.

Definition tiny_ops : list engine_op :=
  [OpBulkStep; OpBulkStep; OpReadCompletes 0; OpFlush; OpBulkStep; OpDirtyStep 1;
   OpReadCompletes 0; OpFlush].

Definition tiny_states : list System.t :=
  Eval vm_compute in default [] (observe (P := tiny) tiny_ops tiny_started).

(** The machine with the clean device once [block_save_setup] has run. *)
Definition clean_1m_started : System.t := exec (block_save_setup (P := qemu)) clean_1m.

End Example.

(** ** The status queries, cancellation and completion

    The functions of the file that the migration driver calls besides the
    setup and iterate hooks. *)

(** Conversion to [uint64_t]. *)
Definition to_uint64 (v : Z) : Z := v mod 2 ^ 64.

Section Status.
Context {P : Platform}.

Definition blk_mig_active : M Z :=
  st <- mig ;;
  ret (match BlkMigState.bmds_list st with [] => 0 | _ :: _ => 1 end).

(** The [QSIMPLEQ_FOREACH] of the byte counters: a sum in [uint64_t] of one
    [int64_t] field of every device state. *)
Definition sum_field (f : BlkMigDevState.t -> Z) (l : list BlkMigDevState.t) : Z :=
  foldl (fun sum b => to_uint64 (sum + f b)) 0 l.

Definition blk_mig_bytes_transferred : M Z :=
  st <- mig ;;
  let sum := sum_field BlkMigDevState.completed_sectors (BlkMigState.bmds_list st) in
  ret (to_uint64 (Z.shiftl sum BDRV_SECTOR_BITS)).

Definition blk_mig_bytes_total : M Z :=
  st <- mig ;;
  let sum := sum_field BlkMigDevState.total_sectors (BlkMigState.bmds_list st) in
  ret (to_uint64 (Z.shiftl sum BDRV_SECTOR_BITS)).

Definition blk_mig_bytes_remaining : M Z :=
  total <- blk_mig_bytes_total ;;
  transferred <- blk_mig_bytes_transferred ;;
  ret (to_uint64 (total - transferred)).

Definition block_migration_cancel : M unit := blk_mig_cleanup.

(** The [do ... while (ret == 0)] loop of [block_save_complete]. *)
Fixpoint complete_loop (fuel : nat) : M Z :=
  match fuel with
  | O => stuck
  | S fuel' =>
      r <- blk_mig_save_dirty_block 0 ;;
      if r =? 0 then complete_loop fuel' else ret r
  end.

(** [block_save_complete]; [fuel] bounds the iterations of its loop, one
    per dirty chunk sent. *)
Definition block_save_complete (fuel : nat) : M Z :=
  r <- flush_blks ;;
  if truthy r then blk_mig_cleanup ;;; ret r
  else
    blk_mig_reset_dirty_cursor ;;;
    (* we know for sure that save bulk is completed and
       all async read completed *)
    st <- mig ;;
    assert (BlkMigState.submitted st =? 0) ;;;
    r <- complete_loop fuel ;;
    blk_mig_cleanup ;;;
    if truthy r then ret r
    else
      (* report completion *)
      with_file (fun f => qemu_put_be64 f
                   (Z.lor (Z.shiftl 100 BDRV_SECTOR_BITS) BLK_MIG_FLAG_PROGRESS)) ;;;
      with_file (fun f => qemu_put_be64 f BLK_MIG_FLAG_EOS) ;;;
      ret 0.

(** [blk_mig_init]: both queues are initialised empty ([register_savevm_live]
    hands the hooks to the migration driver). *)
Definition blk_mig_init : M unit :=
  set_mig (BlkMigState.set_bmds_list []) ;;;
  set_mig (BlkMigState.set_blk_list []).

End Status.

(** ** Notions used in the statements about registration and the cursors *)

Section Registration.
Context {P : Platform}.

(** A device that [init_blk_migration_it] registers: writable, with at
    least one sector. *)
Definition migratable (b : BlockDriverState.t) : bool :=
  negb (BlockDriverState.read_only b)
  && (0 <? Z.shiftr (BlockDriverState.getlength b) BDRV_SECTOR_BITS).

(** The device state that [init_blk_migration_it] builds for the device of
    index [i], under the global flags [shared] and [sparse]. *)
Definition fresh_bmds (shared sparse : Z) (i : nat) (b : BlockDriverState.t)
  : BlkMigDevState.t :=
  BlkMigDevState.mk i 0 shared sparse 0 0 0
    (Z.shiftr (BlockDriverState.getlength b) BDRV_SECTOR_BITS) 0
    (alloc_aio_bitmap (BlockDriverState.getlength b)).

(** The device states of the migratable devices among [drives], which are
    the devices of indices [i], [i + 1], ... *)
Fixpoint registered (shared sparse : Z) (i : nat) (drives : list BlockDriverState.t)
  : list BlkMigDevState.t :=
  match drives with
  | [] => []
  | b :: rest =>
      (if migratable b then [fresh_bmds shared sparse i b] else [])
        ++ registered shared sparse (S i) rest
  end.

(** A device once it is registered: one more reference on its drive, and
    marked in use. *)
Definition claimed (b : BlockDriverState.t) : BlockDriverState.t :=
  if migratable b
  then BlockDriverState.set_in_use 1
         (BlockDriverState.set_drive_refs (BlockDriverState.drive_refs b + 1) b)
  else b.

(** The sum of the sector counts of a list of device states. *)
Definition sector_sum (l : list BlkMigDevState.t) : Z :=
  foldr (fun b acc => BlkMigDevState.total_sectors b + acc) 0 l.

End Registration.

(** The sum of the completed sector counts of a list of device states. *)
Definition completed_sum (l : list BlkMigDevState.t) : Z :=
  foldr (fun b acc => BlkMigDevState.completed_sectors b + acc) 0 l.

Section BulkRuns.
Context {P : Platform}.

(** [n] consecutive calls of [mig_save_device_bulk] on the device state
    [d], with the values they return. *)
Fixpoint bulk_run (n : nat) (d : nat) : M (list Z) :=
  match n with
  | O => ret []
  | S n' =>
      r <- mig_save_device_bulk d ;;
      rs <- bulk_run n' d ;;
      ret (r :: rs)
  end.

(** The reads of the [n] chunks from chunk [k] on, of a device of [total]
    sectors: each starts at a multiple of the chunk size and is a whole
    chunk, but for a short last one. *)
Fixpoint chunk_reads (n : nat) (d bs : nat) (total k : Z) : list (nat * BlkMigBlock.t) :=
  match n with
  | O => []
  | S n' =>
      (bs, BlkMigBlock.mk [] d (k * BDRV_SECTORS_PER_DIRTY_CHUNK)
             (Z.min BDRV_SECTORS_PER_DIRTY_CHUNK (total - k * BDRV_SECTORS_PER_DIRTY_CHUNK)) 0)
        :: chunk_reads n' d bs total (k + 1)
  end.

End BulkRuns.

(** ** Notions used in the statements about cleanup *)

(** How many of the indices [l] are [i]. *)
Fixpoint occurrences (i : nat) (l : list nat) : nat :=
  match l with
  | [] => O
  | j :: l' => (if Nat.eqb j i then 1 else 0) + occurrences i l'
  end.

(** A device that [n] device states of the engine pointed to, once
    [blk_mig_cleanup] has run: dirty tracking is off, the device is not in
    use, and the [n] references on its drive are given back. *)
Definition released (n : nat) (b : BlockDriverState.t) : BlockDriverState.t :=
  match n with
  | O => b
  | S _ =>
      BlockDriverState.set_drive_refs (BlockDriverState.drive_refs b - Z.of_nat n)
        (BlockDriverState.set_in_use 0 (BlockDriverState.set_dirty_bitmap None b))
  end.

(** ** Notions used in the statements about convergence *)

(** The number of dirty chunks of a device of the block layer. *)
Definition dirty_count (drv : BlockDriverState.t) : Z :=
  match BlockDriverState.dirty_bitmap drv with
  | Some bm => Z.of_nat (length (filter (fun x => x = true) bm))
  | None => 0
  end.

(** The number of dirty chunks over the devices of the engine. *)
Definition dirty_chunks (s : System.t) : Z :=
  foldr (fun b acc =>
           match System.bdrv_states s !! BlkMigDevState.bs b with
           | Some drv => dirty_count drv + acc
           | None => acc
           end)
        0 (BlkMigState.bmds_list (System.block_mig_state s)).

(** No chunk of a device that the engine migrates is dirty. *)
Definition nothing_dirty (s : System.t) : Prop :=
  forall d b drv,
    BlkMigState.bmds_list (System.block_mig_state s) !! d = Some b ->
    System.bdrv_states s !! BlkMigDevState.bs b = Some drv ->
    dirty_count drv = 0.

(** ** Streams of device-block frames *)

Section FrameStreams.
Context {P : Platform}.

(** A stretch of stream that consists of device-block frames as [blk_send]
    writes them, one after the other. *)
Inductive block_frames : QEMUFile -> Prop :=
| block_frames_nil : block_frames []
| block_frames_snoc (f : QEMUFile) (sector : Z) (name buf : list Z) (zero_blk : Z) :
    block_frames f -> block_frames (f ++ sent_frame sector name buf zero_blk).

End FrameStreams.

(** ** Runs of the receiver *)

Section ReceiverRuns.
Context {P : Platform}.

(** What the receiver does to the system: it reads on in the incoming
    stream, an error of the transport once recorded stays, the devices are
    the same and calls of [bdrv_write] are added. *)
Definition reads_on (s s' : System.t) : Prop :=
  System.bdrv_states s' = System.bdrv_states s
  /\ (length (InFile.pending (System.in_file s'))
      <= length (InFile.pending (System.in_file s)))%nat
  /\ (InFile.last_error (System.in_file s') = 0 -> InFile.last_error (System.in_file s) = 0)
  /\ exists ws, System.bdrv_writes s' = System.bdrv_writes s ++ ws.

(** The progress words [blk_mig_save_bulked_block] writes for the
    percentages [pcts], one after the other, after [f]. *)
Fixpoint progress_reports (pcts : list Z) (f : QEMUFile) : QEMUFile :=
  match pcts with
  | [] => f
  | p :: ps =>
      progress_reports ps
        (qemu_put_be64 f (Z.lor (Z.shiftl p BDRV_SECTOR_BITS) BLK_MIG_FLAG_PROGRESS))
  end.

End ReceiverRuns.

(** ** The engine once it is set up *)

Section Started.
Context {P : Platform}.

(** A device once dirty tracking is enabled on it: it has a dirty bitmap,
    the one it had or a fresh one with no chunk dirty. *)
Definition tracked (b : BlockDriverState.t) : BlockDriverState.t :=
  match BlockDriverState.dirty_bitmap b with
  | Some _ => b
  | None =>
      BlockDriverState.set_dirty_bitmap
        (Some (replicate (Z.to_nat (chunk_count (BlockDriverState.getlength b))) false)) b
  end.

(** A device after [block_save_setup]: registered and tracked if it is
    migratable, as it was if not. *)
Definition started (b : BlockDriverState.t) : BlockDriverState.t :=
  if migratable b then tracked (claimed b) else b.

End Started.

(** ** Further example machines *)

Module Session.


(** The device state that setup builds for the device of the small
    machine. *)
Definition tiny_dev : BlkMigDevState.t :=
  Eval vm_compute in
    fresh_bmds (P := Example.tiny) 0 0 0 (Example.drive 48 None (replicate 32 7)).

(** The device of the small machine once it is set up. *)
Definition tiny_drive : BlockDriverState.t :=
  Eval vm_compute in started (P := Example.tiny) (Example.drive 48 None (replicate 32 7)).

(** The small sender in the dirty phase, with the first chunk dirty. *)
Definition tiny_dirty : System.t :=
  System.mk
    (BlkMigState.mk 1 0 0
       [BlkMigDevState.mk 0 1 0 0 3 0 3 3 0 [0]]
       [] 0 0 1 3 100 1 50 9 1)
    1 0 1
    [Example.drive 48 (Some [true; false]) (replicate 32 7)] [] [] []
    (InFile.mk [] 0) 1000.

Definition tiny_completed : System.t :=
  Eval vm_compute in Example.exec (block_save_complete (P := Example.tiny) 3) tiny_dirty.

(** The small sender with two blocks read and queued: the first read went
    well, the second failed. *)
Definition two_queued : System.t :=
  System.mk
    (BlkMigState.mk 1 0 0
       [BlkMigDevState.mk 0 1 0 0 3 0 3 3 0 [0]]
       [BlkMigBlock.mk (replicate 32 7) 0 0 2 0; BlkMigBlock.mk (replicate 32 7) 0 2 1 (- EIO)]
       0 2 1 3 100 1 50 9 1)
    1 0 1
    [Example.drive 48 (Some [false; false]) (replicate 32 7)] [] [] []
    (InFile.mk [] 0) 1000.

(** A receiver that is sent two progress words, the EOS marker and one
    byte more. *)
Definition progress_receiver : System.t :=
  System.mk Example.idle_state 0 0 0 [Example.drive 48 None []] [] [] []
    (InFile.mk
       (bytes_of (qemu_put_be64 (progress_reports (P := Example.tiny) [50; 100] [])
                    BLK_MIG_FLAG_EOS) ++ [9]) 0) 1000.

(** A receiver without devices that is sent the frame of the tail. *)
Definition bare_receiver : System.t :=
  System.mk Example.idle_state 0 0 0 [] [] [] []
    (InFile.mk (bytes_of Example.tail_frame ++ [0; 0; 0; 0; 0; 0; 0; 2]) 0) 1000.

End Session.
(** * Properties *)

(** Unfolds the operations of the monad and the accessors of the machine. *)
Ltac munfold :=
  repeat (progress (unfold bind, ret, get, modify, mig, set_mig, when, assert, stuck,
                      with_file, get_bmds, set_bmds, get_bs, set_bs in *; cbv beta)).

(** ** Zero-block detection *)

Section ZeroBlk.
Context {P : Platform}.

Lemma movemask_bounds (v : list Z) :
  0 <= mm_movemask_epi8 v <= 2 ^ Z.of_nat (length v) - 1.
Proof.
  induction v as [|b v IH]; cbn [mm_movemask_epi8 length].
  - simpl. lia.
  - rewrite Nat2Z.inj_succ, Z.pow_succ_r by lia.
    destruct (Z.testbit b 7); simpl Z.b2z; lia.
Qed.

Lemma movemask_full (v : list Z) :
  mm_movemask_epi8 v = 2 ^ Z.of_nat (length v) - 1 <->
  Forall (fun b => Z.testbit b 7 = true) v.
Proof.
  induction v as [|b v IH]; cbn [mm_movemask_epi8 length].
  - split; [constructor | reflexivity].
  - rewrite Nat2Z.inj_succ, Z.pow_succ_r by lia.
    pose proof (movemask_bounds v) as Hb.
    rewrite Forall_cons, <- IH.
    destruct (Z.testbit b 7); simpl Z.b2z; split; intros; try lia; intuition (try discriminate; try lia).
Qed.

Lemma ALL_EQ_zero (v : list Z) :
  (length v <= 16)%nat ->
  ALL_EQ mm_setzero_si128 v = true <-> v = replicate 16 0.
Proof.
  intros Hlen. unfold ALL_EQ. rewrite Z.eqb_eq.
  change mm_setzero_si128 with (replicate 16 0).
  split.
  - intros H.
    pose proof (movemask_bounds (mm_cmpeq_epi8 (replicate 16 0) v)) as Hb.
    assert (Hl : length (mm_cmpeq_epi8 (replicate 16 0) v) = length v).
    { unfold mm_cmpeq_epi8. rewrite length_zip_with, length_replicate. lia. }
    rewrite Hl in Hb.
    assert (Hv : length v = 16%nat).
    { destruct (decide (length v = 16%nat)) as [|Hne]; [done|].
      assert (Z.of_nat (length v) <= 15) by lia.
      assert (2 ^ Z.of_nat (length v) <= 2 ^ 15) by (apply Z.pow_le_mono_r; lia).
      lia. }
    assert (Hf : Forall (fun b => Z.testbit b 7 = true) (mm_cmpeq_epi8 (replicate 16 0) v)).
    { apply movemask_full. rewrite Hl, Hv. exact H. }
    apply list_eq_same_length with 16%nat; [by rewrite length_replicate | done |].
    intros i x y Hi Hx Hy.
    rewrite lookup_replicate in Hy. destruct Hy as [-> _].
    rewrite Forall_lookup in Hf.
    specialize (Hf i (if 0 =? x then 255 else 0)).
    unfold mm_cmpeq_epi8 in Hf. rewrite lookup_zip_with in Hf.
    rewrite lookup_replicate_2 in Hf by lia. simpl in Hf. rewrite Hx in Hf. simpl in Hf.
    specialize (Hf eq_refl).
    destruct x; [reflexivity | discriminate Hf ..].
  - intros ->. reflexivity.
Qed.

Lemma vec_at_succ (p : list Z) (i : Z) :
  0 <= i -> vec_at p (i + 1) = vec_at (drop 16 p) i.
Proof.
  intros Hi. unfold vec_at, VECSIZE. rewrite drop_drop. do 2 f_equal. lia.
Qed.

Lemma is_zero_blk_loop_shift (n : nat) (i : Z) (p : list Z) :
  0 <= i -> is_zero_blk_loop n (i + 1) p = is_zero_blk_loop n i (drop 16 p).
Proof.
  revert i. induction n as [|n IH]; intros i Hi; [reflexivity|].
  cbn [is_zero_blk_loop]. rewrite vec_at_succ by lia.
  destruct (ALL_EQ _ _); [|reflexivity]. cbn [negb]. apply IH. lia.
Qed.

Lemma all_zero_replicate (v : list Z) (n : nat) :
  length v = n -> v = replicate n 0 <-> Forall (fun b => b = 0) v.
Proof.
  intros <-. split.
  - intros ->. apply Forall_replicate. reflexivity.
  - intros H. induction H as [|x l Hx _ IH]; [reflexivity|].
    cbn. subst x. f_equal. exact IH.
Qed.

Lemma is_zero_blk_loop_spec (n : nat) (p : list Z) :
  length p = (16 * n)%nat ->
  is_zero_blk_loop n 0 p = if decide (Forall (fun b => b = 0) p) then 1 else 0.
Proof.
  revert p. induction n as [|n IH]; intros p Hlen.
  { destruct p; [|discriminate]. cbn. destruct (decide _) as [|Hn]; [reflexivity|].
    exfalso. apply Hn. constructor. }
  cbn [is_zero_blk_loop].
    change (0 + 1) with (0 + 1). rewrite is_zero_blk_loop_shift by lia.
    rewrite IH by (rewrite length_drop; lia).
    assert (Ht : vec_at p 0 = take 16 p) by reflexivity. rewrite Ht.
    assert (Hl : length (take 16 p) = 16%nat) by (rewrite length_take; lia).
    pose proof (ALL_EQ_zero (take 16 p) ltac:(lia)) as HA.
    rewrite (all_zero_replicate _ 16 Hl) in HA.
    assert (Hs : Forall (fun b => b = 0) p <->
                 Forall (fun b => b = 0) (take 16 p) /\ Forall (fun b => b = 0) (drop 16 p))
      by (rewrite <- Forall_app, take_drop; reflexivity).
    destruct (ALL_EQ _ _) eqn:E; cbn [negb].
    - destruct (decide (Forall _ (drop 16 p))) as [Hd|Hd];
        destruct (decide (Forall _ p)) as [Ha|Ha]; try reflexivity; exfalso.
      + apply Ha, Hs. split; [apply HA; reflexivity | exact Hd].
      + apply Hd, Hs, Ha.
    - destruct (decide (Forall _ p)) as [Ha|Ha]; [exfalso|reflexivity].
      apply Hs in Ha. destruct Ha as [Ha _]. apply HA in Ha. discriminate.
Qed.

(** [is_zero_blk] tests the whole chunk buffer when the chunk is a whole
    number of vectors. *)
Lemma is_zero_blk_spec (bufp : list Z) :
  Z.of_nat (length bufp) = BLOCK_SIZE ->
  (VECSIZE | BLOCK_SIZE) ->
  is_zero_blk bufp = if decide (Forall (fun b => b = 0) bufp) then 1 else 0.
Proof.
  intros Hlen [k Hk]. unfold is_zero_blk. apply is_zero_blk_loop_spec.
  rewrite Hk. unfold VECSIZE in *. rewrite Z.div_mul by lia. lia.
Qed.

End ZeroBlk.

(** ** The send path of one block *)

Section Send.
Context {P : Platform}.

Lemma strlen_bounds (s : list Z) : 0 <= strlen s <= Z.of_nat (length s).
Proof.
  induction s as [|c s IH]; cbn [strlen length]; [lia|].
  destruct (c =? 0); lia.
Qed.

Lemma truthy_true (v : Z) : truthy v = true <-> v <> 0.
Proof. unfold truthy. rewrite negb_true_iff, Z.eqb_neq. reflexivity. Qed.

Lemma truthy_false (v : Z) : truthy v = false <-> v = 0.
Proof. unfold truthy. rewrite negb_false_iff, Z.eqb_eq. reflexivity. Qed.

Lemma truthy_b2z (b : bool) : truthy (Z.b2z b) = b.
Proof. destruct b; reflexivity. Qed.

Lemma to_int_small (v : Z) : - 2 ^ 31 <= v < 2 ^ 31 -> to_int v = v.
Proof.
  intros H. unfold to_int.
  destruct (Z.le_gt_cases 0 v).
  - rewrite Z.mod_small by lia. destruct (Z.ltb_spec v (2 ^ 31)); lia.
  - replace (v mod 2 ^ 32) with (v + 2 ^ 32).
    + destruct (Z.ltb_spec (v + 2 ^ 32) (2 ^ 31)); lia.
    + apply Z.mod_unique with (-1); lia.
Qed.

Lemma sent_frame_layout (sector : Z) (name buf : list Z) (zero : bool) :
  strlen name < 256 ->
  Z.of_nat (length buf) = BLOCK_SIZE ->
  sent_frame sector name buf (Z.b2z zero) = device_block_frame sector name buf zero.
Proof.
  intros Hname Hlen. pose proof (strlen_bounds name) as Hsl.
  unfold sent_frame, device_block_frame, qemu_fflush, qemu_put_buffer, qemu_put_byte,
    qemu_put_be64, c_str.
  rewrite to_int_small by lia. rewrite (Z.mod_small (strlen name) 256) by lia.
  rewrite truthy_b2z. rewrite <- Hlen, Nat2Z.id, firstn_all.
  destruct zero; cbn -[be_bytes Z.pow]; rewrite <- ?app_assoc; reflexivity.
Qed.

Lemma blk_send_out (blk : BlkMigBlock.t) (s : System.t)
      (bmds : BlkMigDevState.t) (bs : BlockDriverState.t) :
  BlkMigState.bmds_list (System.block_mig_state s) !! BlkMigBlock.bmds blk = Some bmds ->
  System.bdrv_states s !! BlkMigDevState.bs bmds = Some bs ->
  Z.of_nat (length (BlkMigBlock.buf blk)) = BLOCK_SIZE ->
  (VECSIZE | BLOCK_SIZE) ->
  exists s',
    blk_send blk s = Some (tt, s')
    /\ System.block_mig_state s' = System.block_mig_state s
    /\ System.bdrv_states s' = System.bdrv_states s
    /\ System.aio_requests s' = System.aio_requests s
    /\ System.out_file s' =
         if decide (elided (BlkMigBlock.buf blk) bmds) then System.out_file s
         else System.out_file s ++
                sent_frame (BlkMigBlock.sector blk)
                  (BlockDriverState.device_name bs) (BlkMigBlock.buf blk)
                  (Z.b2z (bool_decide (Forall (fun b => b = 0) (BlkMigBlock.buf blk)))).
Proof.
  intros Hb Hd Hlen Hdiv.
  unfold blk_send. rewrite (is_zero_blk_spec _ Hlen Hdiv).
  unfold elided, sent_frame.
  destruct (truthy (BlkMigDevState.bulk_completed bmds)) eqn:Ebc;
    destruct (truthy (BlkMigDevState.sparse_enable bmds)) eqn:Esp;
    destruct (decide (Forall _ (BlkMigBlock.buf blk))) as [Hz|Hz];
    rewrite ?(bool_decide_eq_true_2 _ Hz), ?(bool_decide_eq_false_2 _ Hz);
    munfold; cbn -[be_bytes Z.pow]; rewrite Hb; cbn -[be_bytes Z.pow];
    rewrite ?Ebc, ?Esp; cbn -[be_bytes Z.pow]; rewrite ?Hb; cbn -[be_bytes Z.pow];
    rewrite ?Ebc, ?Esp; cbn -[be_bytes Z.pow]; rewrite ?Hd; cbn -[be_bytes Z.pow];
    (eexists; split; [reflexivity|]); cbn -[be_bytes Z.pow]; repeat split;
    apply truthy_true in Ebc || apply truthy_false in Ebc;
    apply truthy_true in Esp || apply truthy_false in Esp;
    (destruct (decide _) as [Hc|Hc]; [try (exfalso; tauto) | try (exfalso; tauto)]);
    try reflexivity;
    unfold qemu_fflush, qemu_put_buffer, qemu_put_byte, qemu_put_be64;
    rewrite <- ?app_assoc; reflexivity.
Qed.

(** C5: [blk_send] puts nothing on the stream exactly when the buffer is
    all zero, the owning device has sparse mode enabled and the owning
    device has not completed its bulk phase; otherwise it emits a frame. *)
Theorem blk_send_elides_iff (blk : BlkMigBlock.t) (s : System.t)
        (bmds : BlkMigDevState.t) (bs : BlockDriverState.t) :
  BlkMigState.bmds_list (System.block_mig_state s) !! BlkMigBlock.bmds blk = Some bmds ->
  System.bdrv_states s !! BlkMigDevState.bs bmds = Some bs ->
  Z.of_nat (length (BlkMigBlock.buf blk)) = BLOCK_SIZE ->
  (VECSIZE | BLOCK_SIZE) ->
  exists s',
    blk_send blk s = Some (tt, s')
    /\ (System.out_file s' = System.out_file s
        <-> (Forall (fun b => b = 0) (BlkMigBlock.buf blk)
             /\ BlkMigDevState.sparse_enable bmds <> 0
             /\ BlkMigDevState.bulk_completed bmds = 0))
    /\ (~ (Forall (fun b => b = 0) (BlkMigBlock.buf blk)
            /\ BlkMigDevState.sparse_enable bmds <> 0
            /\ BlkMigDevState.bulk_completed bmds = 0) ->
        exists frame,
          System.out_file s' = System.out_file s ++ frame
          /\ (8 <= length (bytes_of frame))%nat).
Proof.
  intros Hb Hd Hlen Hdiv.
  destruct (blk_send_out blk s bmds bs Hb Hd Hlen Hdiv) as (s' & Hs & _ & _ & _ & Ho).
  exists s'. split; [exact Hs|]. rewrite Ho.
  destruct (decide (elided (BlkMigBlock.buf blk) bmds)) as [He|He].
  - split; [unfold elided in He; tauto|]. intros Hn. exfalso. apply Hn, He.
  - split.
    + split; [|intros; exfalso; apply He; assumption].
      intros Heq. exfalso.
      apply (f_equal length) in Heq. rewrite length_app in Heq.
      unfold sent_frame, qemu_fflush, qemu_put_buffer, qemu_put_byte, qemu_put_be64 in Heq.
      destruct (negb _) in Heq; rewrite !length_app in Heq; cbn in Heq; lia.
    + intros _. eexists. split; [reflexivity|].
      unfold sent_frame, qemu_fflush, qemu_put_buffer, qemu_put_byte, qemu_put_be64.
      destruct (negb _); cbn; lia.
Qed.

Lemma bytes_of_map_Put (l : list Z) : bytes_of (map Put l) = l.
Proof. induction l as [|x l IH]; cbn; [reflexivity | by rewrite IH]. Qed.

Lemma bytes_of_app (f g : QEMUFile) : bytes_of (f ++ g) = bytes_of f ++ bytes_of g.
Proof.
  induction f as [|e f IH]; cbn; [reflexivity|].
  destruct e; cbn; by rewrite IH.
Qed.

Lemma c_str_length (s : list Z) : Z.of_nat (length (c_str s)) = strlen s.
Proof.
  pose proof (strlen_bounds s). unfold c_str. rewrite length_take. lia.
Qed.

Lemma c_str_no_nul (s : list Z) : Forall (fun c => c <> 0) (c_str s).
Proof.
  unfold c_str. induction s as [|c s IH]; cbn [strlen]; [constructor|].
  destruct (Z.eqb_spec c 0) as [E|E]; [constructor|].
  pose proof (strlen_bounds s).
  replace (Z.to_nat (1 + strlen s)) with (S (Z.to_nat (strlen s))) by lia.
  cbn [take]. constructor; assumption.
Qed.

Lemma land_shiftl_low (a b m : Z) :
  0 <= b -> 0 <= m < 2 ^ b -> Z.land (Z.shiftl a b) m = 0.
Proof.
  intros Hb Hm. apply Z.bits_inj'. intros n Hn.
  rewrite Z.land_spec, Z.bits_0.
  destruct (Z.lt_ge_cases n b) as [Hlt|Hge].
  - rewrite Z.shiftl_spec_low by lia. reflexivity.
  - assert (2 ^ b <= 2 ^ n) by (apply Z.pow_le_mono_r; lia).
    assert (E : Z.testbit m n = false)
      by (apply Z.testbit_false; [lia | rewrite Z.div_small by lia; reflexivity]).
    rewrite E. apply andb_false_r.
Qed.

Lemma pow2_ge_16 (b : Z) : 4 <= b -> 16 <= 2 ^ b.
Proof. intros H. change 16 with (2 ^ 4). apply Z.pow_le_mono_r; lia. Qed.

(** C6: a frame that is not elided is the big-endian header (sector shifted
    by the sector bits, DEVICE_BLOCK, and ZERO_BLOCK exactly for an
    all-zero buffer), one byte with the length of the device name, the name
    without a NUL, and then either the whole chunk buffer, whatever the
    sector count of the block, or, for a zero block, no payload and a
    flush. *)
Theorem blk_send_frame_layout (blk : BlkMigBlock.t) (s : System.t)
        (bmds : BlkMigDevState.t) (bs : BlockDriverState.t) :
  BlkMigState.bmds_list (System.block_mig_state s) !! BlkMigBlock.bmds blk = Some bmds ->
  System.bdrv_states s !! BlkMigDevState.bs bmds = Some bs ->
  Z.of_nat (length (BlkMigBlock.buf blk)) = BLOCK_SIZE ->
  (VECSIZE | BLOCK_SIZE) ->
  4 <= BDRV_SECTOR_BITS ->
  strlen (BlockDriverState.device_name bs) < 256 ->
  ~ (Forall (fun b => b = 0) (BlkMigBlock.buf blk)
     /\ BlkMigDevState.sparse_enable bmds <> 0
     /\ BlkMigDevState.bulk_completed bmds = 0) ->
  exists (s' : System.t) (zero : bool) (header : Z) (name : list Z),
    blk_send blk s = Some (tt, s')
    /\ (zero = true <-> Forall (fun b => b = 0) (BlkMigBlock.buf blk))
    /\ header = Z.lor (Z.lor (Z.shiftl (BlkMigBlock.sector blk) BDRV_SECTOR_BITS)
                             BLK_MIG_FLAG_DEVICE_BLOCK)
                      (if zero then BLK_MIG_FLAG_ZERO_BLOCK else 0)
    /\ Z.land header BLK_MIG_FLAG_ZERO_BLOCK = (if zero then BLK_MIG_FLAG_ZERO_BLOCK else 0)
    /\ name = c_str (BlockDriverState.device_name bs)
    /\ Forall (fun c => c <> 0) name
    /\ 0 <= Z.of_nat (length name) < 256
    /\ System.out_file s' =
         System.out_file s
           ++ map Put (be_bytes 8 (header mod 2 ^ 64))
           ++ [Put (Z.of_nat (length name))]
           ++ map Put name
           ++ (if zero then [Flush] else map Put (BlkMigBlock.buf blk)).
Proof.
  intros Hb Hd Hlen Hdiv Hbits Hname Hne.
  destruct (blk_send_out blk s bmds bs Hb Hd Hlen Hdiv) as (s' & Hs & _ & _ & _ & Ho).
  destruct (decide (elided (BlkMigBlock.buf blk) bmds)) as [He|_]; [exfalso; exact (Hne He)|].
  rewrite sent_frame_layout in Ho by assumption. unfold device_block_frame in Ho.
  pose proof (pow2_ge_16 _ Hbits) as H16.
  pose proof (strlen_bounds (BlockDriverState.device_name bs)).
  exists s', (bool_decide (Forall (fun b => b = 0) (BlkMigBlock.buf blk))).
  do 2 eexists. split; [exact Hs|].
  split; [apply bool_decide_eq_true|]. split; [reflexivity|].
  split.
  { rewrite !Z.land_lor_distr_l.
    rewrite land_shiftl_low by (unfold BLK_MIG_FLAG_ZERO_BLOCK; lia).
    destruct (bool_decide _); reflexivity. }
  split; [reflexivity|]. split; [apply c_str_no_nul|].
  rewrite c_str_length. split; [lia | exact Ho].
Qed.

End Send.

(** ** The send path: flush_blks *)

Section Flush.
Context {P : Platform}.

(** C10, as amended: when the block at the head of the queue carries a
    negative result code, [flush_blks] leaves the whole machine as it was
    (the block stays at the head of the queue with its buffer, and neither
    [read_done] nor [transferred] moves); it returns that code if the
    transport is not over its rate limit, and 0 if it is. *)
Theorem flush_blks_error_at_head (s : System.t) (blk : BlkMigBlock.t)
        (rest : list BlkMigBlock.t) :
  BlkMigState.blk_list (System.block_mig_state s) = blk :: rest ->
  BlkMigBlock.ret blk < 0 ->
  flush_blks s =
    Some (if qemu_file_rate_limit (System.out_file s) then 0 else BlkMigBlock.ret blk, s).
Proof.
  intros Hq Hret. unfold flush_blks. munfold. cbn [flush_loop]. munfold. rewrite Hq.
  destruct (qemu_file_rate_limit (System.out_file s)); [reflexivity|].
  destruct (Z.ltb_spec (BlkMigBlock.ret blk) 0); [reflexivity | lia].
Qed.

End Flush.

(** ** Receiver *)

Section Load.
Context {P : Platform}.

Lemma bind_some {A B : Type} (m : M A) (k : A -> M B) (s s' : System.t) (a : A) :
  m s = Some (a, s') -> (x <- m ;; k x) s = k a s'.
Proof. intros H. unfold bind. rewrite H. reflexivity. Qed.

Lemma bind_inv {A B : Type} (m : M A) (k : A -> M B) (s s' : System.t) (r : B) :
  (x <- m ;; k x) s = Some (r, s') ->
  exists a s1, m s = Some (a, s1) /\ k a s1 = Some (r, s').
Proof.
  unfold bind. destruct (m s) as [[a s1]|]; [|discriminate]. eauto.
Qed.

Lemma be_bytes_length (n : nat) (v : Z) : length (be_bytes n v) = n.
Proof. induction n as [|n IH]; cbn [be_bytes length]; [reflexivity | by rewrite IH]. Qed.

Lemma be_value_be_bytes (n : nat) (v acc : Z) :
  0 <= v ->
  be_value acc (be_bytes n v) = acc * 2 ^ (8 * Z.of_nat n) + v mod 2 ^ (8 * Z.of_nat n).
Proof.
  intros Hv. revert acc. induction n as [|n IH]; intros acc.
  - cbn. rewrite Z.mod_1_r. lia.
  - cbn [be_bytes be_value]. rewrite IH.
    replace (8 * Z.of_nat (S n)) with (8 * Z.of_nat n + 8) by lia.
    rewrite Z.pow_add_r by lia.
    rewrite Z.shiftr_div_pow2 by lia.
    assert (0 < 2 ^ (8 * Z.of_nat n)) by (apply Z.pow_pos_nonneg; lia).
    rewrite (Z.rem_mul_r v (2 ^ (8 * Z.of_nat n)) (2 ^ 8)) by lia.
    change (2 ^ 8) with 256. lia.
Qed.

Lemma be64_round_trip (v : Z) :
  0 <= v < 2 ^ 64 -> be_value 0 (be_bytes 8 (v mod 2 ^ 64)) = v.
Proof.
  intros Hv. rewrite (Z.mod_small v) by lia.
  rewrite be_value_be_bytes by lia.
  change (8 * Z.of_nat 8) with 64. rewrite Z.mod_small by lia. lia.
Qed.

Lemma with_pending_id (s : System.t) :
  with_pending (InFile.pending (System.in_file s)) s = s.
Proof. destruct s as [? ? ? ? ? ? ? ? [? ?] ?]. reflexivity. Qed.

Lemma qemu_get_byte_ok (s : System.t) (b : Z) (rest : list Z) :
  InFile.pending (System.in_file s) = b :: rest ->
  qemu_get_byte s = Some (b, with_pending rest s).
Proof. intros H. unfold qemu_get_byte. munfold. rewrite H. reflexivity. Qed.

Lemma qemu_get_bytes_ok (n : nat) (bs rest : list Z) (s : System.t) :
  length bs = n ->
  InFile.pending (System.in_file s) = bs ++ rest ->
  qemu_get_bytes n s = Some (bs, with_pending rest s).
Proof.
  revert bs s. induction n as [|n IH]; intros bs s Hlen Hp.
  - destruct bs; [|discriminate]. cbn in *. rewrite <- Hp, with_pending_id. reflexivity.
  - destruct bs as [|b bs]; [discriminate|]. cbn [qemu_get_bytes].
    rewrite (bind_some _ _ _ _ _ (qemu_get_byte_ok s b (bs ++ rest) Hp)).
    rewrite (bind_some _ _ _ _ _ (IH bs (with_pending (bs ++ rest) s)
                                     ltac:(cbn in Hlen; lia) eq_refl)).
    reflexivity.
Qed.

Lemma qemu_get_buffer_ok (buf got rest : list Z) (size : Z) (s : System.t) :
  Z.of_nat (length got) = size ->
  InFile.pending (System.in_file s) = got ++ rest ->
  qemu_get_buffer buf size s = Some (got ++ drop (length got) buf, with_pending rest s).
Proof.
  intros Hlen Hp. unfold qemu_get_buffer. munfold. rewrite Hp.
  rewrite <- Hlen, Nat2Z.id, take_app_length, drop_app_length.
  rewrite Z.ltb_irrefl. reflexivity.
Qed.

Lemma strlen_app_nul (nz rest : list Z) :
  Forall (fun c => c <> 0) nz -> strlen (nz ++ 0 :: rest) = Z.of_nat (length nz).
Proof.
  induction 1 as [|c nz Hc _ IH]; [reflexivity|].
  cbn [app strlen length]. destruct (Z.eqb_spec c 0); [contradiction|]. lia.
Qed.

Lemma c_str_app_nul (nz rest : list Z) :
  Forall (fun c => c <> 0) nz -> c_str (nz ++ 0 :: rest) = nz.
Proof.
  intros H. unfold c_str. rewrite strlen_app_nul by exact H.
  rewrite Nat2Z.id, take_app_length. reflexivity.
Qed.

Lemma c_str_received (name arr : list Z) :
  (Z.to_nat (strlen name) < length arr)%nat ->
  c_str (<[Z.to_nat (strlen name) := 0]>
           (c_str name ++ drop (length (c_str name)) arr)) = c_str name.
Proof.
  intros Hlt. pose proof (c_str_length name) as Hl.
  assert (Hn : length (c_str name) = Z.to_nat (strlen name)) by lia.
  rewrite Hn.
  destruct (drop (Z.to_nat (strlen name)) arr) as [|t tail] eqn:Ed.
  { apply (f_equal length) in Ed. rewrite length_drop in Ed. cbn in Ed. lia. }
  replace (Z.to_nat (strlen name)) with (length (c_str name) + 0)%nat at 1 by lia.
  rewrite insert_app_r. cbn [insert list_insert].
  apply c_str_app_nul, c_str_no_nul.
Qed.

Lemma find_device_c_str (states : list BlockDriverState.t) (n1 n2 : list Z) :
  c_str n1 = c_str n2 -> find_device states n1 = find_device states n2.
Proof. intros H. unfold find_device. rewrite H. reflexivity. Qed.

Lemma lor_disjoint_add (a b : Z) : Z.land a b = 0 -> Z.lor a b = a + b.
Proof.
  intros H. rewrite <- Z.lxor_lor by exact H. symmetry. apply Z.add_nocarry_lxor, H.
Qed.

Lemma header_decode (sector : Z) (zero : bool) :
  4 <= BDRV_SECTOR_BITS ->
  0 <= sector ->
  Z.shiftl (sector + 1) BDRV_SECTOR_BITS <= 2 ^ 63 ->
  let h := Z.lor (Z.lor (Z.shiftl sector BDRV_SECTOR_BITS) BLK_MIG_FLAG_DEVICE_BLOCK)
                 (if zero then BLK_MIG_FLAG_ZERO_BLOCK else 0) in
  0 <= h < 2 ^ 63
  /\ Z.land h (Z.lnot BDRV_SECTOR_MASK) = (if zero then 9 else 1)
  /\ Z.shiftr h BDRV_SECTOR_BITS = sector.
Proof.
  intros Hb Hs Hfit h.
  pose proof (pow2_ge_16 _ Hb) as H16.
  rewrite Z.shiftl_mul_pow2 in Hfit by lia.
  assert (Hh : h = sector * 2 ^ BDRV_SECTOR_BITS + (if zero then 9 else 1)).
  { unfold h. rewrite <- Z.lor_assoc.
    replace (Z.lor BLK_MIG_FLAG_DEVICE_BLOCK (if zero then BLK_MIG_FLAG_ZERO_BLOCK else 0))
      with (if zero then 9 else 1) by (destruct zero; reflexivity).
    rewrite lor_disjoint_add by (apply land_shiftl_low; destruct zero; lia).
    rewrite Z.shiftl_mul_pow2 by lia. reflexivity. }
  assert (Hf : 0 <= (if zero then 9 else 1) < 2 ^ BDRV_SECTOR_BITS) by (destruct zero; lia).
  split; [nia|]. split.
  - unfold BDRV_SECTOR_MASK. rewrite Z.lnot_involutive.
    unfold BDRV_SECTOR_SIZE.
    change (Z.shiftl 1 BDRV_SECTOR_BITS - 1) with (Z.ones BDRV_SECTOR_BITS).
    rewrite Z.land_ones by lia. rewrite Hh.
    rewrite Z.add_comm, Z.mod_add by lia. apply Z.mod_small. lia.
  - rewrite Z.shiftr_div_pow2 by lia. rewrite Hh.
    rewrite Z.add_comm, Z.div_add by lia. rewrite Z.div_small by lia. lia.
Qed.

Lemma to_int64_small (v : Z) : 0 <= v < 2 ^ 63 -> to_int64 v = v.
Proof.
  intros H. unfold to_int64. rewrite Z.mod_small by lia.
  destruct (Z.ltb_spec v (2 ^ 63)); lia.
Qed.

Lemma qemu_get_be64_ok (s : System.t) (v : Z) (rest : list Z) :
  0 <= v < 2 ^ 64 ->
  InFile.pending (System.in_file s) = be_bytes 8 (v mod 2 ^ 64) ++ rest ->
  qemu_get_be64 s = Some (v, with_pending rest s).
Proof.
  intros Hv Hp. unfold qemu_get_be64.
  rewrite (bind_some _ _ _ _ _ (qemu_get_bytes_ok 8 _ rest s (be_bytes_length _ _) Hp)).
  unfold ret. rewrite be64_round_trip by exact Hv. reflexivity.
Qed.

End Load.

(** ** Frame round trip *)

Section RoundTrip.
Context {P : Platform}.

Lemma if_ret {A : Type} (b : bool) (x y : A) (s : System.t) :
  (if b then ret x else ret y) s = Some (if b then x else y, s).
Proof. destruct b; reflexivity. Qed.

(** The locals of [block_load] satisfy the loop invariant on entry. *)
Lemma load_inv_initial (stack heap : list Z) (s : System.t) :
  length stack = 256%nat ->
  Z.of_nat (length heap) = BLOCK_SIZE ->
  load_inv (LoadLocals.mk stack None heap 0 0) s.
Proof.
  intros Hs Hh. unfold load_inv. cbn. repeat split; try assumption.
  - intros H. contradiction.
  - intros bs H. discriminate.
Qed.

(** C1: a device-block frame emitted by [blk_send] for a block at sector
    [s] of a device, read by the loop body of [block_load] on a receiver
    where the device is registered with the same number of sectors, leads
    to exactly one write, to that device, at sector [s], of
    [min(SECTORS_PER_CHUNK, total_sectors - s)] sectors, whose bytes are
    the corresponding prefix of the sender's buffer; they are zeros when
    the sender found the buffer all zero (the ZERO_BLOCK case). *)
Theorem frame_round_trip
        (sender receiver sender' : System.t) (blk : BlkMigBlock.t)
        (bmds : BlkMigDevState.t) (bs : BlockDriverState.t) (frame : QEMUFile)
        (l : LoadLocals.t) (rest : list Z) (rdev : nat) (rbs : BlockDriverState.t) :
  (VECSIZE | BLOCK_SIZE) ->
  4 <= BDRV_SECTOR_BITS ->
  0 < BDRV_SECTORS_PER_DIRTY_CHUNK ->
  BLOCK_SIZE < 2 ^ 31 ->
  (* the sender emits a frame for the block *)
  BlkMigState.bmds_list (System.block_mig_state sender) !! BlkMigBlock.bmds blk = Some bmds ->
  System.bdrv_states sender !! BlkMigDevState.bs bmds = Some bs ->
  strlen (BlockDriverState.device_name bs) < 256 ->
  Z.of_nat (length (BlkMigBlock.buf blk)) = BLOCK_SIZE ->
  0 <= BlkMigBlock.sector blk < BlkMigDevState.total_sectors bmds ->
  Z.shiftl (BlkMigDevState.total_sectors bmds) BDRV_SECTOR_BITS < 2 ^ 63 ->
  blk_send blk sender = Some (tt, sender') ->
  System.out_file sender' = System.out_file sender ++ frame ->
  frame <> [] ->
  (* the receiver knows the device, with the same number of sectors *)
  find_device (System.bdrv_states receiver) (BlockDriverState.device_name bs) = Some rdev ->
  System.bdrv_states receiver !! rdev = Some rbs ->
  Z.shiftr (BlockDriverState.getlength rbs) BDRV_SECTOR_BITS = BlkMigDevState.total_sectors bmds ->
  load_inv l receiver ->
  InFile.pending (System.in_file receiver) = bytes_of frame ++ rest ->
  InFile.last_error (System.in_file receiver) = 0 ->
  exists (step : load_next) (receiver' : System.t) (w : WriteCall.t),
    block_load_body l receiver = Some (step, receiver')
    /\ System.bdrv_writes receiver' = System.bdrv_writes receiver ++ [w]
    /\ WriteCall.dev w = rdev
    /\ WriteCall.sector w = BlkMigBlock.sector blk
    /\ WriteCall.nr_sectors w
       = Z.min BDRV_SECTORS_PER_DIRTY_CHUNK
               (BlkMigDevState.total_sectors bmds - BlkMigBlock.sector blk)
    /\ WriteCall.data w
       = take (Z.to_nat (WriteCall.nr_sectors w * BDRV_SECTOR_SIZE)) (BlkMigBlock.buf blk)
    /\ Z.of_nat (length (WriteCall.data w)) = WriteCall.nr_sectors w * BDRV_SECTOR_SIZE
    /\ (is_zero_blk (BlkMigBlock.buf blk) = 1 -> Forall (fun b => b = 0) (WriteCall.data w))
    /\ InFile.pending (System.in_file receiver') = rest.
Proof.
  intros Hdiv Hbits Hchunk Hblock Hb Hd Hname Hlen Hsec Hfit Hsend Hout Hframe
         Hfind Hrbs Htotal Hinv Hpend Herr.
  (* the frame *)
  destruct (blk_send_out blk sender bmds bs Hb Hd Hlen Hdiv) as (s' & Hs & _ & _ & _ & Ho).
  rewrite Hsend in Hs. injection Hs as <-.
  destruct (decide (elided (BlkMigBlock.buf blk) bmds)) as [He|_].
  { exfalso. rewrite Ho in Hout. apply Hframe.
    rewrite <- (app_nil_r (System.out_file sender)) in Hout at 1.
    apply app_inv_head in Hout. congruence. }
  rewrite Hout in Ho. apply app_inv_head in Ho.
  rewrite sent_frame_layout in Ho by assumption.
  set (zero := bool_decide (Forall (fun b => b = 0) (BlkMigBlock.buf blk))) in *.
  unfold device_block_frame in Ho.
  set (h := Z.lor (Z.lor (Z.shiftl (BlkMigBlock.sector blk) BDRV_SECTOR_BITS)
                         BLK_MIG_FLAG_DEVICE_BLOCK)
                  (if zero then BLK_MIG_FLAG_ZERO_BLOCK else 0)) in *.
  assert (Hfit' : Z.shiftl (BlkMigBlock.sector blk + 1) BDRV_SECTOR_BITS <= 2 ^ 63).
  { rewrite Z.shiftl_mul_pow2 in * by lia.
    assert (0 < 2 ^ BDRV_SECTOR_BITS) by (apply Z.pow_pos_nonneg; lia). nia. }
  destruct (header_decode (BlkMigBlock.sector blk) zero Hbits ltac:(lia) Hfit')
    as (Hh & Hflags & Haddr). fold h in Hh, Hflags, Haddr.
  subst frame. rewrite !bytes_of_app, !bytes_of_map_Put in Hpend. cbn [bytes_of] in Hpend.
  rewrite <- !app_assoc in Hpend.
  (* the receiver *)
  unfold block_load_body.
  rewrite (bind_some _ _ _ _ _ (qemu_get_be64_ok receiver h _ ltac:(lia) Hpend)).
  rewrite to_int64_small by lia. rewrite Hflags, Haddr.
  replace (truthy (Z.land (to_int (if zero then 9 else 1)) BLK_MIG_FLAG_DEVICE_BLOCK))
    with true by (destruct zero; reflexivity).
  set (name := BlockDriverState.device_name bs) in *.
  set (total := BlkMigDevState.total_sectors bmds) in *.
  set (sector := BlkMigBlock.sector blk) in *.
  destruct Hinv as (Hdn & Hbuf & Hzeroed & Hprev).
  pose proof (strlen_bounds name) as Hsl.
  assert (Harr : (Z.to_nat (strlen name) < length (LoadLocals.device_name l))%nat) by lia.
  (* the sector count of the device *)
  assert (Hlen_or_err :
    forall s0, System.bdrv_states s0 = System.bdrv_states receiver ->
      (if negb (bool_decide (Some rdev = LoadLocals.bs_prev l))
       then n <- bdrv_getlength rdev ;;
            (let total_sectors := Z.shiftr n BDRV_SECTOR_BITS in
             if total_sectors <=? 0 then ret None else ret (Some (Some rdev, total_sectors)))
       else ret (Some (LoadLocals.bs_prev l, LoadLocals.total_sectors l))) s0
      = Some (Some (Some rdev, total), s0)).
  { intros s0 Hs0. destruct (bool_decide_reflect (Some rdev = LoadLocals.bs_prev l)) as [E|E];
      cbn [negb].
    - destruct (Hprev rdev (eq_sym E)) as (b & Hlb & Hts).
      rewrite Hrbs in Hlb. injection Hlb as <-. unfold ret. rewrite <- E, Hts, Htotal.
      reflexivity.
    - unfold bdrv_getlength. munfold. rewrite Hs0, Hrbs. cbv beta iota.
      rewrite Htotal.
      destruct (Z.leb_spec total 0); [lia | reflexivity]. }
  (* the number of sectors written *)
  set (nr := if total - sector <? BDRV_SECTORS_PER_DIRTY_CHUNK
             then to_int (total - sector) else BDRV_SECTORS_PER_DIRTY_CHUNK).
  assert (Hnr : nr = Z.min BDRV_SECTORS_PER_DIRTY_CHUNK (total - sector)).
  { unfold nr. assert (BDRV_SECTORS_PER_DIRTY_CHUNK <= BLOCK_SIZE).
    { unfold BLOCK_SIZE. rewrite Z.shiftl_mul_pow2 by lia.
      assert (1 <= 2 ^ BDRV_SECTOR_BITS) by (pose proof (pow2_ge_16 _ Hbits); lia). nia. }
    destruct (Z.ltb_spec (total - sector) BDRV_SECTORS_PER_DIRTY_CHUNK).
    - rewrite to_int_small by lia. lia.
    - lia. }
  assert (Hnrsz : 0 <= nr * BDRV_SECTOR_SIZE <= BLOCK_SIZE).
  { unfold BLOCK_SIZE, BDRV_SECTOR_SIZE. rewrite !Z.shiftl_mul_pow2 by lia.
    assert (0 < 2 ^ BDRV_SECTOR_BITS) by (apply Z.pow_pos_nonneg; lia). nia. }
  (* the bytes written *)
  assert (Hdata : exists s2 buf' z,
    (if truthy (Z.land (to_int (if zero then 9 else 1)) BLK_MIG_FLAG_ZERO_BLOCK) then
       ret (if negb (truthy (LoadLocals.buf_is_zeroed l))
            then replicate (Z.to_nat BLOCK_SIZE) 0
                   ++ drop (Z.to_nat BLOCK_SIZE) (LoadLocals.buf l)
            else LoadLocals.buf l, 1)
     else b <- qemu_get_buffer (LoadLocals.buf l) BLOCK_SIZE ;; ret (b, 0))
      (with_pending
         (bytes_of (if zero then [Flush] else map Put (BlkMigBlock.buf blk)) ++ rest)
         receiver)
    = Some ((buf', z), s2)
    /\ s2 = with_pending rest receiver
    /\ take (Z.to_nat (nr * BDRV_SECTOR_SIZE)) buf'
       = take (Z.to_nat (nr * BDRV_SECTOR_SIZE)) (BlkMigBlock.buf blk)).
  { unfold zero. destruct (bool_decide_reflect (Forall (fun b => b = 0) (BlkMigBlock.buf blk)))
      as [Hz|Hz].
    - replace (truthy (Z.land (to_int 9) BLK_MIG_FLAG_ZERO_BLOCK)) with true by reflexivity.
      do 3 eexists. split; [reflexivity|]. split; [reflexivity|].
      apply (all_zero_replicate _ _ eq_refl) in Hz.
      assert (Hbz : BlkMigBlock.buf blk = replicate (Z.to_nat BLOCK_SIZE) 0)
        by (rewrite Hz; f_equal; lia).
      rewrite Hbz.
      destruct (truthy (LoadLocals.buf_is_zeroed l)) eqn:Et; cbn [negb].
      + apply truthy_true in Et. specialize (Hzeroed Et).
        apply (all_zero_replicate _ _ eq_refl) in Hzeroed. rewrite Hzeroed.
        do 2 f_equal. lia.
      + rewrite take_app_le by (rewrite length_replicate; clearbody nr; lia). reflexivity.
    - replace (truthy (Z.land (to_int 1) BLK_MIG_FLAG_ZERO_BLOCK)) with false by reflexivity.
      rewrite bytes_of_map_Put.
      erewrite bind_some; [|apply qemu_get_buffer_ok; [exact Hlen | reflexivity]].
      do 3 eexists. split; [reflexivity|]. split; [reflexivity|].
      rewrite take_app_le by (clearbody nr; lia). reflexivity. }
  destruct Hdata as (s2 & buf' & z & Hrun & -> & Htake).
  (* the device-block branch as a whole *)
  set (w := WriteCall.mk rdev sector nr
              (take (Z.to_nat (nr * BDRV_SECTOR_SIZE)) (BlkMigBlock.buf blk))).
  exists (if BlockDriverState.write_result rbs sector nr <? 0
          then Return (BlockDriverState.write_result rbs sector nr)
          else Again (LoadLocals.mk
                        (<[Z.to_nat (strlen name) := 0]>
                           (c_str name ++ drop (length (c_str name)) (LoadLocals.device_name l)))
                        (Some rdev) buf' total z) (to_int (if zero then 9 else 1))),
    (System.set_bdrv_writes (System.bdrv_writes receiver ++ [w]) (with_pending rest receiver)),
    w.
  assert (Hwrite : forall s0 buf0,
    System.bdrv_states s0 = System.bdrv_states receiver ->
    bdrv_write rdev sector buf0 nr s0
    = Some (BlockDriverState.write_result rbs sector nr,
            System.set_bdrv_writes
              (System.bdrv_writes s0 ++
                 [WriteCall.mk rdev sector nr (take (Z.to_nat (nr * BDRV_SECTOR_SIZE)) buf0)])
              s0)).
  { intros s0 buf0 Hs0. unfold bdrv_write. munfold. rewrite Hs0, Hrbs. reflexivity. }
  split.
  { cbv iota.
    erewrite bind_some.
    2:{ erewrite bind_some; [|apply qemu_get_byte_ok; reflexivity].
        erewrite bind_some; [|apply qemu_get_buffer_ok; [apply c_str_length | reflexivity]].
        erewrite bind_some; [|reflexivity].
        cbn [System.bdrv_states with_pending System.set_in_file].
        rewrite (find_device_c_str _ _ name (c_str_received name _ Harr)), Hfind.
        erewrite bind_some; [|apply Hlen_or_err; reflexivity].
        cbv iota beta. fold nr.
        erewrite bind_some; [|exact Hrun].
        erewrite bind_some; [|apply Hwrite; reflexivity].
        cbn [fst snd]. rewrite Htake. fold w.
        rewrite if_ret. reflexivity. }
    destruct (_ <? 0); [reflexivity|].
    unfold qemu_file_get_error. munfold.
    cbn [System.in_file System.set_bdrv_writes with_pending System.set_in_file InFile.last_error].
    rewrite Herr. reflexivity. }
  cbn [System.bdrv_writes System.set_bdrv_writes with_pending System.set_in_file
       System.in_file InFile.pending WriteCall.dev WriteCall.sector WriteCall.nr_sectors
       WriteCall.data w].
  split; [reflexivity|]. split; [reflexivity|]. split; [reflexivity|].
  split; [exact Hnr|]. split; [reflexivity|].
  split.
  { rewrite length_take. clearbody nr. lia. }
  split; [|reflexivity].
  intros Hz. rewrite (is_zero_blk_spec _ Hlen Hdiv) in Hz.
  destruct (decide (Forall (fun b => b = 0) (BlkMigBlock.buf blk))) as [Hall|]; [|discriminate].
  apply Forall_take, Hall.
Qed.
End RoundTrip.

(** ** The loop invariant of the receiver *)

Section LoadInv.
Context {P : Platform}.

Lemma qemu_get_byte_inv (s s' : System.t) (b : Z) :
  Forall (fun x => 0 <= x < 256) (InFile.pending (System.in_file s)) ->
  qemu_get_byte s = Some (b, s') ->
  0 <= b < 256
  /\ System.bdrv_states s' = System.bdrv_states s
  /\ Forall (fun x => 0 <= x < 256) (InFile.pending (System.in_file s')).
Proof.
  intros Hp. unfold qemu_get_byte, set_in_error. munfold.
  destruct (InFile.pending (System.in_file s)) as [|x rest] eqn:E; intros [= <- <-]; cbn.
  - rewrite E. split; [lia|]. split; [reflexivity | constructor].
  - inversion Hp; subst. auto.
Qed.

Lemma qemu_get_bytes_inv (n : nat) (s s' : System.t) (bs : list Z) :
  Forall (fun x => 0 <= x < 256) (InFile.pending (System.in_file s)) ->
  qemu_get_bytes n s = Some (bs, s') ->
  System.bdrv_states s' = System.bdrv_states s
  /\ Forall (fun x => 0 <= x < 256) (InFile.pending (System.in_file s')).
Proof.
  revert s bs. induction n as [|n IH]; intros s bs Hp H.
  - injection H as _ <-. auto.
  - cbn [qemu_get_bytes] in H. apply bind_inv in H. destruct H as (b & s1 & H1 & H).
    apply bind_inv in H. destruct H as (bs1 & s2 & H2 & H). injection H as _ <-.
    destruct (qemu_get_byte_inv _ _ _ Hp H1) as (_ & E1 & Hp1).
    destruct (IH _ _ Hp1 H2) as (E2 & Hp2). split; [congruence | exact Hp2].
Qed.

Lemma qemu_get_buffer_inv (buf : list Z) (size : Z) (s s' : System.t) (got : list Z) :
  Forall (fun x => 0 <= x < 256) (InFile.pending (System.in_file s)) ->
  qemu_get_buffer buf size s = Some (got, s') ->
  System.bdrv_states s' = System.bdrv_states s
  /\ Forall (fun x => 0 <= x < 256) (InFile.pending (System.in_file s'))
  /\ (Z.to_nat size <= length buf -> length got = length buf)%nat.
Proof.
  intros Hp. unfold qemu_get_buffer, set_in_error. munfold.
  destruct (_ <? size); intros [= <- <-]; cbn;
    (split; [reflexivity|]); (split; [apply Forall_drop, Hp|]);
    intros Hle; rewrite length_app, length_drop, length_take; lia.
Qed.

Lemma bdrv_write_eq (i : nat) (sector : Z) (buf : list Z) (nr_sectors : Z) (s : System.t) :
  bdrv_write i sector buf nr_sectors s =
  match System.bdrv_states s !! i with
  | None => None
  | Some b =>
      Some (BlockDriverState.write_result b sector nr_sectors,
            System.set_bdrv_writes
              (System.bdrv_writes s ++
                 [WriteCall.mk i sector nr_sectors
                    (take (Z.to_nat (nr_sectors * BDRV_SECTOR_SIZE)) buf)]) s)
  end.
Proof. unfold bdrv_write. munfold. destruct (_ !! i); reflexivity. Qed.

(** The invariant of the loop of [block_load] is kept by an iteration that
    leads to another one. *)
Lemma load_inv_preserved (l l' : LoadLocals.t) (s s' : System.t) (flags : Z) :
  0 <= BLOCK_SIZE ->
  Forall (fun x => 0 <= x < 256) (InFile.pending (System.in_file s)) ->
  load_inv l s ->
  block_load_body l s = Some (Again l' flags, s') ->
  load_inv l' s'
  /\ Forall (fun x => 0 <= x < 256) (InFile.pending (System.in_file s')).
Proof.
  intros Hbs Hp (Hdn & Hbuf & Hzero & Hprev) H. unfold block_load_body in H.
  apply bind_inv in H. destruct H as (w & s1 & H1 & H).
  unfold qemu_get_be64 in H1. apply bind_inv in H1. destruct H1 as (bs8 & s1' & H1 & H1').
  injection H1' as _ <-. destruct (qemu_get_bytes_inv _ _ _ _ Hp H1) as (E1 & Hp1). clear H1.
  apply bind_inv in H. destruct H as (step & s2 & H2 & H).
  assert (Hstep : forall l2 f2, step = Again l2 f2 ->
            load_inv l2 s2
            /\ Forall (fun x => 0 <= x < 256) (InFile.pending (System.in_file s2))).
  { intros l2 f2 ->. revert H2.
    match goal with |- context [Z.land ?f BLK_MIG_FLAG_DEVICE_BLOCK] => set (fl := f) end.
    destruct (truthy (Z.land fl BLK_MIG_FLAG_DEVICE_BLOCK)).
    2:{ destruct (truthy (Z.land fl BLK_MIG_FLAG_PROGRESS)).
        - intros [= <- _ <-]. split; [|exact Hp1].
          split; [exact Hdn|]. split; [exact Hbuf|]. split; [exact Hzero|]. rewrite E1. exact Hprev.
        - destruct (truthy (Z.land fl BLK_MIG_FLAG_EOS)); cbn [negb]; [|discriminate].
          intros [= <- _ <-]. split; [|exact Hp1].
          split; [exact Hdn|]. split; [exact Hbuf|]. split; [exact Hzero|]. rewrite E1. exact Hprev. }
    intros H2.
    apply bind_inv in H2. destruct H2 as (len & s3 & H3 & H2).
    destruct (qemu_get_byte_inv _ _ _ Hp1 H3) as (Hlen & E3 & Hp3). clear H3.
    apply bind_inv in H2. destruct H2 as (name & s4 & H4 & H2).
    destruct (qemu_get_buffer_inv _ _ _ _ _ Hp3 H4) as (E4 & Hp4 & Hnl). clear H4.
    specialize (Hnl ltac:(lia)).
    apply bind_inv in H2. destruct H2 as (found & s5 & H5 & H2).
    unfold bdrv_find, bind, get, ret in H5. injection H5 as <- <-.
    destruct (find_device _ _) as [bs|]; [|discriminate].
    apply bind_inv in H2. destruct H2 as (loe & s6 & H6 & H2).
    assert (Hloe : s6 = s4 /\
              forall bp ts, loe = Some (bp, ts) ->
                forall bs', bp = Some bs' ->
                  exists b, System.bdrv_states s4 !! bs' = Some b
                            /\ ts = Z.shiftr (BlockDriverState.getlength b) BDRV_SECTOR_BITS).
    { destruct (negb _).
      - unfold bdrv_getlength, get_bs, bind, get, ret in H6.
        destruct (System.bdrv_states s4 !! bs) as [b|] eqn:Eb; [|discriminate].
        destruct (_ <=? 0); injection H6 as <- <-; (split; [reflexivity|]);
          intros bp ts [= <- <-] bs' [= <-]. eauto.
      - injection H6 as <- <-. split; [reflexivity|].
        intros bp ts [= <- <-] bs' Hbs'. rewrite E4, E3, E1. apply Hprev, Hbs'. }
    clear H6. destruct Hloe as [-> Hloe].
    destruct loe as [[bp ts]|]; [|discriminate].
    specialize (Hloe bp ts eq_refl).
    apply bind_inv in H2. destruct H2 as ([buf' z] & s7 & H7 & H2).
    assert (Hbuf' : System.bdrv_states s7 = System.bdrv_states s4
                    /\ Forall (fun x => 0 <= x < 256) (InFile.pending (System.in_file s7))
                    /\ Z.of_nat (length buf') = BLOCK_SIZE
                    /\ (z <> 0 -> Forall (fun b => b = 0) buf')).
    { destruct (truthy (Z.land fl BLK_MIG_FLAG_ZERO_BLOCK)).
      - injection H7 as <- <- <-. split; [reflexivity|]. split; [exact Hp4|].
        destruct (truthy (LoadLocals.buf_is_zeroed l)) eqn:Ez; cbn [negb].
        + split; [exact Hbuf|]. intros _. apply Hzero. apply truthy_true, Ez.
        + split.
          * rewrite length_app, length_replicate, length_drop. lia.
          * intros _. rewrite drop_ge by lia. rewrite app_nil_r.
            apply Forall_replicate. reflexivity.
      - apply bind_inv in H7. destruct H7 as (got & s8 & H8 & H7).
        injection H7 as <- <- <-.
        destruct (qemu_get_buffer_inv _ _ _ _ _ Hp4 H8) as (E8 & Hp8 & Hgl).
        split; [exact E8|]. split; [exact Hp8|]. split; [rewrite Hgl; lia | congruence]. }
    clear H7. destruct Hbuf' as (E7 & Hp7 & Hlen' & Hz').
    apply bind_inv in H2. destruct H2 as (r & s8 & H8 & H2).
    rewrite bdrv_write_eq in H8.
    destruct (System.bdrv_states s7 !! bs); [|discriminate]. injection H8 as <- <-.
    rewrite if_ret in H2.
    match type of H2 with context [if ?c then _ else _] => destruct c end; [discriminate|].
    injection H2 as <- _ <-.
    split; [|exact Hp7]. unfold load_inv. cbn.
    split; [rewrite length_insert; congruence|]. split; [exact Hlen'|]. split; [exact Hz'|].
    intros bs' Hbs'. rewrite E7. apply Hloe, Hbs'. }
  destruct step as [l2 f2|r]; [|discriminate].
  apply bind_inv in H. destruct H as (e & s3 & H3 & H).
  unfold qemu_file_get_error, bind, get, ret in H3. injection H3 as <- <-.
  rewrite if_ret in H.
  match type of H with context [if ?c then _ else _] => destruct c end; [discriminate|].
  injection H as <- <- <-.
  apply (Hstep l2 f2 eq_refl).
Qed.

End LoadInv.

(** ** The in-flight bitmap *)

Section Bitmap.
Context {P : Platform}.

Lemma land_bit (w bit : Z) :
  0 <= bit -> truthy (Z.land w (Z.shiftl 1 bit)) = Z.testbit w bit.
Proof.
  intros Hb. unfold truthy. rewrite Z.shiftl_1_l.
  destruct (Z.testbit w bit) eqn:E.
  - apply negb_true_iff, Z.eqb_neq. intros H0.
    assert (Ht : Z.testbit (Z.land w (2 ^ bit)) bit = true)
      by (rewrite Z.land_spec, E, Z.pow2_bits_true by lia; reflexivity).
    rewrite H0, Z.bits_0 in Ht. discriminate.
  - apply negb_false_iff, Z.eqb_eq. apply Z.bits_inj'. intros n Hn.
    rewrite Z.land_spec, Z.bits_0, Z.pow2_bits_eqb by lia.
    destruct (Z.eqb_spec bit n) as [->|]; [rewrite E|]; apply andb_false_r || reflexivity.
Qed.

Lemma ulong_bit_range (c : Z) : 0 <= to_ulong c mod BITS_PER_LONG < 64.
Proof. unfold BITS_PER_LONG. apply Z.mod_pos_bound. lia. Qed.

Lemma word_at_insert (bitmap : list Z) (i j : Z) (v : Z) :
  0 <= i -> 0 <= j ->
  word_at (<[Z.to_nat i := v]> bitmap) j =
  if (i =? j) && (i <? Z.of_nat (length bitmap)) then v else word_at bitmap j.
Proof.
  intros Hi Hj. unfold word_at.
  destruct (Z.eqb_spec i j) as [->|Hne]; cbn [andb].
  - destruct (Z.ltb_spec j (Z.of_nat (length bitmap))).
    + rewrite list_lookup_insert_eq by lia. reflexivity.
    + rewrite list_insert_ge by lia. reflexivity.
  - rewrite list_lookup_insert_ne by lia. reflexivity.
Qed.

Lemma ulong_idx_nonneg (c : Z) : 0 <= to_ulong c / BITS_PER_LONG.
Proof.
  unfold to_ulong, BITS_PER_LONG. apply Z.div_pos; [|lia].
  apply Z.mod_pos_bound. lia.
Qed.

Lemma set_aio_loop_length (n : nat) (start set : Z) (bitmap : list Z) :
  length (set_aio_loop n start set bitmap) = length bitmap.
Proof.
  revert start bitmap. induction n as [|n IH]; intros start bitmap; [reflexivity|].
  cbn [set_aio_loop]. rewrite IH, length_insert. reflexivity.
Qed.

(** Setting bits never clears one. *)
Lemma set_aio_loop_set_mono (n : nat) (start : Z) (bitmap : list Z) (c : Z) :
  bit_at bitmap c = true -> bit_at (set_aio_loop n start 1 bitmap) c = true.
Proof.
  revert start bitmap. induction n as [|n IH]; intros start bitmap Hc; [exact Hc|].
  cbn [set_aio_loop]. apply IH. unfold bit_at in *.
  rewrite word_at_insert by apply ulong_idx_nonneg.
  destruct (_ && _) eqn:E; [|exact Hc].
  apply andb_true_iff in E. destruct E as [E _]. apply Z.eqb_eq in E.
  change (truthy 1) with true. cbv iota.
  rewrite Z.lor_spec, E, Hc. reflexivity.
Qed.

(** Clearing bits never sets one. *)
Lemma set_aio_loop_clear_mono (n : nat) (start : Z) (bitmap : list Z) (c : Z) :
  bit_at bitmap c = false -> bit_at (set_aio_loop n start 0 bitmap) c = false.
Proof.
  revert start bitmap. induction n as [|n IH]; intros start bitmap Hc; [exact Hc|].
  cbn [set_aio_loop]. apply IH. unfold bit_at in *.
  rewrite word_at_insert by apply ulong_idx_nonneg.
  destruct (_ && _) eqn:E; [|exact Hc].
  apply andb_true_iff in E. destruct E as [E _]. apply Z.eqb_eq in E.
  change (truthy 0) with false. cbv iota.
  rewrite Z.land_spec, E, Hc. reflexivity.
Qed.

(** A set over at least one chunk sets the bit of the first chunk, when the
    bitmap has the word that holds it. *)
Lemma set_aio_loop_sets (n : nat) (start : Z) (bitmap : list Z) :
  (0 < n)%nat ->
  to_ulong start / BITS_PER_LONG < Z.of_nat (length bitmap) ->
  bit_at (set_aio_loop n start 1 bitmap) start = true.
Proof.
  intros Hn Hidx. destruct n as [|n]; [lia|]. cbn [set_aio_loop].
  apply set_aio_loop_set_mono. unfold bit_at.
  pose proof (ulong_idx_nonneg start). pose proof (ulong_bit_range start).
  rewrite word_at_insert by assumption.
  rewrite Z.eqb_refl. cbn [andb].
  destruct (Z.ltb_spec (to_ulong start / BITS_PER_LONG) (Z.of_nat (length bitmap))); [|lia].
  change (truthy 1) with true. cbv iota.
  rewrite Z.lor_spec, Z.shiftl_1_l, Z.pow2_bits_true by lia. apply orb_true_r.
Qed.

(** A clear over at least one chunk clears the bit of the first chunk. *)
Lemma set_aio_loop_clears (n : nat) (start : Z) (bitmap : list Z) :
  (0 < n)%nat ->
  bit_at (set_aio_loop n start 0 bitmap) start = false.
Proof.
  intros Hn. destruct n as [|n]; [lia|]. cbn [set_aio_loop].
  apply set_aio_loop_clear_mono. unfold bit_at.
  pose proof (ulong_idx_nonneg start). pose proof (ulong_bit_range start).
  rewrite word_at_insert by assumption.
  rewrite Z.eqb_refl. cbn [andb].
  destruct (Z.ltb_spec (to_ulong start / BITS_PER_LONG) (Z.of_nat (length bitmap))).
  - change (truthy 0) with false. cbv iota.
    rewrite Z.land_spec. unfold to_ulong at 3. unfold BITS_PER_LONG in *.
    rewrite Z.mod_pow2_bits_low by lia.
    rewrite Z.lnot_spec, Z.shiftl_1_l, Z.pow2_bits_true by lia. apply andb_false_r.
  - unfold word_at. rewrite lookup_ge_None_2 by lia. apply Z.bits_0.
Qed.

End Bitmap.

(** ** The engine: completion callbacks and dirty bits *)

Section EngineLemmas.
Context {P : Platform}.

Lemma same_dev_refl (b : BlkMigDevState.t) : same_dev b b.
Proof. split; reflexivity. Qed.

Lemma same_dev_trans (a b c : BlkMigDevState.t) :
  same_dev a b -> same_dev b c -> same_dev a c.
Proof. intros [H1 H2] [H3 H4]. split; congruence. Qed.

Lemma same_dev_set_aio_bitmap (b : BlkMigDevState.t) (bm : list Z) :
  length bm = length (BlkMigDevState.aio_bitmap b) ->
  same_dev b (BlkMigDevState.set_aio_bitmap bm b).
Proof. intros H. split; [reflexivity | cbn; congruence]. Qed.

Lemma same_dev_set_cur_dirty (b : BlkMigDevState.t) (v : Z) :
  same_dev b (BlkMigDevState.set_cur_dirty v b).
Proof. split; reflexivity. Qed.

Lemma same_dev_fields (b b' : BlkMigDevState.t) :
  same_dev b b' ->
  BlkMigDevState.bs b' = BlkMigDevState.bs b
  /\ BlkMigDevState.total_sectors b' = BlkMigDevState.total_sectors b
  /\ BlkMigDevState.bulk_completed b' = BlkMigDevState.bulk_completed b
  /\ BlkMigDevState.sparse_enable b' = BlkMigDevState.sparse_enable b
  /\ BlkMigDevState.cur_sector b' = BlkMigDevState.cur_sector b
  /\ length (BlkMigDevState.aio_bitmap b') = length (BlkMigDevState.aio_bitmap b).
Proof.
  intros [H1 H2]. destruct b, b'. cbn in *. injection H1 as -> -> -> -> -> -> -> ->.
  repeat split; congruence.
Qed.

Lemma devs_agree_refl (l : list BlkMigDevState.t) : devs_agree l l.
Proof. intros d b H. exists b. split; [exact H | apply same_dev_refl]. Qed.

Lemma devs_agree_trans (l1 l2 l3 : list BlkMigDevState.t) :
  devs_agree l1 l2 -> devs_agree l2 l3 -> devs_agree l1 l3.
Proof.
  intros H1 H2 d b Hb. destruct (H1 d b Hb) as (b' & Hb' & S1).
  destruct (H2 d b' Hb') as (b'' & Hb'' & S2).
  exists b''. split; [exact Hb'' | eapply same_dev_trans; eassumption].
Qed.

Lemma devs_agree_insert (l : list BlkMigDevState.t) (d : nat) (b b' : BlkMigDevState.t) :
  l !! d = Some b -> same_dev b b' -> devs_agree l (<[d := b']> l).
Proof.
  intros Hb Hs i x Hx. destruct (decide (d = i)) as [->|Hne].
  - exists b'. rewrite list_lookup_insert_eq by (eapply lookup_lt_Some; eassumption).
    split; [reflexivity | congruence].
  - exists x. rewrite list_lookup_insert_ne by exact Hne.
    split; [exact Hx | apply same_dev_refl].
Qed.

Lemma bmds_aio_inflight_eq (d : nat) (sector : Z) (s : System.t) :
  bmds_aio_inflight d sector s =
  match BlkMigState.bmds_list (System.block_mig_state s) !! d with
  | None => None
  | Some b =>
      match System.bdrv_states s !! BlkMigDevState.bs b with
      | None => None
      | Some drv =>
          Some (if Z.shiftl sector BDRV_SECTOR_BITS <? BlockDriverState.getlength drv
                then Z.b2z (bit_at (BlkMigDevState.aio_bitmap b)
                                   (sector ÷ BDRV_SECTORS_PER_DIRTY_CHUNK))
                else 0, s)
      end
  end.
Proof.
  unfold bmds_aio_inflight, bdrv_getlength. munfold.
  destruct (_ !! d) as [b|]; [|reflexivity].
  destruct (_ !! BlkMigDevState.bs b) as [drv|]; [|reflexivity].
  destruct (_ <? _); [|reflexivity].
  rewrite land_bit by apply ulong_bit_range. reflexivity.
Qed.

Lemma blk_mig_read_cb_eq (blk : BlkMigBlock.t) (r : Z) (s : System.t) :
  blk_mig_read_cb blk r s =
  match BlkMigState.bmds_list (System.block_mig_state s) !! BlkMigBlock.bmds blk with
  | None => None
  | Some b =>
      if 0 <=? BlkMigState.submitted (System.block_mig_state s) - 1
      then Some (tt, after_read_cb blk r b s)
      else None
  end.
Proof.
  unfold blk_mig_read_cb, bmds_set_aio_inflight, qemu_get_clock_ns, after_read_cb. munfold.
  cbn. destruct (_ !! BlkMigBlock.bmds blk) as [b|]; [|reflexivity].
  cbn. destruct (0 <=? _); reflexivity.
Qed.

Lemma drained_refl (s : System.t) : drained 0 s s.
Proof.
  unfold drained. repeat split; try lia; try apply devs_agree_refl.
  intros d b b' H1 H2. congruence.
Qed.

Lemma drained_trans (n m : Z) (s s1 s2 : System.t) :
  0 <= n -> 0 <= m ->
  length (BlkMigState.bmds_list (System.block_mig_state s1))
  = length (BlkMigState.bmds_list (System.block_mig_state s)) ->
  drained n s s1 -> drained m s1 s2 -> drained (n + m) s s2.
Proof.
  intros Hn Hm Hl (A1 & A2 & A3 & A4 & A5 & A6 & A7 & A8 & A9 & A10 & A11)
         (B1 & B2 & B3 & B4 & B5 & B6 & B7 & B8 & B9 & B10 & B11).
  unfold drained. repeat split; try congruence; try lia.
  - eapply devs_agree_trans; eassumption.
  - intros d b b2 Hb Hb2. destruct (A5 d b Hb) as (b1 & Hb1 & _).
    rewrite (B6 d b1 b2 Hb1 Hb2). apply (A6 d b b1 Hb Hb1).
Qed.

Lemma blk_mig_read_cb_drained (blk : BlkMigBlock.t) (r : Z) (s s' : System.t) :
  blk_mig_read_cb blk r s = Some (tt, s') ->
  drained 1 s s'
  /\ length (BlkMigState.bmds_list (System.block_mig_state s'))
     = length (BlkMigState.bmds_list (System.block_mig_state s)).
Proof.
  rewrite blk_mig_read_cb_eq.
  destruct (_ !! BlkMigBlock.bmds blk) as [b|] eqn:Eb; [|discriminate].
  destruct (Z.leb_spec 0 (BlkMigState.submitted (System.block_mig_state s) - 1));
    [|discriminate].
  intros [= <-]. unfold drained, after_read_cb. cbn.
  rewrite length_insert, length_app. cbn.
  repeat split; try lia.
  - apply (devs_agree_insert _ _ b); [exact Eb|].
    apply same_dev_set_aio_bitmap, set_aio_loop_length.
  - intros d b0 b' H1 H2. destruct (decide (BlkMigBlock.bmds blk = d)) as [E|Hne].
    + subst d. rewrite list_lookup_insert_eq in H2 by (eapply lookup_lt_Some; eassumption).
      injection H2 as <-. cbn. congruence.
    + rewrite list_lookup_insert_ne in H2 by exact Hne. congruence.
Qed.

Lemma aio_complete_all_drained (reqs : list (nat * BlkMigBlock.t)) (s s' : System.t) :
  aio_complete_all reqs s = Some (tt, s') ->
  drained (Z.of_nat (length reqs)) s s'
  /\ length (BlkMigState.bmds_list (System.block_mig_state s'))
     = length (BlkMigState.bmds_list (System.block_mig_state s)).
Proof.
  revert s. induction reqs as [|[i blk] reqs IH]; intros s H.
  - injection H as <-. split; [apply drained_refl | reflexivity].
  - cbn [aio_complete_all] in H. apply bind_inv in H. destruct H as ([] & s1 & H1 & H).
    unfold aio_complete in H1. apply bind_inv in H1. destruct H1 as (rd & s0 & H0 & H1).
    unfold bdrv_read in H0. munfold.
    destruct (System.bdrv_states s !! i); [|discriminate]. injection H0 as <- <-.
    apply blk_mig_read_cb_drained in H1. destruct H1 as [D1 L1].
    apply IH in H. destruct H as [D2 L2].
    split; [|congruence].
    replace (Z.of_nat (length ((i, blk) :: reqs))) with (1 + Z.of_nat (length reqs))
      by (cbn [length]; lia).
    eapply drained_trans; try eassumption; lia.
Qed.

Lemma bdrv_drain_all_post (s s' : System.t) :
  bdrv_drain_all s = Some (tt, s') ->
  drained (Z.of_nat (length (System.aio_requests s))) (System.set_aio_requests [] s) s'
  /\ length (BlkMigState.bmds_list (System.block_mig_state s'))
     = length (BlkMigState.bmds_list (System.block_mig_state s)).
Proof.
  unfold bdrv_drain_all. munfold. intros H.
  apply aio_complete_all_drained in H. exact H.
Qed.

Lemma counters_inv_drain (s s' : System.t) :
  bdrv_drain_all s = Some (tt, s') -> counters_inv s -> counters_inv s'.
Proof.
  intros H (I1 & I2 & I3 & I4). apply bdrv_drain_all_post in H.
  destruct H as [(A1 & A2 & A3 & A4 & A5 & A6 & A7 & A8 & A9 & A10 & A11) _].
  cbn in *. unfold counters_inv. rewrite A4, A7, A8. cbn. lia.
Qed.

Lemma blk_send_frame (blk : BlkMigBlock.t) (s s' : System.t) :
  blk_send blk s = Some (tt, s') ->
  System.block_mig_state s' = System.block_mig_state s
  /\ System.bdrv_states s' = System.bdrv_states s
  /\ System.aio_requests s' = System.aio_requests s
  /\ System.total_blocks s' = System.total_blocks s + 1.
Proof.
  unfold blk_send. munfold. cbn.
  destruct (truthy (is_zero_blk _)); cbn;
    (destruct (_ !! BlkMigBlock.bmds blk) as [b|]; [|discriminate]); cbn;
    destruct (truthy (BlkMigDevState.bulk_completed b)); cbn;
    destruct (truthy (BlkMigDevState.sparse_enable b)); cbn;
    try (destruct (_ !! BlkMigDevState.bs b) as [drv|]; [|discriminate]); cbn;
    intros [= <-]; cbn; repeat split.
Qed.

Lemma bdrv_reset_dirty_eq (i : nat) (cur_sector nr_sectors : Z) (s : System.t) :
  bdrv_reset_dirty i cur_sector nr_sectors s =
  match System.bdrv_states s !! i with
  | None => None
  | Some drv =>
      Some (tt, System.set_bdrv_states
                  (<[i := BlockDriverState.set_dirty_bitmap
                            (clear_chunks (cur_sector ÷ BDRV_SECTORS_PER_DIRTY_CHUNK)
                               ((cur_sector + nr_sectors - 1) ÷ BDRV_SECTORS_PER_DIRTY_CHUNK)
                               <$> BlockDriverState.dirty_bitmap drv) drv]>
                     (System.bdrv_states s)) s)
  end.
Proof.
  unfold bdrv_reset_dirty. munfold. destruct (_ !! i); reflexivity.
Qed.

Lemma bdrv_get_dirty_eq (i : nat) (sector : Z) (s : System.t) :
  bdrv_get_dirty i sector s =
  match System.bdrv_states s !! i with
  | None => None
  | Some b =>
      Some (match BlockDriverState.dirty_bitmap b with
            | Some bm =>
                (0 <=? sector)
                && (Z.shiftl sector BDRV_SECTOR_BITS <? BlockDriverState.getlength b)
                && default false (bm !! Z.to_nat (sector ÷ BDRV_SECTORS_PER_DIRTY_CHUNK))
            | None => false
            end, s)
  end.
Proof.
  unfold bdrv_get_dirty. munfold. destruct (_ !! i); reflexivity.
Qed.

Lemma clear_chunks_lookup (lo hi : Z) (bm : list bool) (k : nat) :
  lo <= Z.of_nat k <= hi -> default false (clear_chunks lo hi bm !! k) = false.
Proof.
  intros Hk. unfold clear_chunks. rewrite list_lookup_imap.
  destruct (bm !! k); cbn; [|reflexivity].
  destruct (Z.leb_spec lo (Z.of_nat k)); [|lia].
  destruct (Z.leb_spec (Z.of_nat k) hi); [|lia]. reflexivity.
Qed.

(** After [bdrv_reset_dirty], no sector of the range reads as dirty. *)
Lemma reset_dirty_clears (i : nat) (cur_sector nr_sectors : Z) (s s' : System.t) (t : Z) :
  0 < BDRV_SECTORS_PER_DIRTY_CHUNK ->
  bdrv_reset_dirty i cur_sector nr_sectors s = Some (tt, s') ->
  cur_sector <= t <= cur_sector + nr_sectors - 1 ->
  bdrv_get_dirty i t s' = Some (false, s').
Proof.
  intros Hc H Ht. rewrite bdrv_reset_dirty_eq in H.
  destruct (System.bdrv_states s !! i) as [drv|] eqn:Ed; [|discriminate].
  injection H as <-. rewrite bdrv_get_dirty_eq. cbn.
  rewrite list_lookup_insert_eq by (eapply lookup_lt_Some; eassumption). cbn.
  destruct (BlockDriverState.dirty_bitmap drv) as [bm|]; cbn; [|reflexivity].
  destruct (Z.leb_spec 0 t); cbn; [|reflexivity].
  rewrite clear_chunks_lookup; [rewrite andb_false_r; reflexivity|].
  assert (0 <= t ÷ BDRV_SECTORS_PER_DIRTY_CHUNK) by (apply Z.quot_pos; lia).
  rewrite Z2Nat.id by lia.
  split; apply Z.quot_le_mono; lia.
Qed.

End EngineLemmas.

(** ** The dirty scan *)

Section DirtyScan.
Context {P : Platform}.

Lemma get_bmds_inv (d : nat) (s s1 : System.t) (b : BlkMigDevState.t) :
  get_bmds d s = Some (b, s1) ->
  BlkMigState.bmds_list (System.block_mig_state s) !! d = Some b /\ s1 = s.
Proof.
  munfold. destruct (_ !! d); [|discriminate]. intros [= <- <-]. auto.
Qed.

Lemma set_bmds_eq (d : nat) (f : BlkMigDevState.t -> BlkMigDevState.t) (s : System.t) :
  set_bmds d f s =
  match BlkMigState.bmds_list (System.block_mig_state s) !! d with
  | None => None
  | Some b =>
      Some (tt, System.set_block_mig_state
                  (BlkMigState.set_bmds_list
                     (<[d := f b]> (BlkMigState.bmds_list (System.block_mig_state s)))
                     (System.block_mig_state s)) s)
  end.
Proof. munfold. destruct (_ !! d); reflexivity. Qed.

Lemma drives_agree_refl (l : list BlockDriverState.t) : drives_agree l l.
Proof. intros i b H. exists b. split; [exact H | reflexivity]. Qed.

Lemma drives_agree_eq (l l' : list BlockDriverState.t) : l' = l -> drives_agree l l'.
Proof. intros ->. apply drives_agree_refl. Qed.

Lemma drives_agree_insert (l : list BlockDriverState.t) (i : nat)
      (b : BlockDriverState.t) (v : option (list bool)) :
  l !! i = Some b -> drives_agree l (<[i := BlockDriverState.set_dirty_bitmap v b]> l).
Proof.
  intros Hb j x Hx. destruct (decide (i = j)) as [E|Hne].
  - subst j. rewrite list_lookup_insert_eq by (eapply lookup_lt_Some; eassumption).
    eexists. split; [reflexivity|]. rewrite Hb in Hx. injection Hx as <-. reflexivity.
  - rewrite list_lookup_insert_ne by exact Hne. exists x. split; [exact Hx | reflexivity].
Qed.

Lemma quiet_refl (s : System.t) : quiet s s.
Proof.
  unfold quiet. do 3 (split; [reflexivity|]). split; [apply devs_agree_refl|].
  split; [reflexivity|]. split; [tauto | reflexivity].
Qed.

Lemma quiet_trans (s1 s2 s3 : System.t) : quiet s1 s2 -> quiet s2 s3 -> quiet s1 s3.
Proof.
  intros (A1 & A2 & A3 & A4 & A5 & A6 & A7) (B1 & B2 & B3 & B4 & B5 & B6 & B7).
  unfold quiet. do 3 (split; [congruence|]).
  split; [eapply devs_agree_trans; eassumption|].
  split; [congruence|]. split; [tauto | congruence].
Qed.

Lemma quiet_drain (s s' : System.t) : bdrv_drain_all s = Some (tt, s') -> quiet s s'.
Proof.
  intros H. pose proof (counters_inv_drain _ _ H) as Hc.
  apply bdrv_drain_all_post in H.
  destruct H as [(A1 & A2 & A3 & A4 & A5 & A6 & A7 & A8 & A9 & A10 & A11) L].
  cbn in *. unfold quiet. tauto.
Qed.

Lemma drain_cursor (s s' : System.t) (d : nat) (b : BlkMigDevState.t) :
  bdrv_drain_all s = Some (tt, s') ->
  BlkMigState.bmds_list (System.block_mig_state s) !! d = Some b ->
  exists b', BlkMigState.bmds_list (System.block_mig_state s') !! d = Some b'
             /\ same_dev b b'
             /\ BlkMigDevState.cur_dirty b' = BlkMigDevState.cur_dirty b.
Proof.
  intros H Hb. apply bdrv_drain_all_post in H.
  destruct H as [(A1 & A2 & A3 & A4 & A5 & A6 & A7 & A8 & A9 & A10 & A11) L].
  cbn in *. destruct (A5 d b Hb) as (b' & Hb' & Hs).
  exists b'. split; [exact Hb'|]. split; [exact Hs|]. eapply A6; eassumption.
Qed.

Lemma quiet_set_cur_dirty (d : nat) (v : Z) (s s' : System.t) :
  set_bmds d (BlkMigDevState.set_cur_dirty v) s = Some (tt, s') -> quiet s s'.
Proof.
  rewrite set_bmds_eq. destruct (_ !! d) as [b|] eqn:Eb; [|discriminate].
  intros [= <-]. unfold quiet. cbn. rewrite length_insert.
  do 3 (split; [reflexivity|]).
  split; [apply (devs_agree_insert _ _ b); [exact Eb | apply same_dev_set_cur_dirty]|].
  split; [reflexivity|]. split; [tauto | reflexivity].
Qed.

Lemma b2z_leb_1 (x y : Z) : Z.b2z (x <=? y) = 1 <-> x <= y.
Proof. destruct (Z.leb_spec x y); cbn; split; intros; lia. Qed.

Lemma async_submit_post (d bsi : nat) (blk : BlkMigBlock.t) (sector nr : Z)
      (s s' : System.t) (err : option Z) :
  (st <- mig ;;
   when (BlkMigState.submitted st =? 0)
     (now <- qemu_get_clock_ns ;; set_mig (BlkMigState.set_prev_time_offset now)) ;;;
   bdrv_aio_readv bsi blk ;;;
   set_mig (fun st => BlkMigState.set_submitted (BlkMigState.submitted st + 1) st) ;;;
   bmds_set_aio_inflight d sector nr 1 ;;;
   ret None) s = Some (err, s') ->
  err = None
  /\ System.bdrv_states s' = System.bdrv_states s
  /\ System.out_file s' = System.out_file s
  /\ System.total_blocks s' = System.total_blocks s
  /\ System.aio_requests s' = System.aio_requests s ++ [(bsi, blk)]
  /\ BlkMigState.submitted (System.block_mig_state s')
     = BlkMigState.submitted (System.block_mig_state s) + 1
  /\ BlkMigState.read_done (System.block_mig_state s')
     = BlkMigState.read_done (System.block_mig_state s)
  /\ BlkMigState.blk_list (System.block_mig_state s')
     = BlkMigState.blk_list (System.block_mig_state s)
  /\ BlkMigState.transferred (System.block_mig_state s')
     = BlkMigState.transferred (System.block_mig_state s)
  /\ exists b,
       BlkMigState.bmds_list (System.block_mig_state s) !! d = Some b
       /\ BlkMigState.bmds_list (System.block_mig_state s')
          = <[d := BlkMigDevState.set_aio_bitmap
                     (set_aio_loop
                        (Z.to_nat ((sector + nr - 1) ÷ BDRV_SECTORS_PER_DIRTY_CHUNK
                                   - sector ÷ BDRV_SECTORS_PER_DIRTY_CHUNK + 1))
                        (sector ÷ BDRV_SECTORS_PER_DIRTY_CHUNK) 1
                        (BlkMigDevState.aio_bitmap b)) b]>
              (BlkMigState.bmds_list (System.block_mig_state s)).
Proof.
  unfold bmds_set_aio_inflight, bdrv_aio_readv, qemu_get_clock_ns. munfold.
  destruct (BlkMigState.submitted (System.block_mig_state s) =? 0); cbn;
    (destruct (_ !! d) as [b|]; [|discriminate]); intros [= <- <-]; cbn;
    repeat (split; [reflexivity|]); exists b; split; reflexivity.
Qed.

Lemma dirty_scan_post_gen (d : nat) (a : Z) :
  0 < BDRV_SECTORS_PER_DIRTY_CHUNK ->
  forall (fuel : nat) (sector : Z) (s s' s0 : System.t) (r : Z) (b0 b : BlkMigDevState.t),
    quiet s0 s ->
    BlkMigState.bmds_list (System.block_mig_state s0) !! d = Some b0 ->
    BlkMigState.bmds_list (System.block_mig_state s) !! d = Some b ->
    same_dev b0 b ->
    BlkMigDevState.cur_dirty b0 <= sector ->
    BlkMigDevState.cur_dirty b = sector ->
    dirty_scan fuel d a sector s = Some (r, s') ->
    dirty_step_post d a b0 s0 r s'.
Proof.
  intros Hc. induction fuel as [|fuel IH]; intros sector s s' s0 r b0 b Hq Hb0 Hb Hsame Hle Hcur H;
    [discriminate|].
  cbn [dirty_scan] in H.
  apply bind_inv in H. destruct H as (b1 & s1 & H1 & H).
  apply get_bmds_inv in H1. destruct H1 as [H1 ->]. rewrite Hb in H1. injection H1 as <-.
  destruct (same_dev_fields _ _ Hsame) as (Fbs & Ftot & _ & _ & _ & Flen).
  pose proof Hq as (Q1 & Q2 & Q3 & Q4 & Q5 & Q6 & Q7).
  destruct (Z.ltb_spec sector (BlkMigDevState.total_sectors b)) as [Hlt|Hge].
  2:{ (* the loop is over *)
      apply bind_inv in H. destruct H as (b1 & s1 & H1 & H).
      apply get_bmds_inv in H1. destruct H1 as [H1 ->]. rewrite Hb in H1. injection H1 as <-.
      injection H as <- <-.
      exists b. split; [exact Hb|]. split; [exact Hsame|]. split; [lia|].
      split; [exact Q4|]. split; [exact Q5|]. split; [apply drives_agree_eq, Q1|].
      split; [exact Q6|]. split; [exact Q7|].
      left. destruct (Z.leb_spec (BlkMigDevState.total_sectors b) (BlkMigDevState.cur_dirty b));
        [|lia]. cbn. repeat split; try assumption; lia. }
  apply bind_inv in H. destruct H as (v & s1 & H1 & H).
  rewrite bmds_aio_inflight_eq, Hb in H1.
  destruct (System.bdrv_states s !! BlkMigDevState.bs b) as [drv|] eqn:Edrv; [|discriminate].
  injection H1 as _ <-.
  apply bind_inv in H. destruct H as ([] & s2 & H2 & H).
  assert (Hq2 : quiet s s2 /\
                exists b2, BlkMigState.bmds_list (System.block_mig_state s2) !! d = Some b2
                           /\ same_dev b b2
                           /\ BlkMigDevState.cur_dirty b2 = BlkMigDevState.cur_dirty b).
  { unfold when in H2. destruct (truthy _).
    - split; [apply quiet_drain, H2 | eapply drain_cursor; eassumption].
    - injection H2 as <-. split; [apply quiet_refl|].
      exists b. split; [exact Hb|]. split; [apply same_dev_refl | reflexivity]. }
  clear H2. destruct Hq2 as (Hq2 & b2 & Hb2 & Hsame2 & Hcur2).
  pose proof (quiet_trans _ _ _ Hq Hq2) as Hq02.
  pose proof (same_dev_trans _ _ _ Hsame Hsame2) as Hsame02.
  destruct (same_dev_fields _ _ Hsame2) as (Fbs2 & Ftot2 & _ & _ & _ & Flen2).
  pose proof Hq02 as (R1 & R2 & R3 & R4 & R5 & R6 & R7).
  fold (chunk_sectors (BlkMigDevState.total_sectors b) sector) in H.
  set (nr := chunk_sectors (BlkMigDevState.total_sectors b) sector) in *.
  apply bind_inv in H. destruct H as (is_dirty & s3 & H3 & H).
  rewrite bdrv_get_dirty_eq in H3.
  destruct (System.bdrv_states s2 !! BlkMigDevState.bs b) as [drv2|] eqn:Edrv2; [|discriminate].
  injection H3 as _ <-.
  destruct is_dirty.
  2:{ (* the chunk is clean: the cursor moves on *)
      apply bind_inv in H. destruct H as ([] & s4 & H4 & H).
      pose proof (quiet_set_cur_dirty _ _ _ _ H4) as Hq4.
      rewrite set_bmds_eq, Hb2 in H4. injection H4 as <-.
      eapply (IH _ _ _ s0 _ b0 _ (quiet_trans _ _ _ Hq02 Hq4) Hb0); [| | | |exact H].
      - cbn. apply list_lookup_insert_eq. eapply lookup_lt_Some; eassumption.
      - eapply same_dev_trans; [exact Hsame02 | apply same_dev_set_cur_dirty].
      - lia.
      - reflexivity. }
  (* the chunk is dirty *)
  apply bind_inv in H. destruct H as (err & s4 & H4 & H).
  assert (Hcopy :
    (exists rd, err = Some rd /\ rd < 0 /\ truthy a = false /\ s4 = s2)
    \/ (err = None
        /\ System.bdrv_states s4 = System.bdrv_states s2
        /\ (counters_inv s2 -> counters_inv s4)
        /\ BlkMigState.transferred (System.block_mig_state s4)
           = BlkMigState.transferred (System.block_mig_state s2)
        /\ length (BlkMigState.bmds_list (System.block_mig_state s4))
           = length (BlkMigState.bmds_list (System.block_mig_state s2))
        /\ devs_agree (BlkMigState.bmds_list (System.block_mig_state s2))
                      (BlkMigState.bmds_list (System.block_mig_state s4))
        /\ (exists b4, BlkMigState.bmds_list (System.block_mig_state s4) !! d = Some b4
                       /\ same_dev b2 b4
                       /\ BlkMigDevState.cur_dirty b4 = BlkMigDevState.cur_dirty b2
                       /\ (truthy a = true -> 1 <= nr ->
                           to_ulong (sector ÷ BDRV_SECTORS_PER_DIRTY_CHUNK) / BITS_PER_LONG
                           < Z.of_nat (length (BlkMigDevState.aio_bitmap b2)) ->
                           bit_at (BlkMigDevState.aio_bitmap b4)
                                  (sector ÷ BDRV_SECTORS_PER_DIRTY_CHUNK) = true))
        /\ (truthy a = true ->
            System.aio_requests s4
            = System.aio_requests s2 ++ [(BlkMigDevState.bs b, BlkMigBlock.mk [] d sector nr 0)])
        /\ (truthy a = false -> System.total_blocks s4 = System.total_blocks s2 + 1))).
  { destruct (truthy a) eqn:Ea.
    - right. apply async_submit_post in H4.
      destruct H4 as (-> & C1 & C2 & C3 & C4 & C5 & C6 & C7 & C8 & bb & Hbb & C9).
      rewrite Hb2 in Hbb. injection Hbb as <-.
      split; [reflexivity|]. split; [exact C1|].
      split.
      { unfold counters_inv. rewrite C4, C5, C6, C7, length_app. cbn. lia. }
      split; [exact C8|].
      split; [rewrite C9; apply length_insert|].
      split.
      { rewrite C9. apply (devs_agree_insert _ _ b2); [exact Hb2|].
        apply same_dev_set_aio_bitmap, set_aio_loop_length. }
      split.
      { eexists. rewrite C9.
        split; [apply list_lookup_insert_eq; eapply lookup_lt_Some; eassumption|].
        split; [apply same_dev_set_aio_bitmap, set_aio_loop_length|].
        split; [reflexivity|].
        intros _ Hnr Hidx. cbn. apply set_aio_loop_sets; [|exact Hidx].
        assert (sector ÷ BDRV_SECTORS_PER_DIRTY_CHUNK
                <= (sector + nr - 1) ÷ BDRV_SECTORS_PER_DIRTY_CHUNK)
          by (apply Z.quot_le_mono; lia).
        lia. }
      split; [intros _; exact C4 | discriminate].
    - apply bind_inv in H4. destruct H4 as (rd & s5 & H5 & H4).
      unfold bdrv_read in H5. munfold. rewrite Edrv2 in H5. injection H5 as <- <-.
      destruct (Z.ltb_spec (fst (BlockDriverState.read_result drv2 sector nr)) 0) as [Hneg|Hpos].
      + left. injection H4 as <- <-. eauto.
      + right. apply bind_inv in H4. destruct H4 as ([] & s5 & H5 & H4).
        injection H4 as <- <-. apply blk_send_frame in H5.
        destruct H5 as (C1 & C2 & C3 & C4).
        split; [reflexivity|]. split; [exact C2|].
        split; [unfold counters_inv; rewrite C1, C3; tauto|].
        split; [rewrite C1; reflexivity|]. split; [rewrite C1; reflexivity|].
        split; [rewrite C1; apply devs_agree_refl|].
        split.
        { exists b2. rewrite C1. split; [exact Hb2|]. split; [apply same_dev_refl|].
          split; [reflexivity | discriminate]. }
        split; [discriminate | intros _; exact C4]. }
  clear H4. destruct Hcopy as [(rd & -> & Hneg & Ea & ->)|Hcopy].
  { (* a failed synchronous read *)
    injection H as <- <-.
    exists b2. split; [exact Hb2|]. split; [exact Hsame02|]. split; [lia|].
    split; [exact R4|]. split; [exact R5|]. split; [apply drives_agree_eq, R1|].
    split; [exact R6|]. split; [exact R7|].
    right. right. repeat split; try assumption; lia. }
  destruct Hcopy as (-> & D1 & D2 & D3 & D4 & D5 & (b4 & Hb4 & Hsame4 & Hcur4 & Hbit) & D6 & D7).
  apply bind_inv in H. destruct H as ([] & s5 & H5 & H).
  pose proof (fun t => reset_dirty_clears _ _ _ _ _ t Hc H5) as Hclean.
  rewrite bdrv_reset_dirty_eq in H5.
  destruct (System.bdrv_states s4 !! BlkMigDevState.bs b) as [drv4|] eqn:Edrv4; [|discriminate].
  injection H5 as <-.
  apply bind_inv in H. destruct H as (b5 & s6 & H6 & H).
  apply get_bmds_inv in H6. destruct H6 as [H6 ->]. cbn in H6. rewrite Hb4 in H6.
  injection H6 as <-. injection H as <- <-.
  destruct (same_dev_fields _ _ Hsame4) as (Fbs4 & Ftot4 & _ & _ & _ & Flen4).
  exists b4. cbn.
  split; [exact Hb4|]. split; [eapply same_dev_trans; eassumption|]. split; [lia|].
  split; [eapply devs_agree_trans; eassumption|]. split; [congruence|].
  split.
  { rewrite <- R1, <- D1. apply drives_agree_insert, Edrv4. }
  split; [unfold counters_inv in *; cbn; tauto|]. split; [congruence|].
  right. left.
  destruct (Z.leb_spec (BlkMigDevState.total_sectors b4) (BlkMigDevState.cur_dirty b4)); [lia|].
  split; [reflexivity|]. split; [lia|].
  rewrite Hcur4, Hcur2, Hcur, <- Ftot, Fbs in *. fold nr.
  split; [exact Hclean|].
  split.
  - intros Ea. split; [eexists; apply D6, Ea|].
    intros Hnr Hidx. apply Hbit; [exact Ea | exact Hnr | lia].
  - intros Ea. rewrite D7 by exact Ea. lia.
Qed.
End DirtyScan.

(** ** The dirty scan returns *)

Section Totality.
Context {P : Platform}.

Lemma well_formed_spec (s : System.t) :
  well_formed s = true <->
  (forall d b, BlkMigState.bmds_list (System.block_mig_state s) !! d = Some b ->
               (BlkMigDevState.bs b < length (System.bdrv_states s))%nat)
  /\ (forall k req, System.aio_requests s !! k = Some req ->
        (fst req < length (System.bdrv_states s))%nat
        /\ (BlkMigBlock.bmds (snd req)
            < length (BlkMigState.bmds_list (System.block_mig_state s)))%nat)
  /\ Z.of_nat (length (System.aio_requests s))
     <= BlkMigState.submitted (System.block_mig_state s).
Proof.
  unfold well_formed. cbv zeta. rewrite !andb_true_iff, !forallb_forall, Z.leb_le.
  split.
  - intros [[H1 H2] H3]. split; [|split; [|exact H3]].
    + intros d b Hb. apply Nat.ltb_lt, H1, list_elem_of_In.
      eapply list_elem_of_lookup_2, Hb.
    + intros k req Hk.
      assert (In req (System.aio_requests s)) as Hin
        by (apply list_elem_of_In; eapply list_elem_of_lookup_2, Hk).
      specialize (H2 req Hin). apply andb_true_iff in H2.
      rewrite !Nat.ltb_lt in H2. exact H2.
  - intros (H1 & H2 & H3). split; [split|exact H3].
    + intros b Hb. apply list_elem_of_In, list_elem_of_lookup in Hb.
      destruct Hb as [d Hd]. apply Nat.ltb_lt. eapply H1, Hd.
    + intros req Hin. apply list_elem_of_In, list_elem_of_lookup in Hin.
      destruct Hin as [k Hk]. apply andb_true_iff. rewrite !Nat.ltb_lt. eapply H2, Hk.
Qed.

Lemma get_bmds_ok (d : nat) (s : System.t) (b : BlkMigDevState.t) :
  BlkMigState.bmds_list (System.block_mig_state s) !! d = Some b ->
  get_bmds d s = Some (b, s).
Proof. intros H. munfold. rewrite H. reflexivity. Qed.

Lemma aio_complete_eq (i : nat) (blk : BlkMigBlock.t) (s : System.t) :
  aio_complete (i, blk) s =
  match System.bdrv_states s !! i with
  | None => None
  | Some drv =>
      let rd := BlockDriverState.read_result drv (BlkMigBlock.sector blk)
                  (BlkMigBlock.nr_sectors blk) in
      blk_mig_read_cb (BlkMigBlock.set_buf (snd rd) blk) (fst rd) s
  end.
Proof.
  unfold aio_complete, bdrv_read. unfold bind at 1. unfold bind at 1.
  unfold get_bs, bind, get, ret. destruct (_ !! i); reflexivity.
Qed.

Lemma aio_complete_all_total (reqs : list (nat * BlkMigBlock.t)) (s : System.t) :
  (forall req, In req reqs ->
     (fst req < length (System.bdrv_states s))%nat
     /\ (BlkMigBlock.bmds (snd req)
         < length (BlkMigState.bmds_list (System.block_mig_state s)))%nat) ->
  Z.of_nat (length reqs) <= BlkMigState.submitted (System.block_mig_state s) ->
  exists s', aio_complete_all reqs s = Some (tt, s').
Proof.
  revert s. induction reqs as [|[i blk] reqs IH]; intros s Hv Hn.
  - eexists. reflexivity.
  - destruct (Hv (i, blk) (or_introl eq_refl)) as [Hi Hd]. cbn [fst snd] in Hi, Hd.
    apply lookup_lt_is_Some_2 in Hi, Hd. destruct Hi as [drv Hdrv], Hd as [b Hb].
    cbn [length] in Hn.
    cbn [aio_complete_all]. erewrite bind_some.
    2:{ rewrite aio_complete_eq, Hdrv. cbv zeta. rewrite blk_mig_read_cb_eq.
        cbn [BlkMigBlock.bmds BlkMigBlock.set_buf]. rewrite Hb.
        destruct (Z.leb_spec 0 (BlkMigState.submitted (System.block_mig_state s) - 1));
          [reflexivity | lia]. }
    apply IH.
    + intros req Hin. destruct (Hv req (or_intror Hin)) as [H1 H2].
      unfold after_read_cb. cbn. rewrite length_insert. auto.
    + unfold after_read_cb. cbn. lia.
Qed.

Lemma bdrv_drain_all_total (s : System.t) :
  well_formed s = true ->
  exists s', bdrv_drain_all s = Some (tt, s') /\ well_formed s' = true.
Proof.
  intros Hwf. pose proof (proj1 (well_formed_spec s) Hwf) as (W1 & W2 & W3).
  destruct (aio_complete_all_total (System.aio_requests s) (System.set_aio_requests [] s))
    as [s' Hs'].
  { intros req Hin. apply list_elem_of_In, list_elem_of_lookup in Hin.
    destruct Hin as [k Hk]. apply (W2 k req Hk). }
  { exact W3. }
  assert (Hrun : bdrv_drain_all s = Some (tt, s')).
  { unfold bdrv_drain_all. munfold. exact Hs'. }
  exists s'. split; [exact Hrun|].
  apply bdrv_drain_all_post in Hrun.
  destruct Hrun as [(A1 & A2 & A3 & A4 & A5 & A6 & A7 & A8 & A9 & A10 & A11) L].
  cbn in A1, A4, A5, A7.
  apply well_formed_spec. rewrite A1, A4, A7, L. split; [|split].
  - intros d b' Hb'.
    destruct (lookup_lt_is_Some_2 (BlkMigState.bmds_list (System.block_mig_state s)) d)
      as [b Hb]; [rewrite <- L; eapply lookup_lt_Some, Hb'|].
    destruct (A5 d b Hb) as (b'' & Hb'' & Hsame).
    rewrite Hb' in Hb''. injection Hb'' as <-.
    destruct (same_dev_fields _ _ Hsame) as (-> & _). eapply W1, Hb.
  - intros k req Hk. rewrite lookup_nil in Hk. discriminate.
  - cbn [length]. lia.
Qed.

Lemma well_formed_insert (d : nat) (b b' : BlkMigDevState.t) (s : System.t) :
  well_formed s = true ->
  BlkMigState.bmds_list (System.block_mig_state s) !! d = Some b ->
  BlkMigDevState.bs b' = BlkMigDevState.bs b ->
  well_formed
    (System.set_block_mig_state
       (BlkMigState.set_bmds_list (<[d := b']> (BlkMigState.bmds_list (System.block_mig_state s)))
          (System.block_mig_state s)) s) = true.
Proof.
  intros Hwf Hb Hbs. pose proof (proj1 (well_formed_spec s) Hwf) as (W1 & W2 & W3).
  apply well_formed_spec. cbn. rewrite length_insert. split; [|split; assumption].
  intros i x Hx. destruct (decide (d = i)) as [E|Hne].
  - subst i. rewrite list_lookup_insert_eq in Hx by (eapply lookup_lt_Some, Hb).
    injection Hx as <-. rewrite Hbs. eapply W1, Hb.
  - rewrite list_lookup_insert_ne in Hx by exact Hne. eapply W1, Hx.
Qed.

Lemma blk_send_total (blk : BlkMigBlock.t) (s : System.t) (b : BlkMigDevState.t)
      (drv : BlockDriverState.t) :
  BlkMigState.bmds_list (System.block_mig_state s) !! BlkMigBlock.bmds blk = Some b ->
  System.bdrv_states s !! BlkMigDevState.bs b = Some drv ->
  exists s', blk_send blk s = Some (tt, s').
Proof.
  intros Hb Hdrv. unfold blk_send. munfold. cbn.
  destruct (truthy (is_zero_blk _)); cbn; rewrite Hb; cbn;
    destruct (truthy (BlkMigDevState.bulk_completed b)); cbn;
    destruct (truthy (BlkMigDevState.sparse_enable b)); cbn;
    rewrite ?Hdrv; cbn; eexists; reflexivity.
Qed.

Lemma bdrv_read_eq (i : nat) (sector nr_sectors : Z) (s : System.t) :
  bdrv_read i sector nr_sectors s =
  match System.bdrv_states s !! i with
  | None => None
  | Some drv => Some (BlockDriverState.read_result drv sector nr_sectors, s)
  end.
Proof. unfold bdrv_read. munfold. destruct (_ !! i); reflexivity. Qed.

Lemma async_submit_total (d bsi : nat) (blk : BlkMigBlock.t) (sector nr : Z)
      (s : System.t) (b : BlkMigDevState.t) :
  BlkMigState.bmds_list (System.block_mig_state s) !! d = Some b ->
  exists s',
    (st <- mig ;;
     when (BlkMigState.submitted st =? 0)
       (now <- qemu_get_clock_ns ;; set_mig (BlkMigState.set_prev_time_offset now)) ;;;
     bdrv_aio_readv bsi blk ;;;
     set_mig (fun st => BlkMigState.set_submitted (BlkMigState.submitted st + 1) st) ;;;
     bmds_set_aio_inflight d sector nr 1 ;;;
     ret None) s = Some (@None Z, s').
Proof.
  intros Hb. unfold bmds_set_aio_inflight, bdrv_aio_readv, qemu_get_clock_ns. munfold.
  destruct (BlkMigState.submitted (System.block_mig_state s) =? 0); cbn;
    rewrite Hb; eexists; reflexivity.
Qed.

(** With one unit of fuel per sector left to scan, and one more, the scan
    of [mig_save_device_dirty] returns. *)
Lemma dirty_scan_total (d : nat) (a : Z) :
  0 < BDRV_SECTORS_PER_DIRTY_CHUNK ->
  forall (fuel : nat) (sector : Z) (s : System.t) (b : BlkMigDevState.t),
    well_formed s = true ->
    BlkMigState.bmds_list (System.block_mig_state s) !! d = Some b ->
    (Z.to_nat (BlkMigDevState.total_sectors b - sector) < fuel)%nat ->
    exists r s', dirty_scan fuel d a sector s = Some (r, s').
Proof.
  intros Hc. induction fuel as [|fuel IH]; intros sector s b Hwf Hb Hfuel; [lia|].
  cbn [dirty_scan]. rewrite (bind_some _ _ _ _ _ (get_bmds_ok _ _ _ Hb)).
  destruct (Z.ltb_spec sector (BlkMigDevState.total_sectors b)) as [Hlt|Hge].
  2:{ rewrite (bind_some _ _ _ _ _ (get_bmds_ok _ _ _ Hb)). eexists _, _. reflexivity. }
  pose proof (proj1 (well_formed_spec s) Hwf) as (W1 & _).
  destruct (lookup_lt_is_Some_2 _ _ (W1 d b Hb)) as [drv Hdrv].
  erewrite bind_some; [|rewrite bmds_aio_inflight_eq, Hb, Hdrv; reflexivity].
  (* the reads in flight are drained when the chunk is being read *)
  match goal with |- context [when ?c bdrv_drain_all] => set (inflight := c) end.
  assert (Hdrain : exists s2 b2,
             when inflight bdrv_drain_all s = Some (tt, s2)
             /\ well_formed s2 = true
             /\ BlkMigState.bmds_list (System.block_mig_state s2) !! d = Some b2
             /\ same_dev b b2).
  { unfold when. destruct inflight.
    - destruct (bdrv_drain_all_total s Hwf) as (s2 & Hrun & Hwf2).
      destruct (drain_cursor _ _ _ _ Hrun Hb) as (b2 & Hb2 & Hsame & _).
      exists s2, b2. auto.
    - exists s, b. split; [reflexivity|]. split; [exact Hwf|].
      split; [exact Hb | apply same_dev_refl]. }
  destruct Hdrain as (s2 & b2 & Hrun & Hwf2 & Hb2 & Hsame).
  rewrite (bind_some _ _ _ _ _ Hrun).
  destruct (same_dev_fields _ _ Hsame) as (Fbs & Ftot & _).
  pose proof (proj1 (well_formed_spec s2) Hwf2) as (V1 & _).
  destruct (lookup_lt_is_Some_2 _ _ (V1 d b2 Hb2)) as [drv2 Hdrv2].
  rewrite Fbs in Hdrv2.
  erewrite bind_some; [|rewrite bdrv_get_dirty_eq, Hdrv2; reflexivity].
  match goal with |- context [if ?c then _ else _] => destruct c end.
  - (* a dirty chunk *)
    match goal with |- context [BlkMigBlock.mk [] d sector ?n 0] => set (nr := n) end.
    destruct (truthy a).
    + destruct (async_submit_total d (BlkMigDevState.bs b)
                  (BlkMigBlock.mk [] d sector nr 0) sector nr s2 b2 Hb2) as (s4 & H4).
      rewrite (bind_some _ _ _ _ _ H4).
      apply async_submit_post in H4.
      destruct H4 as (_ & C1 & _ & _ & _ & _ & _ & _ & _ & bb & Hbb & C9).
      erewrite bind_some; [|rewrite bdrv_reset_dirty_eq, C1, Hdrv2; reflexivity].
      destruct (lookup_lt_is_Some_2 (BlkMigState.bmds_list (System.block_mig_state s4)) d)
        as [b4 Hb4]; [rewrite C9, length_insert; eapply lookup_lt_Some, Hb2|].
      erewrite bind_some; [|apply get_bmds_ok; cbn; exact Hb4].
      eexists _, _. reflexivity.
    + unfold bind at 1. unfold bind at 1.
      rewrite bdrv_read_eq, Hdrv2.
      destruct (fst _ <? 0); [eexists _, _; reflexivity|].
      match goal with |- context [blk_send ?x] =>
        destruct (blk_send_total x s2 b2 drv2 Hb2) as (s4 & H4);
          [rewrite Fbs; exact Hdrv2|]
      end.
      unfold bind at 1. rewrite H4. unfold ret at 1.
      apply blk_send_frame in H4. destruct H4 as (C1 & C2 & _).
      erewrite bind_some; [|rewrite bdrv_reset_dirty_eq, C2, Hdrv2; reflexivity].
      erewrite bind_some; [|apply get_bmds_ok; cbn; rewrite C1; exact Hb2].
      eexists _, _. reflexivity.
  - (* a clean chunk: the cursor moves on *)
    erewrite bind_some; [|rewrite set_bmds_eq, Hb2; reflexivity].
    eapply IH.
    + eapply well_formed_insert; [exact Hwf2 | exact Hb2 | reflexivity].
    + cbn. apply list_lookup_insert_eq. eapply lookup_lt_Some, Hb2.
    + cbn [BlkMigDevState.total_sectors BlkMigDevState.set_cur_dirty]. lia.
Qed.

Lemma mig_save_device_dirty_total (d : nat) (a : Z) (s : System.t) (b : BlkMigDevState.t) :
  0 < BDRV_SECTORS_PER_DIRTY_CHUNK ->
  well_formed s = true ->
  BlkMigState.bmds_list (System.block_mig_state s) !! d = Some b ->
  exists r s', mig_save_device_dirty d a s = Some (r, s').
Proof.
  intros Hc Hwf Hb. unfold mig_save_device_dirty.
  rewrite (bind_some _ _ _ _ _ (get_bmds_ok _ _ _ Hb)).
  eapply dirty_scan_total; [exact Hc | exact Hwf | exact Hb | lia].
Qed.

End Totality.

Section DirtyTheorems.
Context {P : Platform}.

Lemma mig_save_device_dirty_post (d : nat) (a : Z) (s s' : System.t) (r : Z)
      (b : BlkMigDevState.t) :
  0 < BDRV_SECTORS_PER_DIRTY_CHUNK ->
  BlkMigState.bmds_list (System.block_mig_state s) !! d = Some b ->
  mig_save_device_dirty d a s = Some (r, s') ->
  dirty_step_post d a b s r s'.
Proof.
  intros Hc Hb H. unfold mig_save_device_dirty in H.
  apply bind_inv in H. destruct H as (b1 & s1 & H1 & H).
  apply get_bmds_inv in H1. destruct H1 as [H1 ->]. rewrite Hb in H1. injection H1 as <-.
  eapply (dirty_scan_post_gen d a Hc _ (BlkMigDevState.cur_dirty b) s s' s r b b
            (quiet_refl s) Hb Hb (same_dev_refl b)); [lia | reflexivity | exact H].
Qed.


End DirtyTheorems.

(** ** The bulk step *)

Section Bulk.
Context {P : Platform}.

Lemma skip_unallocated_pure (fuel : nat) (bs : nat) (total cur : Z) (s s' : System.t) (v : Z) :
  skip_unallocated fuel bs total cur s = Some (v, s') -> s' = s.
Proof.
  revert cur. induction fuel as [|fuel IH]; intros cur H; [discriminate|].
  cbn [skip_unallocated] in H. destruct (cur <? total).
  - apply bind_inv in H. destruct H as (r & s1 & H1 & H).
    unfold bdrv_is_allocated in H1. munfold.
    destruct (System.bdrv_states s !! bs); [|discriminate]. injection H1 as <- <-.
    destruct (fst _); [injection H as _ <-; reflexivity | eapply IH, H].
  - injection H as _ <-. reflexivity.
Qed.

Lemma bitmaps_kept_refl (l : list BlkMigDevState.t) : bitmaps_kept l l.
Proof. intros i b H. eauto. Qed.

Lemma bitmaps_kept_trans (l1 l2 l3 : list BlkMigDevState.t) :
  bitmaps_kept l1 l2 -> bitmaps_kept l2 l3 -> bitmaps_kept l1 l3.
Proof.
  intros H1 H2 i b Hb. destruct (H1 i b Hb) as (b' & Hb' & E1).
  destruct (H2 i b' Hb') as (b'' & Hb'' & E2). exists b''. split; [exact Hb'' | congruence].
Qed.

Lemma bitmaps_kept_insert (l : list BlkMigDevState.t) (d : nat) (b b' : BlkMigDevState.t) :
  l !! d = Some b ->
  BlkMigDevState.aio_bitmap b' = BlkMigDevState.aio_bitmap b ->
  bitmaps_kept l (<[d := b']> l).
Proof.
  intros Hb E i x Hx. destruct (decide (d = i)) as [Ed|Hne].
  - subst i. rewrite list_lookup_insert_eq by (eapply lookup_lt_Some; eassumption).
    exists b'. split; [reflexivity | congruence].
  - rewrite list_lookup_insert_ne by exact Hne. eauto.
Qed.

Lemma mig_save_device_bulk_post (d : nat) (s s' : System.t) (r : Z) :
  mig_save_device_bulk d s = Some (r, s') ->
  (counters_inv s -> counters_inv s')
  /\ BlkMigState.transferred (System.block_mig_state s')
     = BlkMigState.transferred (System.block_mig_state s)
  /\ bitmaps_kept (BlkMigState.bmds_list (System.block_mig_state s))
                  (BlkMigState.bmds_list (System.block_mig_state s'))
  /\ (System.aio_requests s' = System.aio_requests s
      \/ exists b blk,
           BlkMigState.bmds_list (System.block_mig_state s) !! d = Some b
           /\ BlkMigBlock.bmds blk = d
           /\ System.aio_requests s' = System.aio_requests s ++ [(BlkMigDevState.bs b, blk)]).
Proof.
  intros H. unfold mig_save_device_bulk in H.
  apply bind_inv in H. destruct H as (b & s1 & H1 & H).
  apply get_bmds_inv in H1. destruct H1 as [Hb ->].
  apply bind_inv in H. destruct H as (cur & s1 & H1 & H).
  assert (s1 = s) as ->.
  { destruct (truthy _); [eapply skip_unallocated_pure, H1 | injection H1 as _ <-; reflexivity]. }
  clear H1. destruct (BlkMigDevState.total_sectors b <=? cur).
  - apply bind_inv in H. destruct H as ([] & s1 & H1 & H). injection H as <- <-.
    rewrite set_bmds_eq, Hb in H1. injection H1 as <-. cbn.
    split; [unfold counters_inv; cbn; tauto|]. split; [reflexivity|].
    split; [apply (bitmaps_kept_insert _ _ b); [exact Hb | reflexivity] | left; reflexivity].
  - unfold bdrv_aio_readv, bdrv_reset_dirty, qemu_get_clock_ns in H. munfold.
    rewrite Hb in H. cbn in H.
    destruct (BlkMigState.submitted (System.block_mig_state s) =? 0); cbn in H;
      (destruct (System.bdrv_states s !! BlkMigDevState.bs b) as [drv|]; [|discriminate]);
      cbn in H;
      rewrite list_lookup_insert_eq in H by (eapply lookup_lt_Some; eassumption);
      cbn in H;
      rewrite list_lookup_insert_eq in H
        by (rewrite length_insert; eapply lookup_lt_Some; eassumption);
      injection H as <- <-; cbn.
    all: split; [unfold counters_inv; cbn; rewrite length_app; cbn; lia|].
    all: split; [reflexivity|].
    all: split; [|right; eexists _, _; split; [exact Hb|]; split; [|reflexivity]; reflexivity].
    all: rewrite list_insert_insert_eq.
    all: apply (bitmaps_kept_insert _ _ b); [exact Hb | reflexivity].
Qed.

(** On a device without a shared base that has sectors left, the bulk step
    returns and has submitted one read. *)
Lemma mig_save_device_bulk_submits (d : nat) (s : System.t) (b : BlkMigDevState.t) :
  well_formed s = true ->
  BlkMigState.bmds_list (System.block_mig_state s) !! d = Some b ->
  truthy (BlkMigDevState.shared_base b) = false ->
  BlkMigDevState.cur_sector b < BlkMigDevState.total_sectors b ->
  exists (r : Z) (s' : System.t) (blk : BlkMigBlock.t),
    mig_save_device_bulk d s = Some (r, s')
    /\ System.aio_requests s' = System.aio_requests s ++ [(BlkMigDevState.bs b, blk)]
    /\ BlkMigBlock.bmds blk = d.
Proof.
  intros Hwf Hb Hsh Hlt.
  pose proof (proj1 (well_formed_spec s) Hwf) as (W1 & _).
  destruct (lookup_lt_is_Some_2 _ _ (W1 d b Hb)) as [drv Hdrv].
  pose proof (lookup_lt_Some _ _ _ Hb) as Hd.
  unfold mig_save_device_bulk.
  rewrite (bind_some _ _ _ _ _ (get_bmds_ok _ _ _ Hb)). rewrite Hsh.
  rewrite bind_some with (a := BlkMigDevState.cur_sector b) (s' := s) by reflexivity.
  destruct (Z.leb_spec (BlkMigDevState.total_sectors b) (BlkMigDevState.cur_sector b));
    [lia|].
  unfold bdrv_aio_readv, bdrv_reset_dirty, qemu_get_clock_ns. munfold.
  rewrite Hb. cbn.
  destruct (BlkMigState.submitted (System.block_mig_state s) =? 0); cbn;
    rewrite Hdrv; cbn;
    rewrite list_lookup_insert_eq by exact Hd; cbn;
    rewrite list_lookup_insert_eq by (rewrite length_insert; exact Hd);
    eexists _, _, _; (split; [reflexivity|]); cbn; split; reflexivity.
Qed.

End Bulk.

Section Inflight.
Context {P : Platform}.

Lemma same_drive_getlength (b b' : BlockDriverState.t) :
  same_drive b b' -> BlockDriverState.getlength b' = BlockDriverState.getlength b.
Proof.
  unfold same_drive. destruct b, b'. cbn. intros [= -> -> -> -> -> -> -> ->]. reflexivity.
Qed.

Lemma chunk_sectors_pos (total sector : Z) :
  0 < BDRV_SECTORS_PER_DIRTY_CHUNK < 2 ^ 31 ->
  sector < total ->
  1 <= chunk_sectors total sector <= BDRV_SECTORS_PER_DIRTY_CHUNK.
Proof.
  intros Hc Hlt. unfold chunk_sectors.
  destruct (Z.ltb_spec (total - sector) BDRV_SECTORS_PER_DIRTY_CHUNK); [|lia].
  rewrite to_int_small by lia. lia.
Qed.

(** C4, as amended: an asynchronous read submitted by the dirty phase has
    the in-flight bit of its chunk set when it is submitted, and the
    completion callback of a read clears the bit of its chunk; a read
    submitted by the bulk phase leaves every in-flight bitmap as it is, so
    its chunk is not marked while it is in flight.  The three functions
    return on a machine whose pointers designate objects (the bulk step on
    a device without a shared base). *)
Theorem inflight_bit_dirty_phase :
  0 < BDRV_SECTORS_PER_DIRTY_CHUNK < 2 ^ 31 ->
  0 <= BDRV_SECTOR_BITS ->
  (* the dirty phase sets the bit at submission *)
  (forall (d : nat) (is_async : Z) (s : System.t) (b : BlkMigDevState.t)
          (drv : BlockDriverState.t),
      well_formed s = true ->
      BlkMigState.bmds_list (System.block_mig_state s) !! d = Some b ->
      System.bdrv_states s !! BlkMigDevState.bs b = Some drv ->
      0 <= BlkMigDevState.cur_dirty b ->
      BlkMigDevState.total_sectors b
      = Z.shiftr (BlockDriverState.getlength drv) BDRV_SECTOR_BITS ->
      BlkMigDevState.total_sectors b
      <= BITS_PER_LONG * BDRV_SECTORS_PER_DIRTY_CHUNK
         * Z.of_nat (length (BlkMigDevState.aio_bitmap b)) ->
      truthy is_async = true ->
      exists (r : Z) (s' : System.t),
        mig_save_device_dirty d is_async s = Some (r, s')
        /\ (r = 0 ->
            exists reqs blk,
              System.aio_requests s' = reqs ++ [(BlkMigDevState.bs b, blk)]
              /\ BlkMigBlock.bmds blk = d
              /\ bmds_aio_inflight d (BlkMigBlock.sector blk) s' = Some (1, s')))
  (* the completion callback clears it *)
  /\ (forall (blk : BlkMigBlock.t) (r : Z) (s : System.t) (b : BlkMigDevState.t)
             (drv : BlockDriverState.t),
         BlkMigState.bmds_list (System.block_mig_state s) !! BlkMigBlock.bmds blk = Some b ->
         System.bdrv_states s !! BlkMigDevState.bs b = Some drv ->
         1 <= BlkMigBlock.nr_sectors blk ->
         1 <= BlkMigState.submitted (System.block_mig_state s) ->
         exists s' : System.t,
           blk_mig_read_cb blk r s = Some (tt, s')
           /\ bmds_aio_inflight (BlkMigBlock.bmds blk) (BlkMigBlock.sector blk) s'
              = Some (0, s'))
  (* the bulk phase does not touch the bitmaps *)
  /\ (forall (d : nat) (s s' : System.t) (r : Z),
         mig_save_device_bulk d s = Some (r, s') ->
         bitmaps_kept (BlkMigState.bmds_list (System.block_mig_state s))
                      (BlkMigState.bmds_list (System.block_mig_state s')))
  /\ (forall (d : nat) (s : System.t) (b : BlkMigDevState.t),
         well_formed s = true ->
         BlkMigState.bmds_list (System.block_mig_state s) !! d = Some b ->
         truthy (BlkMigDevState.shared_base b) = false ->
         BlkMigDevState.cur_sector b < BlkMigDevState.total_sectors b ->
         exists (r : Z) (s' : System.t) (blk : BlkMigBlock.t),
           mig_save_device_bulk d s = Some (r, s')
           /\ System.aio_requests s' = System.aio_requests s ++ [(BlkMigDevState.bs b, blk)]
           /\ BlkMigBlock.bmds blk = d
           /\ bitmaps_kept (BlkMigState.bmds_list (System.block_mig_state s))
                           (BlkMigState.bmds_list (System.block_mig_state s'))).
Proof.
  intros Hc Hbits. split; [|split; [|split]].
  - intros d a s b drv Hwf Hb Hdrv Hcur Htot Hfit Ha.
    destruct (mig_save_device_dirty_total d a s b (proj1 Hc) Hwf Hb) as (r & s' & H).
    exists r, s'. split; [exact H|]. intros ->.
    destruct (mig_save_device_dirty_post d a s s' 0 b (proj1 Hc) Hb H)
      as (b' & Hb' & Hsame & Hle & _ & _ & Hdrives & _ & _ & Hcases).
    destruct Hcases as [(? & _) | [(_ & Hlt & _ & Hasync & _) | (? & _)]]; try lia.
    destruct (Hasync Ha) as ((reqs & Hreqs) & Hbit).
    set (sector := BlkMigDevState.cur_dirty b') in *.
    pose proof (chunk_sectors_pos (BlkMigDevState.total_sectors b) sector Hc Hlt) as Hnr.
    destruct (same_dev_fields _ _ Hsame) as (Fbs & _).
    destruct (Hdrives _ _ Hdrv) as (drv' & Hdrv' & Hsd).
    apply same_drive_getlength in Hsd.
    eexists reqs, _. split; [exact Hreqs|]. split; [reflexivity|]. cbn [BlkMigBlock.sector].
    rewrite bmds_aio_inflight_eq, Hb', Fbs, Hdrv', Hsd.
    assert (Hpow : 0 < 2 ^ BDRV_SECTOR_BITS) by (apply Z.pow_pos_nonneg; lia).
    assert (Hlen : Z.shiftl sector BDRV_SECTOR_BITS < BlockDriverState.getlength drv).
    { rewrite Z.shiftl_mul_pow2 by lia. rewrite Htot, Z.shiftr_div_pow2 in Hlt by lia.
      pose proof (Z.mul_div_le (BlockDriverState.getlength drv) (2 ^ BDRV_SECTOR_BITS) Hpow).
      nia. }
    destruct (Z.ltb_spec (Z.shiftl sector BDRV_SECTOR_BITS) (BlockDriverState.getlength drv));
      [|lia].
    rewrite Hbit; [reflexivity | lia |].
    assert (Hq : 0 <= sector ÷ BDRV_SECTORS_PER_DIRTY_CHUNK) by (apply Z.quot_pos; lia).
    unfold to_ulong, BITS_PER_LONG in *.
    assert ((sector ÷ BDRV_SECTORS_PER_DIRTY_CHUNK) `mod` 2 ^ 64
            <= sector ÷ BDRV_SECTORS_PER_DIRTY_CHUNK) by (apply Z.mod_le; lia).
    apply Z.div_lt_upper_bound; [lia|].
    rewrite Z.quot_div_nonneg in * by lia.
    assert (sector `div` BDRV_SECTORS_PER_DIRTY_CHUNK
            < 64 * Z.of_nat (length (BlkMigDevState.aio_bitmap b)));
      [apply Z.div_lt_upper_bound; lia | lia].
  - intros blk r s b drv Hb Hdrv Hnr Hsub.
    rewrite blk_mig_read_cb_eq, Hb.
    destruct (Z.leb_spec 0 (BlkMigState.submitted (System.block_mig_state s) - 1)); [|lia].
    eexists. split; [reflexivity|].
    rewrite bmds_aio_inflight_eq. unfold after_read_cb. cbn.
    rewrite list_lookup_insert_eq by (eapply lookup_lt_Some; eassumption). cbn.
    rewrite Hdrv.
    rewrite set_aio_loop_clears.
    + destruct (_ <? _); reflexivity.
    + assert (BlkMigBlock.sector blk ÷ BDRV_SECTORS_PER_DIRTY_CHUNK
              <= (BlkMigBlock.sector blk + BlkMigBlock.nr_sectors blk - 1)
                   ÷ BDRV_SECTORS_PER_DIRTY_CHUNK)
        by (apply Z.quot_le_mono; lia).
      lia.
  - intros d s s' r H. apply mig_save_device_bulk_post in H. tauto.
  - intros d s b Hwf Hb Hsh Hlt.
    destruct (mig_save_device_bulk_submits d s b Hwf Hb Hsh Hlt) as (r & s' & blk & H & Hq & Hd).
    exists r, s', blk. split; [exact H|]. split; [exact Hq|]. split; [exact Hd|].
    apply mig_save_device_bulk_post in H. tauto.
Qed.

End Inflight.

(** ** Counter invariants *)

Section Counters.
Context {P : Platform}.

Lemma counters_inv_pipeline (s s' : System.t) :
  pipeline s' = pipeline s -> counters_inv s -> counters_inv s'.
Proof.
  unfold pipeline, counters_inv. intros [= -> -> -> -> _]. tauto.
Qed.

Lemma pipeline_transferred (s s' : System.t) :
  pipeline s' = pipeline s ->
  BlkMigState.transferred (System.block_mig_state s')
  = BlkMigState.transferred (System.block_mig_state s).
Proof. unfold pipeline. intros [= _ _ _ _ ->]. reflexivity. Qed.

Lemma foldr_pipeline {A : Type} (f : A -> M unit) (l : list A) (s s' : System.t) :
  (forall x s1 s2, f x s1 = Some (tt, s2) -> pipeline s2 = pipeline s1) ->
  foldr (fun x k => f x ;;; k) (ret tt) l s = Some (tt, s') ->
  pipeline s' = pipeline s.
Proof.
  intros Hf. revert s. induction l as [|x l IH]; intros s H; cbn [foldr] in H.
  - injection H as <-. reflexivity.
  - apply bind_inv in H. destruct H as ([] & s1 & H1 & H).
    rewrite (IH _ H). eapply Hf, H1.
Qed.

Lemma set_bs_pipeline (i : nat) (f : BlockDriverState.t -> BlockDriverState.t)
      (s s' : System.t) :
  set_bs i f s = Some (tt, s') -> pipeline s' = pipeline s.
Proof.
  munfold. destruct (System.bdrv_states s !! i); [|discriminate].
  intros [= <-]. reflexivity.
Qed.

Lemma set_dirty_tracking_pipeline (enable : Z) (s s' : System.t) :
  set_dirty_tracking enable s = Some (tt, s') -> pipeline s' = pipeline s.
Proof.
  unfold set_dirty_tracking. intros H. apply bind_inv in H.
  destruct H as (st & s1 & H1 & H). injection H1 as _ <-.
  eapply (foldr_pipeline (fun b => bdrv_set_dirty_tracking (BlkMigDevState.bs b) enable));
    [|exact H].
  intros x s1 s2. apply set_bs_pipeline.
Qed.

Lemma init_blk_migration_it_pipeline (bs : nat) (s s' : System.t) :
  init_blk_migration_it bs s = Some (tt, s') -> pipeline s' = pipeline s.
Proof.
  unfold init_blk_migration_it, bdrv_is_read_only, bdrv_getlength, drive_get_ref,
    bdrv_set_in_use. munfold.
  destruct (System.bdrv_states s !! bs) as [b|] eqn:Eb; [|discriminate]. cbn.
  destruct (BlockDriverState.read_only b); cbn; [intros [= <-]; reflexivity|].
  rewrite Eb. cbn. destruct (_ <=? 0); [intros [= <-]; reflexivity|].
  cbn. rewrite Eb. cbn.
  rewrite list_lookup_insert_eq by (eapply lookup_lt_Some; eassumption). cbn.
  intros [= <-]. reflexivity.
Qed.

Lemma init_blk_migration_post (s s' : System.t) :
  init_blk_migration s = Some (tt, s') ->
  BlkMigState.blk_list (System.block_mig_state s')
  = BlkMigState.blk_list (System.block_mig_state s)
  /\ System.aio_requests s' = System.aio_requests s
  /\ BlkMigState.submitted (System.block_mig_state s') = 0
  /\ BlkMigState.read_done (System.block_mig_state s') = 0
  /\ BlkMigState.transferred (System.block_mig_state s') = 0.
Proof.
  unfold init_blk_migration. intros H.
  do 9 (apply bind_inv in H; destruct H as ([] & ? & [= <-] & H)).
  unfold bdrv_iterate in H. apply bind_inv in H. destruct H as (s1 & ? & [= <- <-] & H).
  apply (foldr_pipeline init_blk_migration_it) in H;
    [|intros x ? ?; apply init_blk_migration_it_pipeline].
  unfold pipeline in H. cbn in H. injection H as -> -> -> -> ->. tauto.
Qed.

Lemma flush_loop_counters (fuel : nat) (s s' : System.t) (r : Z) :
  counters_inv s ->
  flush_loop fuel s = Some (r, s') ->
  counters_inv s' /\ transferred_le s s'.
Proof.
  revert s. induction fuel as [|fuel IH]; intros s Hinv H; [discriminate|].
  cbn [flush_loop] in H. munfold.
  destruct (BlkMigState.blk_list (System.block_mig_state s)) as [|blk rest] eqn:Eq.
  { injection H as _ <-. split; [exact Hinv | unfold transferred_le; lia]. }
  destruct (qemu_file_rate_limit _).
  { injection H as _ <-. split; [exact Hinv | unfold transferred_le; lia]. }
  destruct (_ <? 0).
  { injection H as _ <-. split; [exact Hinv | unfold transferred_le; lia]. }
  destruct (blk_send blk s) as [[[] s1]|] eqn:Es; [|discriminate].
  apply blk_send_frame in Es. destruct Es as (C1 & C2 & C3 & C4).
  cbn in H. rewrite C1 in H.
  destruct (Z.leb_spec 0 (BlkMigState.read_done (System.block_mig_state s) - 1));
    [|discriminate].
  apply IH in H.
  - destruct H as [H1 H2]. split; [exact H1|]. unfold transferred_le in *. cbn in H2. lia.
  - destruct Hinv as (I1 & I2 & I3 & I4). unfold counters_inv. cbn.
    rewrite C3, Eq in *. cbn in I1. lia.
Qed.

Lemma set_bmds_pipeline (d : nat) (f : BlkMigDevState.t -> BlkMigDevState.t)
      (s s' : System.t) :
  set_bmds d f s = Some (tt, s') -> pipeline s' = pipeline s.
Proof.
  rewrite set_bmds_eq. destruct (_ !! d); [|discriminate]. intros [= <-]. reflexivity.
Qed.

Lemma bulked_foreach_counters (ds : list nat) (sum : Z) (s s' : System.t) (r : Z * Z) :
  counters_inv s ->
  bulked_foreach ds sum s = Some (r, s') ->
  counters_inv s' /\ transferred_le s s'.
Proof.
  revert sum s. induction ds as [|d ds IH]; intros sum s Hinv H; cbn [bulked_foreach] in H.
  { injection H as _ <-. split; [exact Hinv | unfold transferred_le; lia]. }
  apply bind_inv in H. destruct H as (b & s1 & H1 & H).
  apply get_bmds_inv in H1. destruct H1 as [Hb ->].
  destruct (_ =? 0); [|eapply IH; eassumption].
  apply bind_inv in H. destruct H as (rb & s1 & H1 & H).
  apply mig_save_device_bulk_post in H1. destruct H1 as (A1 & A2 & _).
  apply bind_inv in H. destruct H as ([] & s2 & H2 & H).
  assert (Hp : pipeline s2 = pipeline s1).
  { unfold when in H2. destruct (_ =? 1); [eapply set_bmds_pipeline, H2|].
    injection H2 as <-. reflexivity. }
  apply bind_inv in H. destruct H as (b' & s3 & H3 & H).
  apply get_bmds_inv in H3. destruct H3 as [_ ->]. injection H as _ <-.
  split; [eapply counters_inv_pipeline; [exact Hp | auto]|].
  unfold transferred_le. rewrite (pipeline_transferred _ _ Hp). lia.
Qed.

Lemma blk_mig_save_bulked_block_counters (s s' : System.t) (r : Z) :
  counters_inv s ->
  blk_mig_save_bulked_block s = Some (r, s') ->
  counters_inv s' /\ transferred_le s s'.
Proof.
  intros Hinv H. unfold blk_mig_save_bulked_block in H.
  apply bind_inv in H. destruct H as (st & s1 & [= <- <-] & H).
  apply bind_inv in H. destruct H as (rs & s1 & H1 & H).
  apply bulked_foreach_counters in H1; [|exact Hinv]. destruct H1 as [I1 T1].
  apply bind_inv in H. destruct H as (st & s2 & [= <- <-] & H).
  apply bind_inv in H. destruct H as ([] & s3 & H3 & H). injection H as _ <-.
  assert (Hp : pipeline s3 = pipeline s1).
  { unfold when in H3. destruct (negb _); [|injection H3 as <-; reflexivity].
    munfold. injection H3 as <-. reflexivity. }
  split; [eapply counters_inv_pipeline; eassumption|].
  unfold transferred_le in *. rewrite (pipeline_transferred _ _ Hp). exact T1.
Qed.

Lemma mig_save_device_dirty_counters (d : nat) (a : Z) (s s' : System.t) (r : Z) :
  0 < BDRV_SECTORS_PER_DIRTY_CHUNK ->
  counters_inv s ->
  mig_save_device_dirty d a s = Some (r, s') ->
  counters_inv s' /\ transferred_le s s'.
Proof.
  intros Hc Hinv H.
  assert (Hb : exists b, BlkMigState.bmds_list (System.block_mig_state s) !! d = Some b).
  { unfold mig_save_device_dirty in H. apply bind_inv in H.
    destruct H as (b & s1 & H1 & _). apply get_bmds_inv in H1. destruct H1. eauto. }
  destruct Hb as (b & Hb).
  destruct (mig_save_device_dirty_post d a s s' r b Hc Hb H)
    as (b' & _ & _ & _ & _ & _ & _ & Hi & Ht & _).
  split; [auto | unfold transferred_le; lia].
Qed.

Lemma dirty_foreach_counters (ds : list nat) (a r0 : Z) (s s' : System.t) (r : Z) :
  0 < BDRV_SECTORS_PER_DIRTY_CHUNK ->
  counters_inv s ->
  dirty_foreach ds a r0 s = Some (r, s') ->
  counters_inv s' /\ transferred_le s s'.
Proof.
  intros Hc. revert r0 s. induction ds as [|d ds IH]; intros r0 s Hinv H;
    cbn [dirty_foreach] in H.
  { injection H as _ <-. split; [exact Hinv | unfold transferred_le; lia]. }
  apply bind_inv in H. destruct H as (rd & s1 & H1 & H).
  apply mig_save_device_dirty_counters in H1; [|assumption..]. destruct H1 as [I1 T1].
  destruct (rd <=? 0).
  - injection H as _ <-. auto.
  - apply IH in H; [|exact I1]. destruct H as [I2 T2].
    split; [exact I2 | unfold transferred_le in *; lia].
Qed.

Lemma aio_complete_nth_counters (i : nat) (s s' : System.t) :
  counters_inv s ->
  aio_complete_nth i s = Some (tt, s') ->
  counters_inv s' /\ transferred_le s s'.
Proof.
  intros (I1 & I2 & I3 & I4) H. unfold aio_complete_nth in H.
  apply bind_inv in H. destruct H as (sg & ? & [= <- <-] & H).
  destruct (System.aio_requests s !! i) as [[j blk]|] eqn:Ei; [|discriminate].
  pose proof (lookup_lt_Some _ _ _ Ei) as Hlt.
  apply bind_inv in H. destruct H as ([] & s1 & [= <-] & H).
  unfold aio_complete in H.
  apply bind_inv in H. destruct H as (rd & s2 & H2 & H).
  unfold bdrv_read in H2. apply bind_inv in H2. destruct H2 as (drv & s3 & H3 & [= <- <-]).
  unfold get_bs in H3. apply bind_inv in H3. destruct H3 as (sg & ? & [= <- <-] & H3).
  cbn in H3. destruct (System.bdrv_states s !! j); [|discriminate]. injection H3 as <- <-.
  apply blk_mig_read_cb_drained in H.
  destruct H as [(A1 & A2 & A3 & A4 & A5 & A6 & A7 & A8 & A9 & A10 & A11) _].
  cbn in *. unfold counters_inv, transferred_le. rewrite A4, A7, A8, A10.
  rewrite length_delete by eauto. lia.
Qed.

Lemma run_op_counters (o : engine_op) (s s' : System.t) :
  0 < BDRV_SECTORS_PER_DIRTY_CHUNK ->
  counters_inv s ->
  run_op o s = Some (tt, s') ->
  counters_inv s' /\ transferred_le s s'.
Proof.
  intros Hc Hinv H. destruct o; cbn [run_op] in H.
  - eapply aio_complete_nth_counters; eassumption.
  - apply bind_inv in H. destruct H as (r & s1 & H1 & [= <-]).
    unfold flush_blks in H1. apply bind_inv in H1. destruct H1 as (st & ? & [= <- <-] & H1).
    eapply flush_loop_counters; eassumption.
  - apply bind_inv in H. destruct H as (r & s1 & H1 & [= <-]).
    eapply blk_mig_save_bulked_block_counters; eassumption.
  - apply bind_inv in H. destruct H as (r & s1 & H1 & [= <-]).
    apply mig_save_device_bulk_post in H1. destruct H1 as (A1 & A2 & _).
    split; [auto | unfold transferred_le; lia].
  - apply bind_inv in H. destruct H as (r & s1 & H1 & [= <-]).
    unfold blk_mig_save_dirty_block in H1.
    apply bind_inv in H1. destruct H1 as (st & ? & [= <- <-] & H1).
    eapply dirty_foreach_counters; eassumption.
  - apply bind_inv in H. destruct H as (r & s1 & H1 & [= <-]).
    eapply mig_save_device_dirty_counters; eassumption.
Qed.

Lemma flush_blks_empty (s : System.t) :
  BlkMigState.blk_list (System.block_mig_state s) = [] -> flush_blks s = Some (0, s).
Proof.
  intros H. unfold flush_blks. munfold. rewrite H. cbn [length flush_loop]. munfold.
  rewrite H. reflexivity.
Qed.

Lemma block_save_setup_counters (s0 s1 : System.t) (r : Z) :
  BlkMigState.blk_list (System.block_mig_state s0) = [] ->
  System.aio_requests s0 = [] ->
  block_save_setup s0 = Some (r, s1) ->
  r = 0 /\ counters_inv s1
  /\ BlkMigState.transferred (System.block_mig_state s1) = 0.
Proof.
  intros Hq Ha H. unfold block_save_setup in H.
  apply bind_inv in H. destruct H as ([] & sa & H1 & H).
  apply init_blk_migration_post in H1. destruct H1 as (B1 & B2 & B3 & B4 & B5).
  apply bind_inv in H. destruct H as ([] & sb & H2 & H).
  apply set_dirty_tracking_pipeline in H2.
  unfold pipeline in H2. injection H2 as C1 C2 C3 C4 C5.
  apply bind_inv in H. destruct H as (rf & sc & H3 & H).
  rewrite flush_blks_empty in H3 by congruence.
  injection H3 as <- <-. cbn in H. injection H as <- <-.
  unfold counters_inv. cbn. rewrite C1, C2, C3, C4, C5, B1, B2, B3, B4, B5, Hq, Ha. cbn.
  repeat split; lia.
Qed.

Lemma observe_counters (ops : list engine_op) (s : System.t) (states : list System.t) :
  0 < BDRV_SECTORS_PER_DIRTY_CHUNK ->
  counters_inv s ->
  observe ops s = Some states ->
  Forall counters_inv states
  /\ StronglySorted transferred_le states
  /\ Forall (transferred_le s) states.
Proof.
  intros Hc. revert s states. induction ops as [|o ops IH]; intros s states Hinv H;
    cbn [observe] in H.
  - injection H as <-. split; [constructor; [exact Hinv | constructor]|].
    split; [repeat constructor|].
    constructor; [unfold transferred_le; lia | constructor].
  - destruct (run_op o s) as [[[] s1]|] eqn:Er; [|discriminate].
    destruct (observe ops s1) as [states1|] eqn:Eo; [|discriminate].
    injection H as <-.
    destruct (run_op_counters o s s1 Hc Hinv Er) as [I1 T1].
    destruct (IH s1 states1 I1 Eo) as (F & S & L).
    assert (L' : Forall (transferred_le s) states1).
    { eapply Forall_impl; [exact L|]. intros x Hx. unfold transferred_le in *. lia. }
    split; [constructor; assumption|]. split; [constructor; assumption|].
    constructor; [unfold transferred_le; lia | exact L'].
Qed.

End Counters.

(** ** Setup returns *)

Section Setup.
Context {P : Platform}.

Lemma init_blk_migration_it_total (bs : nat) (s : System.t) :
  (bs < length (System.bdrv_states s))%nat ->
  devs_valid s ->
  exists s',
    init_blk_migration_it bs s = Some (tt, s')
    /\ length (System.bdrv_states s') = length (System.bdrv_states s)
    /\ devs_valid s'.
Proof.
  intros Hlt Hv. apply lookup_lt_is_Some_2 in Hlt. destruct Hlt as [b Hb].
  unfold init_blk_migration_it, bdrv_is_read_only, bdrv_getlength, drive_get_ref,
    bdrv_set_in_use. munfold. rewrite Hb. cbn.
  destruct (BlockDriverState.read_only b); cbn; [eauto|].
  rewrite Hb. cbn. destruct (_ <=? 0); [eauto|].
  cbn. rewrite Hb. cbn.
  rewrite list_lookup_insert_eq by (eapply lookup_lt_Some, Hb). cbn.
  eexists. split; [reflexivity|]. unfold devs_valid in *. cbn.
  rewrite !length_insert. split; [reflexivity|].
  apply Forall_app. split; [exact Hv|].
  constructor; [|constructor]. cbn. eapply lookup_lt_Some, Hb.
Qed.

Lemma init_foreach_total (l : list nat) (s : System.t) :
  Forall (fun i => (i < length (System.bdrv_states s))%nat) l ->
  devs_valid s ->
  exists s',
    foldr (fun i k => init_blk_migration_it i ;;; k) (ret tt) l s = Some (tt, s')
    /\ devs_valid s'.
Proof.
  revert s. induction l as [|i l IH]; intros s Hl Hv; cbn [foldr].
  - eauto.
  - inversion Hl as [|? ? Hi Hl']; subst.
    destruct (init_blk_migration_it_total i s Hi Hv) as (s1 & H1 & L1 & V1).
    rewrite (bind_some _ _ _ _ _ H1). apply IH; [|exact V1].
    rewrite L1. exact Hl'.
Qed.

Lemma set_dirty_foreach_total (enable : Z) (l : list BlkMigDevState.t) (s : System.t) :
  Forall (fun b => (BlkMigDevState.bs b < length (System.bdrv_states s))%nat) l ->
  exists s',
    foldr (fun b k => bdrv_set_dirty_tracking (BlkMigDevState.bs b) enable ;;; k)
          (ret tt) l s = Some (tt, s').
Proof.
  revert s. induction l as [|b l IH]; intros s Hl; cbn [foldr]; [eauto|].
  inversion Hl as [|? ? Hb Hl']; subst.
  apply lookup_lt_is_Some_2 in Hb. destruct Hb as [drv Hdrv].
  erewrite bind_some;
    [|unfold bdrv_set_dirty_tracking, set_bs; erewrite bind_some;
      [reflexivity | unfold get_bs, bind, get, ret; rewrite Hdrv; reflexivity]].
  apply IH. cbn. rewrite length_insert. exact Hl'.
Qed.

Lemma set_dirty_tracking_total (enable : Z) (s : System.t) :
  devs_valid s -> exists s', set_dirty_tracking enable s = Some (tt, s').
Proof.
  unfold set_dirty_tracking, devs_valid. intros Hv.
  rewrite bind_some with (a := System.block_mig_state s) (s' := s) by reflexivity.
  apply set_dirty_foreach_total, Hv.
Qed.

Lemma block_save_setup_total (s0 : System.t) :
  BlkMigState.bmds_list (System.block_mig_state s0) = [] ->
  BlkMigState.blk_list (System.block_mig_state s0) = [] ->
  exists s1, block_save_setup s0 = Some (0, s1).
Proof.
  intros Hd Hq. unfold block_save_setup.
  assert (Hinit : exists sa, init_blk_migration s0 = Some (tt, sa) /\ devs_valid sa).
  { unfold init_blk_migration.
    do 9 (erewrite bind_some; [|reflexivity]).
    unfold bdrv_iterate. erewrite bind_some; [|reflexivity].
    apply init_foreach_total.
    - apply Forall_forall. intros i Hi. apply list_elem_of_In, in_seq in Hi. cbn in Hi |- *. lia.
    - unfold devs_valid. cbn. rewrite Hd. constructor. }
  destruct Hinit as (sa & Ha & Va). rewrite (bind_some _ _ _ _ _ Ha).
  destruct (set_dirty_tracking_total 1 sa Va) as (sb & Hb).
  rewrite (bind_some _ _ _ _ _ Hb).
  apply init_blk_migration_post in Ha. destruct Ha as (B1 & _).
  apply set_dirty_tracking_pipeline in Hb. unfold pipeline in Hb. injection Hb as C1 _ _ _ _.
  rewrite (bind_some _ _ _ _ _ (flush_blks_empty sb ltac:(congruence))).
  cbn. eexists. reflexivity.
Qed.

End Setup.

(** ** The counters along a session *)

Section CounterInvariants.
Context {P : Platform}.

(** C8: [block_save_setup] on an idle engine (no device state, no block
    queued, no read outstanding, as [blk_mig_init] and [blk_mig_cleanup]
    leave it) returns 0, and in the session it starts, at every observation
    point after setup and after each completion callback, flush, bulk step
    or dirty step, the length of the pending queue equals [read_done],
    [read_done] and [submitted] are not negative ([submitted] is the number
    of reads outstanding), and [transferred] never decreases from one
    observation point to a later one. *)
Theorem counter_invariants (s0 : System.t) :
  0 < BDRV_SECTORS_PER_DIRTY_CHUNK ->
  BlkMigState.bmds_list (System.block_mig_state s0) = [] ->
  BlkMigState.blk_list (System.block_mig_state s0) = [] ->
  System.aio_requests s0 = [] ->
  exists s1 : System.t,
    block_save_setup s0 = Some (0, s1)
    /\ forall (ops : list engine_op) (states : list System.t),
         observe ops s1 = Some states ->
         Forall (fun s =>
                   let st := System.block_mig_state s in
                   Z.of_nat (length (BlkMigState.blk_list st)) = BlkMigState.read_done st
                   /\ 0 <= BlkMigState.read_done st
                   /\ 0 <= BlkMigState.submitted st
                   /\ Z.of_nat (length (System.aio_requests s)) = BlkMigState.submitted st)
                states
         /\ StronglySorted
              (fun s s' => BlkMigState.transferred (System.block_mig_state s)
                           <= BlkMigState.transferred (System.block_mig_state s'))
              states
         /\ head states = Some s1.
Proof.
  intros Hc Hd Hq Ha.
  destruct (block_save_setup_total s0 Hd Hq) as (s1 & Hsetup).
  exists s1. split; [exact Hsetup|]. intros ops states Hobs.
  destruct (block_save_setup_counters s0 s1 0 Hq Ha Hsetup) as (_ & Hinv & _).
  destruct (observe_counters ops s1 states Hc Hinv Hobs) as (F & S & _).
  split; [|split].
  - eapply Forall_impl; [exact F|]. intros s (I1 & I2 & I3 & I4). cbn zeta. tauto.
  - exact S.
  - destruct ops; cbn [observe] in Hobs.
    + injection Hobs as <-. reflexivity.
    + destruct (run_op e s1) as [[[] ?]|]; [|discriminate].
      destruct (observe ops _); [|discriminate]. injection Hobs as <-. reflexivity.
Qed.

End CounterInvariants.

(** ** Parameters *)

(** C9: after [block_set_params] with [shared] or [sparse] true, block
    migration is enabled and [block_is_active] returns true, whatever the
    value of [blk]. *)
Theorem set_params_shared_or_sparse_active (params : MigrationParams.t) (s : System.t) :
  MigrationParams.shared params = true \/ MigrationParams.sparse params = true ->
  exists s',
    block_set_params params s = Some (tt, s')
    /\ BlkMigState.blk_enable (System.block_mig_state s') = 1
    /\ block_is_active s' = Some (true, s').
Proof.
  intros H. eexists. split; [reflexivity|].
  destruct params as [b sh sp]; simpl in H.
  unfold block_is_active; munfold; simpl.
  assert (E : Z.lor (Z.lor (Z.b2z b) (Z.b2z sh)) (Z.b2z sp) = 1)
    by (destruct b, sh, sp; destruct H; try discriminate; reflexivity).
  rewrite E. auto.
Qed.

(** * Concrete runs *)

(** ** The iterate hook on a session with nothing dirty *)

(** C3: a session with one clean writable device of 1 MiB, right after
    [block_save_setup], with 32 MiB of rate limit.  [block_save_iterate]
    submits the only chunk, finds the bulk phase finished, and then the
    dirty scan reports that no dirty chunk is left (value 1).  The hook
    takes that value for a failure: it runs [blk_mig_cleanup] (the device
    list is emptied) and returns 1, and the only thing it has put on the
    stream is the progress frame of the bulk step; the pending queue is not
    flushed to the stream and no EOS marker is emitted. *)
Theorem block_save_iterate_no_dirty_chunk (fuel : nat) :
  let s1 := Example.clean_1m_started in
  let call := block_save_iterate (P := Example.qemu) (S (S (S fuel))) in
  Example.outcome (block_save_setup (P := Example.qemu)) Example.clean_1m = Some 0
  /\ System.out_file s1 = map Put (be_bytes 8 BLK_MIG_FLAG_EOS)
  /\ Example.outcome call s1 = Some 1
  /\ System.out_file (Example.exec call s1)
     = System.out_file s1 ++ map Put (be_bytes 8 BLK_MIG_FLAG_PROGRESS)
  /\ BlkMigState.bmds_list (System.block_mig_state (Example.exec call s1)) = []
  /\ BlkMigState.transferred (System.block_mig_state (Example.exec call s1)) = 0.
Proof.
  cbv zeta.
  split; [vm_compute; reflexivity|]. split; [vm_compute; reflexivity|].
  split; [vm_compute; reflexivity|]. split; [vm_compute; reflexivity|].
  split; vm_compute; reflexivity.
Qed.

(** ** The dirty cursor after a copied chunk *)



(** ** The in-flight bit of a bulk read *)

(** C4, counterexample: right after setup on the small platform the bulk
    step submits the asynchronous read of the chunk at sector 0; while that
    read is outstanding the in-flight bit of the chunk is not set. *)
Lemma bulk_read_leaves_inflight_bit_clear :
  exists (s' : System.t),
    mig_save_device_bulk (P := Example.tiny) 0 Example.tiny_started = Some (0, s')
    /\ System.aio_requests s' = [(0%nat, BlkMigBlock.mk [] 0 0 2 0)]
    /\ bmds_aio_inflight (P := Example.tiny) 0 0 s' = Some (0, s').
Proof.
  eexists. split; [vm_compute; reflexivity|].
  split; [reflexivity|]. vm_compute. reflexivity.
Qed.

Lemma inflight_bit_dirty_phase_witness :
  exists r s',
    mig_save_device_dirty (P := Example.qemu) 0 1 Example.dirty_2m = Some (r, s')
    /\ (r = 0 ->
        exists reqs blk,
          System.aio_requests s' = reqs ++ [(0%nat, blk)]
          /\ BlkMigBlock.bmds blk = 0%nat
          /\ bmds_aio_inflight (P := Example.qemu) 0 (BlkMigBlock.sector blk) s'
             = Some (1, s')).
Proof.
  assert (0 < BDRV_SECTORS_PER_DIRTY_CHUNK (Platform := Example.qemu) < 2 ^ 31) as Hc
    by (vm_compute; split; reflexivity).
  assert (0 <= BDRV_SECTOR_BITS (Platform := Example.qemu)) as Hb
    by (vm_compute; discriminate).
  destruct (inflight_bit_dirty_phase (P := Example.qemu) Hc Hb) as (Hdirty & _ & _ & _).
  apply (Hdirty 0%nat 1 Example.dirty_2m
           (BlkMigDevState.mk 0 1 0 0 4096 0 4096 4096 0 [0])
           (Example.drive 2097152 (Some [true; false]) [])).
  - reflexivity.
  - reflexivity.
  - reflexivity.
  - vm_compute. discriminate.
  - reflexivity.
  - vm_compute. discriminate.
  - reflexivity.
Defined.

(** ** Frames *)

Lemma blk_send_elides_iff_witness :
  exists s',
    blk_send (P := Example.tiny) Example.tail_block Example.tiny_sender = Some (tt, s')
    /\ exists frame,
         System.out_file s' = System.out_file Example.tiny_sender ++ frame
         /\ (8 <= length (bytes_of frame))%nat.
Proof.
  destruct (blk_send_elides_iff (P := Example.tiny) Example.tail_block Example.tiny_sender
              (BlkMigDevState.mk 0 1 0 0 3 0 3 3 0 [0])
              (Example.drive 48 (Some [false; false]) (replicate 32 7)))
    as (s' & Hs & _ & Hframe).
  - reflexivity.
  - reflexivity.
  - reflexivity.
  - exists 2. reflexivity.
  - exists s'. split; [exact Hs|]. apply Hframe.
    intros [Hz _]. apply Forall_inv in Hz. discriminate Hz.
Defined.

Lemma blk_send_frame_layout_witness :
  exists s' header name,
    blk_send (P := Example.tiny) Example.tail_block Example.tiny_sender = Some (tt, s')
    /\ name = c_str Example.vda
    /\ System.out_file s'
       = System.out_file Example.tiny_sender
           ++ map Put (be_bytes 8 (header mod 2 ^ 64))
           ++ [Put (Z.of_nat (length name))]
           ++ map Put name
           ++ map Put (BlkMigBlock.buf Example.tail_block).
Proof.
  destruct (blk_send_frame_layout (P := Example.tiny) Example.tail_block Example.tiny_sender
              (BlkMigDevState.mk 0 1 0 0 3 0 3 3 0 [0])
              (Example.drive 48 (Some [false; false]) (replicate 32 7)))
    as (s' & zero & header & name & Hs & Hz & _ & _ & Hname & _ & _ & Hout).
  - reflexivity.
  - reflexivity.
  - reflexivity.
  - exists 2. reflexivity.
  - vm_compute. discriminate.
  - reflexivity.
  - intros [Hz _]. apply Forall_inv in Hz. discriminate Hz.
  - exists s', header, name. split; [exact Hs|]. split; [exact Hname|].
    destruct zero; [|exact Hout].
    exfalso. destruct Hz as [Hz _]. specialize (Hz eq_refl).
    apply Forall_inv in Hz. discriminate Hz.
Defined.

Lemma flush_blks_error_at_head_witness :
  flush_blks (P := Example.qemu) Example.failed_head = Some (- EIO, Example.failed_head).
Proof.
  apply (flush_blks_error_at_head (P := Example.qemu) Example.failed_head
           (BlkMigBlock.mk [] 0 0 2048 (- EIO)) []).
  - reflexivity.
  - reflexivity.
Defined.

(** C10, counterexample: the block at the head of the queue carries -EIO,
    but the transport is over its rate limit; [flush_blks] returns 0, not
    the error code. *)
Lemma flush_blks_rate_limited_hides_error :
  (BlkMigBlock.ret <$> head (BlkMigState.blk_list (System.block_mig_state Example.failed_head)))
  = Some (- EIO)
  /\ - EIO < 0
  /\ flush_blks (P := Example.qemu_limited) Example.failed_head
     = Some (0, Example.failed_head).
Proof.
  split; [reflexivity|]. split; [reflexivity|]. vm_compute. reflexivity.
Qed.

(** ** A frame sent and received *)

Lemma frame_round_trip_witness :
  exists step receiver' w,
    block_load_body (P := Example.tiny) Example.tiny_locals Example.tiny_receiver
    = Some (step, receiver')
    /\ System.bdrv_writes receiver' = [w]
    /\ WriteCall.dev w = 0%nat
    /\ WriteCall.sector w = 2
    /\ WriteCall.nr_sectors w = 1
    /\ WriteCall.data w = replicate 16 7
    /\ InFile.pending (System.in_file receiver') = be_bytes 8 BLK_MIG_FLAG_EOS.
Proof.
  destruct (frame_round_trip (P := Example.tiny)
              Example.tiny_sender Example.tiny_receiver Example.tiny_sent Example.tail_block
              (BlkMigDevState.mk 0 1 0 0 3 0 3 3 0 [0])
              (Example.drive 48 (Some [false; false]) (replicate 32 7))
              Example.tail_frame Example.tiny_locals (be_bytes 8 BLK_MIG_FLAG_EOS)
              0%nat (Example.drive 48 None []))
    as (step & receiver' & w & Hrun & Hw & Hdev & Hsec & Hnr & Hdata & _ & _ & Hrest).
  - exists 2. reflexivity.
  - vm_compute. discriminate.
  - reflexivity.
  - reflexivity.
  - reflexivity.
  - reflexivity.
  - reflexivity.
  - reflexivity.
  - split; [vm_compute; discriminate | reflexivity].
  - reflexivity.
  - vm_compute. reflexivity.
  - reflexivity.
  - vm_compute. discriminate.
  - reflexivity.
  - reflexivity.
  - reflexivity.
  - apply load_inv_initial; reflexivity.
  - reflexivity.
  - reflexivity.
  - exists step, receiver', w. split; [exact Hrun|]. split; [exact Hw|].
    split; [exact Hdev|]. split; [exact Hsec|]. split; [exact Hnr|].
    split; [rewrite Hdata, Hnr; reflexivity | exact Hrest].
Defined.

(** ** A session observed *)

Lemma counter_invariants_witness :
  block_save_setup (P := Example.tiny) Example.tiny_machine = Some (0, Example.tiny_started)
  /\ Forall (fun s =>
               let st := System.block_mig_state s in
               Z.of_nat (length (BlkMigState.blk_list st)) = BlkMigState.read_done st
               /\ 0 <= BlkMigState.read_done st
               /\ 0 <= BlkMigState.submitted st
               /\ Z.of_nat (length (System.aio_requests s)) = BlkMigState.submitted st)
            Example.tiny_states
  /\ StronglySorted
       (fun s s' => BlkMigState.transferred (System.block_mig_state s)
                    <= BlkMigState.transferred (System.block_mig_state s'))
       Example.tiny_states
  /\ head Example.tiny_states = Some Example.tiny_started.
Proof.
  destruct (counter_invariants (P := Example.tiny) Example.tiny_machine)
    as (s1 & Hsetup & Hall).
  - reflexivity.
  - reflexivity.
  - reflexivity.
  - reflexivity.
  - assert (Hrun : block_save_setup (P := Example.tiny) Example.tiny_machine
                   = Some (0, Example.tiny_started)) by (vm_compute; reflexivity).
    rewrite Hrun in Hsetup. injection Hsetup as <-.
    split; [exact Hrun|].
    apply (Hall Example.tiny_ops Example.tiny_states). vm_compute. reflexivity.
Defined.

(** ** Parameters *)

Lemma set_params_shared_or_sparse_active_witness :
  exists s',
    block_set_params (MigrationParams.mk false false true) (Example.machine [])
    = Some (tt, s')
    /\ BlkMigState.blk_enable (System.block_mig_state s') = 1
    /\ block_is_active s' = Some (true, s').
Proof.
  apply (set_params_shared_or_sparse_active
           (MigrationParams.mk false false true) (Example.machine [])).
  right. reflexivity.
Defined.

(** * Further properties of the file *)

(** ** Zero detection *)

Section ZeroDetection.
Context {P : Platform}.

(** X1: on a chunk buffer (BLOCK_SIZE bytes, a whole number of 16-byte
    vectors) [is_zero_blk] returns 1 when every byte is zero and 0 when
    some byte is not. *)
Theorem is_zero_blk_iff_all_zero (bufp : list Z) :
  Z.of_nat (length bufp) = BLOCK_SIZE ->
  (VECSIZE | BLOCK_SIZE) ->
  (is_zero_blk bufp = 1 <-> Forall (fun b => b = 0) bufp)
  /\ (is_zero_blk bufp = 0 <-> Exists (fun b => b <> 0) bufp).
Proof.
  intros Hlen Hdiv. rewrite (is_zero_blk_spec _ Hlen Hdiv).
  destruct (decide (Forall (fun b => b = 0) bufp)) as [Hz|Hz].
  - split; [tauto|]. split; [discriminate|].
    intros Hex. apply Exists_exists in Hex. destruct Hex as (x & Hin & Hx).
    rewrite Forall_forall in Hz. elim Hx. apply Hz. exact Hin.
  - split; [split; [discriminate | tauto]|]. split; [|reflexivity].
    intros _. apply not_Forall_Exists in Hz; [exact Hz|].
    intros x. destruct (decide (x = 0)); [left | right]; assumption.
Qed.

End ZeroDetection.

(** ** The in-flight bitmap as a set of chunks *)

Section BitmapSet.
Context {P : Platform}.

Lemma chunk_slot_inj (c c' : Z) :
  0 <= c < 2 ^ 64 -> 0 <= c' < 2 ^ 64 ->
  to_ulong c / BITS_PER_LONG = to_ulong c' / BITS_PER_LONG ->
  to_ulong c mod BITS_PER_LONG = to_ulong c' mod BITS_PER_LONG ->
  c = c'.
Proof.
  unfold to_ulong, BITS_PER_LONG. intros Hc Hc' Hq Hr.
  rewrite (Z.mod_small c (2 ^ 64)), (Z.mod_small c' (2 ^ 64)) in Hq, Hr by lia.
  rewrite (Z.div_mod c 64), (Z.div_mod c' 64) by lia. congruence.
Qed.

(** The bit of chunk [c] after the loop of [bmds_set_aio_inflight] has run
    over the [n] chunks from [start]. *)
Lemma set_aio_loop_bit (n : nat) (start set : Z) (bitmap : list Z) (c : Z) :
  0 <= start -> start + Z.of_nat n <= 2 ^ 64 -> 0 <= c < 2 ^ 64 ->
  (start + Z.of_nat n - 1) / BITS_PER_LONG < Z.of_nat (length bitmap) ->
  bit_at (set_aio_loop n start set bitmap) c
  = if (start <=? c) && (c <? start + Z.of_nat n) then truthy set else bit_at bitmap c.
Proof.
  revert start bitmap. induction n as [|n IH]; intros start bitmap Hs Hn Hc Hfit.
  - cbn [set_aio_loop]. destruct (Z.leb_spec start c), (Z.ltb_spec c (start + Z.of_nat 0));
      cbn [andb]; try reflexivity; lia.
  - cbn [set_aio_loop].
    replace (start + Z.of_nat (S n) - 1) with (start + 1 + Z.of_nat n - 1) in Hfit by lia.
    rewrite IH; [| lia | lia | exact Hc | rewrite length_insert; exact Hfit ].
    unfold bit_at at 1.
    pose proof (ulong_idx_nonneg start). pose proof (ulong_idx_nonneg c).
    pose proof (ulong_bit_range start) as Hbs. pose proof (ulong_bit_range c) as Hbc.
    rewrite word_at_insert by assumption.
    assert (Hidx : to_ulong start / BITS_PER_LONG < Z.of_nat (length bitmap)).
    { unfold to_ulong, BITS_PER_LONG in *. rewrite Z.mod_small by lia.
      eapply Z.le_lt_trans; [|exact Hfit]. apply Z.div_le_mono; lia. }
    destruct (Z.ltb_spec (to_ulong start / BITS_PER_LONG) (Z.of_nat (length bitmap))); [|lia].
    rewrite andb_true_r.
    destruct (Z.eqb_spec start c) as [->|Hne].
    + (* the chunk just handled *)
      rewrite Z.eqb_refl.
      destruct (Z.leb_spec (c + 1) c); [lia|]. cbn [andb].
      destruct (Z.leb_spec c c); [|lia].
      destruct (Z.ltb_spec c (c + Z.of_nat (S n))); [|lia]. cbn [andb].
      destruct (truthy set).
      * rewrite Z.lor_spec, Z.shiftl_1_l, Z.pow2_bits_true by lia. apply orb_true_r.
      * rewrite Z.land_spec. unfold to_ulong at 3. unfold BITS_PER_LONG in *.
        rewrite Z.mod_pow2_bits_low by lia.
        rewrite Z.lnot_spec, Z.shiftl_1_l, Z.pow2_bits_true by lia. apply andb_false_r.
    + (* another chunk *)
      assert (Hrange : (start + 1 <=? c) && (c <? start + 1 + Z.of_nat n)
                       = (start <=? c) && (c <? start + Z.of_nat (S n))).
      { destruct (Z.leb_spec (start + 1) c), (Z.leb_spec start c),
          (Z.ltb_spec c (start + 1 + Z.of_nat n)), (Z.ltb_spec c (start + Z.of_nat (S n)));
          cbn [andb]; try reflexivity; lia. }
      rewrite Hrange. clear Hrange.
      destruct ((start <=? c) && (c <? start + Z.of_nat (S n))); [reflexivity|].
      destruct (Z.eqb_spec (to_ulong start / BITS_PER_LONG) (to_ulong c / BITS_PER_LONG))
        as [Eq|]; [|reflexivity].
      assert (Hbit : to_ulong start mod BITS_PER_LONG <> to_ulong c mod BITS_PER_LONG).
      { intros Er. apply Hne. apply chunk_slot_inj; [lia | lia | exact Eq | exact Er]. }
      unfold bit_at. rewrite <- Eq.
      destruct (truthy set).
      * rewrite Z.lor_spec, Z.shiftl_1_l, Z.pow2_bits_false by lia. apply orb_false_r.
      * rewrite Z.land_spec. unfold to_ulong at 3. unfold BITS_PER_LONG in *.
        rewrite Z.mod_pow2_bits_low by lia.
        rewrite Z.lnot_spec, Z.shiftl_1_l, Z.pow2_bits_false by lia. apply andb_true_r.
Qed.

(** X2: [bmds_set_aio_inflight] over the sectors [sector_num, sector_num +
    nb_sectors) of a device makes [bmds_aio_inflight] answer [set] (as 0 or
    1) at every sector of the range, and leaves its answer at the sectors
    of every other chunk as it was. *)
Theorem bmds_set_aio_inflight_then_test (d : nat) (sector_num nb_sectors set : Z)
        (s : System.t) (b : BlkMigDevState.t) (drv : BlockDriverState.t) :
  0 < BDRV_SECTORS_PER_DIRTY_CHUNK ->
  0 <= BDRV_SECTOR_BITS ->
  BlkMigState.bmds_list (System.block_mig_state s) !! d = Some b ->
  System.bdrv_states s !! BlkMigDevState.bs b = Some drv ->
  0 <= sector_num -> 1 <= nb_sectors ->
  Z.shiftl (sector_num + nb_sectors) BDRV_SECTOR_BITS <= BlockDriverState.getlength drv ->
  BlockDriverState.getlength drv < 2 ^ 63 ->
  (sector_num + nb_sectors - 1) / BDRV_SECTORS_PER_DIRTY_CHUNK
  < BITS_PER_LONG * Z.of_nat (length (BlkMigDevState.aio_bitmap b)) ->
  exists s' : System.t,
    bmds_set_aio_inflight d sector_num nb_sectors set s = Some (tt, s')
    /\ (forall t, sector_num <= t < sector_num + nb_sectors ->
          bmds_aio_inflight d t s' = Some (Z.b2z (truthy set), s'))
    /\ (forall t, 0 <= t ->
          t / BDRV_SECTORS_PER_DIRTY_CHUNK < sector_num / BDRV_SECTORS_PER_DIRTY_CHUNK
          \/ (sector_num + nb_sectors - 1) / BDRV_SECTORS_PER_DIRTY_CHUNK
             < t / BDRV_SECTORS_PER_DIRTY_CHUNK ->
          fst <$> bmds_aio_inflight d t s' = fst <$> bmds_aio_inflight d t s).
Proof.
  intros Hc Hbits Hb Hdrv Hsec Hnb Hin Hlen Hfit.
  set (C := BDRV_SECTORS_PER_DIRTY_CHUNK) in *.
  set (start := sector_num ÷ C). set (end_ := (sector_num + nb_sectors - 1) ÷ C).
  assert (Hstart : start = sector_num / C) by (apply Z.quot_div_nonneg; lia).
  assert (Hend : end_ = (sector_num + nb_sectors - 1) / C) by (apply Z.quot_div_nonneg; lia).
  assert (Hse : 0 <= start <= end_).
  { rewrite Hstart, Hend. split; [apply Z.div_pos; lia | apply Z.div_le_mono; lia]. }
  assert (Hpow : 0 < 2 ^ BDRV_SECTOR_BITS) by (apply Z.pow_pos_nonneg; lia).
  assert (Hsmall : sector_num + nb_sectors < 2 ^ 63).
  { rewrite Z.shiftl_mul_pow2 in Hin by lia. nia. }
  assert (Hend63 : end_ < 2 ^ 63).
  { rewrite Hend. apply Z.div_lt_upper_bound; [lia|]. nia. }
  eexists. split.
  { unfold bmds_set_aio_inflight. rewrite set_bmds_eq, Hb. reflexivity. }
  fold C start end_.
  set (n := Z.to_nat (end_ - start + 1)).
  assert (Hbit : forall c, 0 <= c < 2 ^ 64 ->
            bit_at (set_aio_loop n start set (BlkMigDevState.aio_bitmap b)) c
            = if (start <=? c) && (c <=? end_) then truthy set
              else bit_at (BlkMigDevState.aio_bitmap b) c).
  { intros c Hcr. rewrite set_aio_loop_bit; [| lia | unfold n; lia | exact Hcr |].
    - unfold n. rewrite Z2Nat.id by lia.
      destruct (Z.leb_spec start c), (Z.ltb_spec c (start + (end_ - start + 1))),
        (Z.leb_spec c end_); cbn [andb]; try reflexivity; lia.
    - unfold n. rewrite Z2Nat.id by lia.
      replace (start + (end_ - start + 1) - 1) with end_ by lia.
      unfold BITS_PER_LONG in *. apply Z.div_lt_upper_bound; lia. }
  split.
  - intros t Ht. rewrite bmds_aio_inflight_eq. cbn.
    rewrite list_lookup_insert_eq by (eapply lookup_lt_Some, Hb). cbn. rewrite Hdrv.
    assert (Z.shiftl t BDRV_SECTOR_BITS < BlockDriverState.getlength drv).
    { rewrite Z.shiftl_mul_pow2 in * by lia. nia. }
    destruct (Z.ltb_spec (Z.shiftl t BDRV_SECTOR_BITS) (BlockDriverState.getlength drv)); [|lia].
    fold C. assert (Htq : t ÷ C = t / C) by (apply Z.quot_div_nonneg; lia).
    assert (start <= t / C <= end_).
    { rewrite Hstart, Hend. split; apply Z.div_le_mono; lia. }
    rewrite Hbit by lia. rewrite Htq.
    destruct (Z.leb_spec start (t / C)), (Z.leb_spec (t / C) end_); cbn [andb];
      try reflexivity; lia.
  - intros t Ht Hout. rewrite !bmds_aio_inflight_eq. cbn.
    rewrite list_lookup_insert_eq by (eapply lookup_lt_Some, Hb). cbn. rewrite Hb, Hdrv. cbn.
    destruct (Z.ltb_spec (Z.shiftl t BDRV_SECTOR_BITS) (BlockDriverState.getlength drv));
      [|reflexivity].
    fold C. assert (Htq : t ÷ C = t / C) by (apply Z.quot_div_nonneg; lia).
    assert (0 <= t / C) by (apply Z.div_pos; lia).
    assert (t / C < 2 ^ 64).
    { apply Z.div_lt_upper_bound; [lia|]. rewrite Z.shiftl_mul_pow2 in * by lia. nia. }
    rewrite Hbit by lia. rewrite Htq. fold C in Hout. rewrite <- Hstart, <- Hend in Hout.
    destruct (Z.leb_spec start (t / C)), (Z.leb_spec (t / C) end_); cbn [andb];
      try reflexivity; lia.
Qed.

End BitmapSet.
(** ** Registration of the devices *)

Section RegistrationLemmas.
Context {P : Platform}.

Lemma init_blk_migration_it_eq (i : nat) (s : System.t) (b : BlockDriverState.t) :
  System.bdrv_states s !! i = Some b ->
  init_blk_migration_it i s =
  Some (tt,
        if migratable b then
          let st := System.block_mig_state s in
          System.set_block_mig_state
            (BlkMigState.set_bmds_list
               (BlkMigState.bmds_list st
                  ++ [fresh_bmds (BlkMigState.shared_base st) (BlkMigState.sparse_enable st) i b])
               (BlkMigState.set_total_sector_sum
                  (BlkMigState.total_sector_sum st
                   + Z.shiftr (BlockDriverState.getlength b) BDRV_SECTOR_BITS) st))
            (System.set_bdrv_states (<[i := claimed b]> (System.bdrv_states s)) s)
        else s).
Proof.
  intros Hb. unfold init_blk_migration_it, bdrv_is_read_only, bdrv_getlength, drive_get_ref,
    bdrv_set_in_use, migratable, claimed, migratable. munfold. rewrite Hb. cbn.
  destruct (BlockDriverState.read_only b); cbn; [reflexivity|].
  rewrite Hb. cbn.
  destruct (Z.leb_spec (Z.shiftr (BlockDriverState.getlength b) BDRV_SECTOR_BITS) 0),
    (Z.ltb_spec 0 (Z.shiftr (BlockDriverState.getlength b) BDRV_SECTOR_BITS)); try lia;
    [reflexivity|].
  cbn. rewrite Hb. cbn.
  rewrite list_lookup_insert_eq by (eapply lookup_lt_Some, Hb). cbn.
  rewrite list_insert_insert_eq. reflexivity.
Qed.

Lemma sector_sum_app (l1 l2 : list BlkMigDevState.t) :
  sector_sum (l1 ++ l2) = sector_sum l1 + sector_sum l2.
Proof.
  unfold sector_sum. induction l1 as [|b l1 IH]; cbn [foldr app]; [reflexivity|].
  rewrite IH. lia.
Qed.

(** The loop of [bdrv_iterate] over the devices [post], which follow the
    devices [pre] already visited. *)
Lemma init_foreach_registers (post pre : list BlockDriverState.t) (s : System.t) :
  System.bdrv_states s = pre ++ post ->
  exists s',
    foldr (fun i k => init_blk_migration_it i ;;; k) (ret tt)
          (seq (length pre) (length post)) s = Some (tt, s')
    /\ System.bdrv_states s' = pre ++ map claimed post
    /\ BlkMigState.bmds_list (System.block_mig_state s')
       = BlkMigState.bmds_list (System.block_mig_state s)
           ++ registered (BlkMigState.shared_base (System.block_mig_state s))
                (BlkMigState.sparse_enable (System.block_mig_state s)) (length pre) post
    /\ BlkMigState.total_sector_sum (System.block_mig_state s')
       = BlkMigState.total_sector_sum (System.block_mig_state s)
         + sector_sum (registered (BlkMigState.shared_base (System.block_mig_state s))
                         (BlkMigState.sparse_enable (System.block_mig_state s))
                         (length pre) post)
    /\ BlkMigState.shared_base (System.block_mig_state s')
       = BlkMigState.shared_base (System.block_mig_state s)
    /\ BlkMigState.sparse_enable (System.block_mig_state s')
       = BlkMigState.sparse_enable (System.block_mig_state s)
    /\ BlkMigState.prev_progress (System.block_mig_state s')
       = BlkMigState.prev_progress (System.block_mig_state s)
    /\ BlkMigState.bulk_completed (System.block_mig_state s')
       = BlkMigState.bulk_completed (System.block_mig_state s)
    /\ pipeline s' = pipeline s
    /\ System.out_file s' = System.out_file s.
Proof.
  revert pre s. induction post as [|b post IH]; intros pre s Hs; cbn [length seq foldr].
  - exists s. rewrite app_nil_r in *. cbn [map registered sector_sum foldr].
    rewrite app_nil_r, Z.add_0_r. repeat split; auto.
  - assert (Hb : System.bdrv_states s !! length pre = Some b).
    { rewrite Hs. rewrite lookup_app_r by lia. rewrite Nat.sub_diag. reflexivity. }
    rewrite (bind_some _ _ _ _ _ (init_blk_migration_it_eq _ _ _ Hb)).
    match goal with |- context [foldr _ _ _ ?x] => set (s1 := x) end.
    assert (Hs1 : System.bdrv_states s1 = (pre ++ [claimed b]) ++ post).
    { unfold s1, claimed. destruct (migratable b); cbn; rewrite Hs.
      - replace (length pre) with (length pre + 0)%nat at 1 by lia.
        rewrite insert_app_r. cbn. rewrite <- app_assoc. reflexivity.
      - rewrite <- app_assoc. reflexivity. }
    destruct (IH (pre ++ [claimed b]) s1 Hs1) as (s' & Hrun & A1 & A2 & A3 & A4 & A5 & A6 & A7 & A8 & A9).
    rewrite length_app in Hrun, A2, A3. cbn [length] in Hrun, A2, A3.
    rewrite Nat.add_1_r in Hrun, A2, A3.
    exists s'. split; [exact Hrun|].
    split; [rewrite A1, <- app_assoc; reflexivity|].
    cbn [registered]. rewrite sector_sum_app.
    unfold s1 in A2, A3, A4, A5, A6, A7, A8, A9. clear Hs1 Hrun. clearbody s1.
    destruct (migratable b); cbn in A2, A3, A4, A5, A6, A7, A8, A9 |- *.
    + rewrite A2, A3, A4, A5, A6, A7, A8, A9, <- app_assoc. cbn.
      repeat split; try reflexivity. unfold sector_sum. cbn. lia.
    + rewrite A2, A3, A4, A5, A6, A7, A8, A9. repeat split; reflexivity.
Qed.



End RegistrationLemmas.

Section RegistrationTheorems.
Context {P : Platform}.

(** X3: [init_blk_migration] returns on every machine. It resets the
    counters, gives each writable device that has at least one sector a
    device state (in the order of the block layer, after the states there
    were), takes a reference on its drive and marks it in use, and leaves
    read-only and empty devices alone; [total_sector_sum] is the sum of
    the sector counts of the states it has added. *)
Theorem init_blk_migration_registers (s : System.t) :
  let st := System.block_mig_state s in
  exists s' : System.t,
    let st' := System.block_mig_state s' in
    init_blk_migration s = Some (tt, s')
    /\ BlkMigState.bmds_list st'
       = BlkMigState.bmds_list st
           ++ registered (BlkMigState.shared_base st) (BlkMigState.sparse_enable st) 0
                (System.bdrv_states s)
    /\ System.bdrv_states s' = map claimed (System.bdrv_states s)
    /\ BlkMigState.total_sector_sum st'
       = sector_sum (registered (BlkMigState.shared_base st) (BlkMigState.sparse_enable st) 0
                       (System.bdrv_states s))
    /\ BlkMigState.submitted st' = 0 /\ BlkMigState.read_done st' = 0
    /\ BlkMigState.transferred st' = 0 /\ BlkMigState.bulk_completed st' = 0
    /\ BlkMigState.prev_progress st' = -1
    /\ BlkMigState.blk_list st' = BlkMigState.blk_list st
    /\ System.out_file s' = System.out_file s.
Proof.
  cbv zeta. unfold init_blk_migration.
  do 9 (erewrite bind_some; [|reflexivity]).
  unfold bdrv_iterate. erewrite bind_some; [|reflexivity].
  match goal with |- context [foldr _ _ _ ?x] => set (s0 := x) end.
  destruct (init_foreach_registers (System.bdrv_states s) [] s0 eq_refl)
    as (s' & Hrun & A1 & A2 & A3 & A4 & A5 & A6 & A7 & A8 & A9).
  exists s'. split; [exact Hrun|].
  unfold pipeline in A8. cbn in A1, A2, A3, A4, A5, A6, A7, A8, A9.
  injection A8 as B1 B2 B3 B4 B5.
  rewrite A1, A2, A3, A6, A7, A9, B1, B3, B4, B5. repeat split; reflexivity.
Qed.


End RegistrationTheorems.
(** ** The byte counters *)

Section StatusQueries.
Context {P : Platform}.

Lemma sum_field_acc (f : BlkMigDevState.t -> Z) (l : list BlkMigDevState.t) (acc : Z) :
  0 <= acc < 2 ^ 64 ->
  foldl (fun sum b => to_uint64 (sum + f b)) acc l
  = (acc + foldr (fun b a => f b + a) 0 l) mod 2 ^ 64.
Proof.
  revert acc. induction l as [|b l IH]; intros acc Hacc; cbn [foldl foldr].
  - rewrite Z.add_0_r, Z.mod_small by lia. reflexivity.
  - rewrite IH by (unfold to_uint64; apply Z.mod_pos_bound; lia).
    unfold to_uint64. rewrite Zplus_mod_idemp_l. f_equal. lia.
Qed.

Lemma sum_field_eq (f : BlkMigDevState.t -> Z) (l : list BlkMigDevState.t) :
  sum_field f l = foldr (fun b a => f b + a) 0 l mod 2 ^ 64.
Proof. unfold sum_field. rewrite sum_field_acc by lia. reflexivity. Qed.

Lemma sums_ordered (l : list BlkMigDevState.t) :
  Forall (fun b => 0 <= BlkMigDevState.completed_sectors b <= BlkMigDevState.total_sectors b) l ->
  0 <= completed_sum l <= sector_sum l.
Proof.
  unfold completed_sum, sector_sum. induction 1 as [|b l Hb _ IH]; cbn [foldr]; lia.
Qed.

(** X5: when every device state has its completed sector count between 0
    and its total sector count, and the byte total fits in 64 bits, the
    three byte counters are exact: [blk_mig_bytes_total] is the sum of
    the sector counts in bytes, [blk_mig_bytes_transferred] the sum of the
    completed sector counts in bytes, and [blk_mig_bytes_remaining] their
    difference, which is not negative. *)
Theorem blk_mig_bytes_exact (s : System.t) :
  let l := BlkMigState.bmds_list (System.block_mig_state s) in
  0 <= BDRV_SECTOR_BITS ->
  Forall (fun b => 0 <= BlkMigDevState.completed_sectors b <= BlkMigDevState.total_sectors b) l ->
  Z.shiftl (sector_sum l) BDRV_SECTOR_BITS < 2 ^ 64 ->
  blk_mig_bytes_total s = Some (Z.shiftl (sector_sum l) BDRV_SECTOR_BITS, s)
  /\ blk_mig_bytes_transferred s = Some (Z.shiftl (completed_sum l) BDRV_SECTOR_BITS, s)
  /\ blk_mig_bytes_remaining s
     = Some (Z.shiftl (sector_sum l - completed_sum l) BDRV_SECTOR_BITS, s)
  /\ 0 <= completed_sum l <= sector_sum l.
Proof.
  intros l Hbits Hall Hfit. pose proof (sums_ordered l Hall) as Hord.
  assert (Hpow : 0 < 2 ^ BDRV_SECTOR_BITS) by (apply Z.pow_pos_nonneg; lia).
  rewrite Z.shiftl_mul_pow2 in Hfit by lia.
  assert (Ht : blk_mig_bytes_total s = Some (Z.shiftl (sector_sum l) BDRV_SECTOR_BITS, s)).
  { unfold blk_mig_bytes_total. munfold. fold l. rewrite sum_field_eq.
    fold (sector_sum l). unfold to_uint64.
    rewrite (Z.mod_small (sector_sum l)) by nia.
    rewrite Z.shiftl_mul_pow2 by lia. rewrite Z.mod_small by nia. reflexivity. }
  assert (Hd : blk_mig_bytes_transferred s
               = Some (Z.shiftl (completed_sum l) BDRV_SECTOR_BITS, s)).
  { unfold blk_mig_bytes_transferred. munfold. fold l. rewrite sum_field_eq.
    fold (completed_sum l). unfold to_uint64.
    rewrite (Z.mod_small (completed_sum l)) by nia.
    rewrite Z.shiftl_mul_pow2 by lia. rewrite Z.mod_small by nia. reflexivity. }
  split; [exact Ht|]. split; [exact Hd|]. split; [|exact Hord].
  unfold blk_mig_bytes_remaining.
  rewrite (bind_some _ _ _ _ _ Ht), (bind_some _ _ _ _ _ Hd).
  unfold ret, to_uint64. rewrite !Z.shiftl_mul_pow2 by lia.
  rewrite Z.mod_small by nia. do 2 f_equal. lia.
Qed.

End StatusQueries.
(** ** The bulk phase, chunk by chunk *)

Section BulkSteps.
Context {P : Platform}.

Lemma align_down (k x : Z) :
  0 <= k -> Z.land x (Z.lnot (2 ^ k - 1)) = 2 ^ k * (x / 2 ^ k).
Proof.
  intros Hk. rewrite <- Z.ldiff_land. change (2 ^ k - 1) with (Z.pred (2 ^ k)).
  rewrite <- Z.ones_equiv. rewrite Z.ldiff_ones_r by lia.
  rewrite Z.shiftr_div_pow2, Z.shiftl_mul_pow2 by lia. lia.
Qed.

(** One call of [mig_save_device_bulk] on a device without a shared base
    that has sectors left. *)
Lemma mig_save_device_bulk_chunk (d : nat) (s : System.t) (b : BlkMigDevState.t)
      (drv : BlockDriverState.t) (k : Z) :
  0 <= k -> BDRV_SECTORS_PER_DIRTY_CHUNK = 2 ^ k ->
  BDRV_SECTORS_PER_DIRTY_CHUNK < 2 ^ 31 ->
  well_formed s = true ->
  BlkMigState.bmds_list (System.block_mig_state s) !! d = Some b ->
  System.bdrv_states s !! BlkMigDevState.bs b = Some drv ->
  truthy (BlkMigDevState.shared_base b) = false ->
  0 <= BlkMigDevState.cur_sector b < BlkMigDevState.total_sectors b ->
  let sector :=
    BDRV_SECTORS_PER_DIRTY_CHUNK
    * (BlkMigDevState.cur_sector b / BDRV_SECTORS_PER_DIRTY_CHUNK) in
  let nr := Z.min BDRV_SECTORS_PER_DIRTY_CHUNK (BlkMigDevState.total_sectors b - sector) in
  exists s' : System.t,
    mig_save_device_bulk d s
    = Some (Z.b2z (BlkMigDevState.total_sectors b <=? sector + nr), s')
    /\ well_formed s' = true
    /\ BlkMigState.bmds_list (System.block_mig_state s')
       = <[d := BlkMigDevState.set_cur_sector (sector + nr)
                  (BlkMigDevState.set_completed_sectors (BlkMigDevState.cur_sector b) b)]>
           (BlkMigState.bmds_list (System.block_mig_state s))
    /\ System.aio_requests s'
       = System.aio_requests s ++ [(BlkMigDevState.bs b, BlkMigBlock.mk [] d sector nr 0)]
    /\ BlkMigState.submitted (System.block_mig_state s')
       = BlkMigState.submitted (System.block_mig_state s) + 1
    /\ System.bdrv_states s'
       = <[BlkMigDevState.bs b :=
             BlockDriverState.set_dirty_bitmap
               (clear_chunks (sector ÷ BDRV_SECTORS_PER_DIRTY_CHUNK)
                             ((sector + nr - 1) ÷ BDRV_SECTORS_PER_DIRTY_CHUNK)
                  <$> BlockDriverState.dirty_bitmap drv) drv]> (System.bdrv_states s)
    /\ System.out_file s' = System.out_file s
    /\ BlkMigState.blk_list (System.block_mig_state s')
       = BlkMigState.blk_list (System.block_mig_state s)
    /\ 1 <= nr /\ sector <= BlkMigDevState.cur_sector b < sector + nr.
Proof.
  intros Hk HC H31 Hwf Hb Hdrv Hsh Hcur sector nr.
  assert (HCpos : 0 < BDRV_SECTORS_PER_DIRTY_CHUNK)
    by (rewrite HC; apply Z.pow_pos_nonneg; lia).
  assert (HCne : BDRV_SECTORS_PER_DIRTY_CHUNK <> 0) by lia.
  pose proof (Z.div_mod (BlkMigDevState.cur_sector b) BDRV_SECTORS_PER_DIRTY_CHUNK HCne)
    as Hdm.
  pose proof (Z.mod_pos_bound (BlkMigDevState.cur_sector b) BDRV_SECTORS_PER_DIRTY_CHUNK HCpos)
    as Hmod.
  assert (Hsec : sector <= BlkMigDevState.cur_sector b
                 < sector + BDRV_SECTORS_PER_DIRTY_CHUNK) by (unfold sector; lia).
  assert (Hnr : 1 <= nr) by (unfold nr; lia).
  assert (Hnr2 : BlkMigDevState.cur_sector b < sector + nr) by (unfold nr; lia).
  assert (Halign : Z.land (BlkMigDevState.cur_sector b)
                          (Z.lnot (BDRV_SECTORS_PER_DIRTY_CHUNK - 1)) = sector).
  { unfold sector. rewrite HC. apply align_down, Hk. }
  assert (Hnr' : (if BlkMigDevState.total_sectors b - sector <? BDRV_SECTORS_PER_DIRTY_CHUNK
                  then to_int (BlkMigDevState.total_sectors b - sector)
                  else BDRV_SECTORS_PER_DIRTY_CHUNK) = nr).
  { unfold nr. destruct (Z.ltb_spec (BlkMigDevState.total_sectors b - sector)
                                    BDRV_SECTORS_PER_DIRTY_CHUNK).
    - rewrite to_int_small by lia. lia.
    - lia. }
  clearbody nr. clearbody sector.
  pose proof (lookup_lt_Some _ _ _ Hb) as Hd.
  pose proof (proj1 (well_formed_spec s) Hwf) as (W1 & W2 & W3).
  unfold mig_save_device_bulk.
  rewrite (bind_some _ _ _ _ _ (get_bmds_ok _ _ _ Hb)). rewrite Hsh.
  rewrite bind_some with (a := BlkMigDevState.cur_sector b) (s' := s) by reflexivity.
  destruct (Z.leb_spec (BlkMigDevState.total_sectors b) (BlkMigDevState.cur_sector b));
    [lia|].
  rewrite Halign, Hnr'.
  unfold bdrv_aio_readv, bdrv_reset_dirty, qemu_get_clock_ns. munfold.
  rewrite Hb. cbn.
  destruct (BlkMigState.submitted (System.block_mig_state s) =? 0); cbn;
    rewrite Hdrv; cbn;
    rewrite list_lookup_insert_eq by exact Hd; cbn;
    rewrite list_lookup_insert_eq by (rewrite length_insert; exact Hd); cbn;
    rewrite !list_insert_insert_eq.
  all: eexists; split; [reflexivity|]; cbn.
  all: split; [|repeat split; try reflexivity; lia].
  all: apply well_formed_spec; cbn; rewrite !length_insert, length_app; cbn [length].
  all: split; [|split; [|lia]].
  all: try (intros i x Hx; destruct (decide (d = i)) as [E|Hne];
            [subst i; rewrite list_lookup_insert_eq in Hx by exact Hd; injection Hx as <-;
             cbn; eapply W1, Hb
            |rewrite list_lookup_insert_ne in Hx by exact Hne; eapply W1, Hx]).
  all: intros j req Hj; apply lookup_app_Some in Hj; destruct Hj as [Hj|[_ Hj]];
    [apply (W2 j req Hj)|];
    destruct (j - length (System.aio_requests s))%nat; [|discriminate];
    injection Hj as <-; cbn; split; [eapply lookup_lt_Some, Hdrv | exact Hd].
Qed.

(** A call on a device that has no sector left. *)
Lemma mig_save_device_bulk_done (d : nat) (s : System.t) (b : BlkMigDevState.t) :
  BlkMigState.bmds_list (System.block_mig_state s) !! d = Some b ->
  truthy (BlkMigDevState.shared_base b) = false ->
  BlkMigDevState.total_sectors b <= BlkMigDevState.cur_sector b ->
  mig_save_device_bulk d s
  = Some (1, System.set_block_mig_state
               (BlkMigState.set_bmds_list
                  (<[d := BlkMigDevState.set_cur_sector (BlkMigDevState.total_sectors b)
                            (BlkMigDevState.set_completed_sectors
                               (BlkMigDevState.total_sectors b) b)]>
                     (BlkMigState.bmds_list (System.block_mig_state s)))
                  (System.block_mig_state s)) s).
Proof.
  intros Hb Hsh Hcur. unfold mig_save_device_bulk.
  rewrite (bind_some _ _ _ _ _ (get_bmds_ok _ _ _ Hb)). rewrite Hsh.
  rewrite bind_some with (a := BlkMigDevState.cur_sector b) (s' := s) by reflexivity.
  destruct (Z.leb_spec (BlkMigDevState.total_sectors b) (BlkMigDevState.cur_sector b));
    [|lia].
  erewrite bind_some; [|rewrite set_bmds_eq, Hb; reflexivity]. reflexivity.
Qed.

(** The bulk phase of one device from chunk [k] on. *)
Lemma bulk_run_from (d : nat) (j : Z) :
  0 <= j -> BDRV_SECTORS_PER_DIRTY_CHUNK = 2 ^ j ->
  BDRV_SECTORS_PER_DIRTY_CHUNK < 2 ^ 31 ->
  forall (n : nat) (k : Z) (s : System.t) (b : BlkMigDevState.t),
    well_formed s = true ->
    BlkMigState.bmds_list (System.block_mig_state s) !! d = Some b ->
    truthy (BlkMigDevState.shared_base b) = false ->
    0 <= k ->
    BlkMigDevState.cur_sector b = k * BDRV_SECTORS_PER_DIRTY_CHUNK ->
    k * BDRV_SECTORS_PER_DIRTY_CHUNK < BlkMigDevState.total_sectors b ->
    Z.of_nat n
    = (BlkMigDevState.total_sectors b + BDRV_SECTORS_PER_DIRTY_CHUNK - 1)
        / BDRV_SECTORS_PER_DIRTY_CHUNK - k ->
    exists (s' : System.t) (b' : BlkMigDevState.t),
      bulk_run n d s = Some (replicate (n - 1) 0 ++ [1], s')
      /\ System.aio_requests s'
         = System.aio_requests s
             ++ chunk_reads n d (BlkMigDevState.bs b) (BlkMigDevState.total_sectors b) k
      /\ BlkMigState.bmds_list (System.block_mig_state s') !! d = Some b'
      /\ BlkMigDevState.cur_sector b' = BlkMigDevState.total_sectors b
      /\ BlkMigDevState.total_sectors b' = BlkMigDevState.total_sectors b
      /\ BlkMigState.submitted (System.block_mig_state s')
         = BlkMigState.submitted (System.block_mig_state s) + Z.of_nat n
      /\ System.out_file s' = System.out_file s.
Proof.
  intros Hj HC H31.
  assert (HCpos : 0 < BDRV_SECTORS_PER_DIRTY_CHUNK)
    by (rewrite HC; apply Z.pow_pos_nonneg; lia).
  assert (HCne : BDRV_SECTORS_PER_DIRTY_CHUNK <> 0) by lia.
  induction n as [|n IH]; intros k s b Hwf Hb Hsh Hk Hcur Hlt Hn.
  { exfalso.
    pose proof (Z.div_mod (BlkMigDevState.total_sectors b + BDRV_SECTORS_PER_DIRTY_CHUNK - 1)
                  BDRV_SECTORS_PER_DIRTY_CHUNK HCne).
    pose proof (Z.mod_pos_bound (BlkMigDevState.total_sectors b
                                 + BDRV_SECTORS_PER_DIRTY_CHUNK - 1)
                  BDRV_SECTORS_PER_DIRTY_CHUNK HCpos).
    cbn in Hn. nia. }
  pose proof (proj1 (well_formed_spec s) Hwf) as (W1 & _).
  destruct (lookup_lt_is_Some_2 _ _ (W1 d b Hb)) as [drv Hdrv].
  destruct (mig_save_device_bulk_chunk d s b drv j Hj HC H31 Hwf Hb Hdrv Hsh ltac:(nia))
    as (s1 & Hrun & Hwf1 & Hl1 & Hq1 & Hsub1 & Hst1 & Hout1 & _ & _ & _).
  rewrite Hcur, Z.div_mul in Hrun, Hl1, Hq1 by exact HCne.
  rewrite (Z.mul_comm BDRV_SECTORS_PER_DIRTY_CHUNK k) in Hrun, Hl1, Hq1.
  pose proof (Z.div_mod (BlkMigDevState.total_sectors b + BDRV_SECTORS_PER_DIRTY_CHUNK - 1)
                BDRV_SECTORS_PER_DIRTY_CHUNK HCne) as Hdm.
  pose proof (Z.mod_pos_bound (BlkMigDevState.total_sectors b
                               + BDRV_SECTORS_PER_DIRTY_CHUNK - 1)
                BDRV_SECTORS_PER_DIRTY_CHUNK HCpos) as Hmod.
  set (q := (BlkMigDevState.total_sectors b + BDRV_SECTORS_PER_DIRTY_CHUNK - 1)
              / BDRV_SECTORS_PER_DIRTY_CHUNK) in *.
  pose proof (lookup_lt_Some _ _ _ Hb) as Hd.
  cbn [bulk_run chunk_reads]. rewrite (bind_some _ _ _ _ _ Hrun).
  destruct n as [|n].
  - (* the last chunk *)
    cbn [bulk_run]. rewrite bind_some with (a := []) (s' := s1) by reflexivity.
    assert (Hmin : Z.min BDRV_SECTORS_PER_DIRTY_CHUNK
                         (BlkMigDevState.total_sectors b - k * BDRV_SECTORS_PER_DIRTY_CHUNK)
                   = BlkMigDevState.total_sectors b - k * BDRV_SECTORS_PER_DIRTY_CHUNK)
      by (cbn in Hn; nia).
    rewrite Hmin in *.
    destruct (Z.leb_spec (BlkMigDevState.total_sectors b)
                (k * BDRV_SECTORS_PER_DIRTY_CHUNK
                 + (BlkMigDevState.total_sectors b - k * BDRV_SECTORS_PER_DIRTY_CHUNK)));
      [|lia].
    eexists s1, _. split; [reflexivity|]. split; [exact Hq1|].
    split; [rewrite Hl1; apply list_lookup_insert_eq, Hd|].
    cbn. split; [lia|]. split; [reflexivity|]. split; [lia | exact Hout1].
  - (* a whole chunk, and more to come *)
    assert (Hmin : Z.min BDRV_SECTORS_PER_DIRTY_CHUNK
                         (BlkMigDevState.total_sectors b - k * BDRV_SECTORS_PER_DIRTY_CHUNK)
                   = BDRV_SECTORS_PER_DIRTY_CHUNK) by nia.
    rewrite Hmin in *.
    destruct (Z.leb_spec (BlkMigDevState.total_sectors b)
                (k * BDRV_SECTORS_PER_DIRTY_CHUNK + BDRV_SECTORS_PER_DIRTY_CHUNK)); [nia|].
    edestruct (IH (k + 1) s1) as (s' & b' & Hrun' & Hq' & Hb' & Hc' & Ht' & Hsub' & Hout').
    + exact Hwf1.
    + rewrite Hl1. apply list_lookup_insert_eq, Hd.
    + exact Hsh.
    + lia.
    + cbn. lia.
    + cbn. nia.
    + cbn. fold q. lia.
    + cbn [BlkMigDevState.total_sectors BlkMigDevState.set_cur_sector
             BlkMigDevState.set_completed_sectors BlkMigDevState.bs] in *.
      rewrite (bind_some _ _ _ _ _ Hrun').
      exists s', b'. split.
      { unfold ret. do 2 f_equal. cbn. rewrite Nat.sub_0_r. reflexivity. }
      split; [rewrite Hq', Hq1, <- app_assoc; reflexivity|].
      split; [exact Hb'|]. split; [exact Hc'|]. split; [exact Ht'|].
      split; [lia | congruence].
Qed.

End BulkSteps.

Section BulkTheorems.
Context {P : Platform}.

(** X6: on a device without a shared base, [mig_save_device_bulk] with
    sectors left submits exactly one read, of the chunk that holds the bulk
    cursor cut at the end of the device, resets the dirty bits of that
    chunk, records the old cursor as the completed sector count, moves the
    cursor to the end of the chunk, and returns 1 exactly when that is the
    end of the device; with no sector left it submits nothing, sets both
    counts to the total, and returns 1. *)
Theorem mig_save_device_bulk_step (d : nat) (s : System.t) (b : BlkMigDevState.t) (k : Z) :
  0 <= k -> BDRV_SECTORS_PER_DIRTY_CHUNK = 2 ^ k ->
  BDRV_SECTORS_PER_DIRTY_CHUNK < 2 ^ 31 ->
  well_formed s = true ->
  BlkMigState.bmds_list (System.block_mig_state s) !! d = Some b ->
  truthy (BlkMigDevState.shared_base b) = false ->
  0 <= BlkMigDevState.cur_sector b ->
  let total := BlkMigDevState.total_sectors b in
  let sector :=
    BDRV_SECTORS_PER_DIRTY_CHUNK
    * (BlkMigDevState.cur_sector b / BDRV_SECTORS_PER_DIRTY_CHUNK) in
  let nr := Z.min BDRV_SECTORS_PER_DIRTY_CHUNK (total - sector) in
  exists (r : Z) (s' : System.t) (b' : BlkMigDevState.t),
    mig_save_device_bulk d s = Some (r, s')
    /\ BlkMigState.bmds_list (System.block_mig_state s') !! d = Some b'
    /\ (r = 1 <-> total <= BlkMigDevState.cur_sector b') /\ (r = 0 \/ r = 1)
    /\ System.out_file s' = System.out_file s
    /\ (BlkMigDevState.cur_sector b < total ->
        System.aio_requests s'
        = System.aio_requests s ++ [(BlkMigDevState.bs b, BlkMigBlock.mk [] d sector nr 0)]
        /\ 1 <= nr /\ sector <= BlkMigDevState.cur_sector b < sector + nr
        /\ BlkMigDevState.cur_sector b' = sector + nr
        /\ BlkMigDevState.completed_sectors b' = BlkMigDevState.cur_sector b
        /\ (forall t, sector <= t < sector + nr ->
              bdrv_get_dirty (BlkMigDevState.bs b) t s' = Some (false, s')))
    /\ (total <= BlkMigDevState.cur_sector b ->
        System.aio_requests s' = System.aio_requests s
        /\ System.bdrv_states s' = System.bdrv_states s
        /\ BlkMigDevState.cur_sector b' = total
        /\ BlkMigDevState.completed_sectors b' = total).
Proof.
  intros Hk HC H31 Hwf Hb Hsh Hcur total sector nr.
  assert (HCpos : 0 < BDRV_SECTORS_PER_DIRTY_CHUNK)
    by (rewrite HC; apply Z.pow_pos_nonneg; lia).
  pose proof (lookup_lt_Some _ _ _ Hb) as Hd.
  destruct (Z.lt_ge_cases (BlkMigDevState.cur_sector b) total) as [Hlt|Hge].
  - pose proof (proj1 (well_formed_spec s) Hwf) as (W1 & _).
    destruct (lookup_lt_is_Some_2 _ _ (W1 d b Hb)) as [drv Hdrv].
    destruct (mig_save_device_bulk_chunk d s b drv k Hk HC H31 Hwf Hb Hdrv Hsh
                (conj Hcur Hlt))
      as (s' & Hrun & _ & Hl & Hq & _ & Hst & Hout & _ & Hnr & Hsec).
    fold total sector nr in Hrun, Hl, Hq, Hst, Hnr, Hsec.
    eexists _, s', _. split; [exact Hrun|].
    split; [rewrite Hl; apply list_lookup_insert_eq, Hd|]. cbn.
    split; [apply b2z_leb_1|]. split; [destruct (_ <=? _); auto|].
    split; [exact Hout|]. split; [|intros; lia].
    intros _. split; [exact Hq|]. split; [exact Hnr|]. split; [exact Hsec|].
    split; [reflexivity|]. split; [reflexivity|].
    intros t Ht. rewrite bdrv_get_dirty_eq, Hst.
    rewrite list_lookup_insert_eq by (eapply lookup_lt_Some, Hdrv). cbn.
    destruct (BlockDriverState.dirty_bitmap drv) as [bm|]; cbn; [|reflexivity].
    assert (0 <= sector) by (unfold sector; apply Z.mul_nonneg_nonneg;
                             [lia | apply Z.div_pos; lia]).
    destruct (Z.leb_spec 0 t); cbn; [|reflexivity].
    rewrite clear_chunks_lookup; [rewrite andb_false_r; reflexivity|].
    assert (0 <= t ÷ BDRV_SECTORS_PER_DIRTY_CHUNK) by (apply Z.quot_pos; lia).
    rewrite Z2Nat.id by lia.
    split; apply Z.quot_le_mono; lia.
  - rewrite (mig_save_device_bulk_done d s b Hb Hsh Hge).
    eexists _, _, _. split; [reflexivity|]. cbn.
    split; [apply list_lookup_insert_eq, Hd|]. cbn. fold total.
    split; [split; intros; [lia | reflexivity]|]. split; [right; reflexivity|].
    split; [reflexivity|]. split; [intros; lia|]. intros _. repeat split; reflexivity.
Qed.

(** X7: on a device without a shared base whose bulk cursor is at 0, as
    many calls of [mig_save_device_bulk] as the device has chunks submit
    the reads of the chunks 0, 1, 2, ... in this order, each at a multiple
    of the chunk size and a whole chunk long but for a short last one; all
    calls return 0 but the last, which returns 1 and leaves the cursor at
    the end of the device.  Nothing is written to the stream. *)
Theorem bulk_phase_reads_every_chunk_once (d : nat) (s : System.t) (b : BlkMigDevState.t)
        (j : Z) :
  0 <= j -> BDRV_SECTORS_PER_DIRTY_CHUNK = 2 ^ j ->
  BDRV_SECTORS_PER_DIRTY_CHUNK < 2 ^ 31 ->
  well_formed s = true ->
  BlkMigState.bmds_list (System.block_mig_state s) !! d = Some b ->
  truthy (BlkMigDevState.shared_base b) = false ->
  BlkMigDevState.cur_sector b = 0 ->
  0 < BlkMigDevState.total_sectors b ->
  let total := BlkMigDevState.total_sectors b in
  let n := Z.to_nat ((total + BDRV_SECTORS_PER_DIRTY_CHUNK - 1)
                       / BDRV_SECTORS_PER_DIRTY_CHUNK) in
  exists (s' : System.t) (b' : BlkMigDevState.t),
    bulk_run n d s = Some (replicate (n - 1) 0 ++ [1], s')
    /\ System.aio_requests s'
       = System.aio_requests s ++ chunk_reads n d (BlkMigDevState.bs b) total 0
    /\ BlkMigState.bmds_list (System.block_mig_state s') !! d = Some b'
    /\ BlkMigDevState.cur_sector b' = total
    /\ BlkMigState.submitted (System.block_mig_state s')
       = BlkMigState.submitted (System.block_mig_state s) + Z.of_nat n
    /\ System.out_file s' = System.out_file s.
Proof.
  intros Hj HC H31 Hwf Hb Hsh Hcur Htot total n.
  assert (HCpos : 0 < BDRV_SECTORS_PER_DIRTY_CHUNK)
    by (rewrite HC; apply Z.pow_pos_nonneg; lia).
  assert (0 <= (total + BDRV_SECTORS_PER_DIRTY_CHUNK - 1) / BDRV_SECTORS_PER_DIRTY_CHUNK)
    by (apply Z.div_pos; unfold total; lia).
  destruct (bulk_run_from d j Hj HC H31 n 0 s b Hwf Hb Hsh) as
    (s' & b' & Hrun & Hq & Hb' & Hc' & _ & Hsub & Hout).
  - lia.
  - lia.
  - lia.
  - unfold n. fold total. lia.
  - exists s', b'. auto 10.
Qed.

End BulkTheorems.
(** ** The send path: what [flush_blks] takes off the queue *)

Section FlushQueue.
Context {P : Platform}.

Lemma flush_loop_prefix (fuel : nat) (s : System.t) :
  let st := System.block_mig_state s in
  (length (BlkMigState.blk_list st) < fuel)%nat ->
  Forall (fun blk => (BlkMigBlock.bmds blk < length (BlkMigState.bmds_list st))%nat)
         (BlkMigState.blk_list st) ->
  devs_valid s ->
  Z.of_nat (length (BlkMigState.blk_list st)) <= BlkMigState.read_done st ->
  exists (r : Z) (s' : System.t) (sent : list BlkMigBlock.t),
    let st' := System.block_mig_state s' in
    flush_loop fuel s = Some (r, s')
    /\ BlkMigState.blk_list st = sent ++ BlkMigState.blk_list st'
    /\ Forall (fun blk => 0 <= BlkMigBlock.ret blk) sent
    /\ BlkMigState.transferred st' = BlkMigState.transferred st + Z.of_nat (length sent)
    /\ BlkMigState.read_done st' = BlkMigState.read_done st - Z.of_nat (length sent)
    /\ System.total_blocks s' = System.total_blocks s + Z.of_nat (length sent)
    /\ BlkMigState.bmds_list st' = BlkMigState.bmds_list st
    /\ BlkMigState.submitted st' = BlkMigState.submitted st
    /\ System.aio_requests s' = System.aio_requests s
    /\ System.bdrv_states s' = System.bdrv_states s
    /\ (r = 0 ->
        BlkMigState.blk_list st' = []
        \/ qemu_file_rate_limit (System.out_file s') = true)
    /\ (r <> 0 ->
        qemu_file_rate_limit (System.out_file s') = false
        /\ exists blk rest,
             BlkMigState.blk_list st' = blk :: rest /\ r = BlkMigBlock.ret blk /\ r < 0).
Proof.
  cbv zeta. revert s. induction fuel as [|fuel IH]; intros s Hfuel Hq Hv Hrd; [lia|].
  cbn [flush_loop]. rewrite bind_some with (a := System.block_mig_state s) (s' := s)
    by reflexivity.
  destruct (BlkMigState.blk_list (System.block_mig_state s)) as [|blk rest] eqn:Eq.
  { exists 0, s, []. cbn. rewrite Eq.
    split; [reflexivity|]. split; [reflexivity|]. split; [constructor|].
    do 7 (split; [lia || reflexivity|]). split; [auto | congruence]. }
  rewrite bind_some with (a := s) (s' := s) by reflexivity.
  destruct (qemu_file_rate_limit (System.out_file s)) eqn:Erl.
  { exists 0, s, []. cbn. rewrite Eq.
    split; [reflexivity|]. split; [reflexivity|]. split; [constructor|].
    do 7 (split; [lia || reflexivity|]). split; [auto | congruence]. }
  destruct (Z.ltb_spec (BlkMigBlock.ret blk) 0) as [Hneg|Hpos].
  { exists (BlkMigBlock.ret blk), s, []. cbn. rewrite Eq.
    split; [reflexivity|]. split; [reflexivity|]. split; [constructor|].
    do 7 (split; [lia || reflexivity|]). split; [intros; lia|].
    intros _. split; [exact Erl|]. eauto. }
  inversion Hq as [|? ? Hblk Hrest]; subst.
  apply lookup_lt_is_Some_2 in Hblk. destruct Hblk as [b Hb].
  assert (Hbs : (BlkMigDevState.bs b < length (System.bdrv_states s))%nat).
  { unfold devs_valid in Hv. rewrite Forall_forall in Hv. apply Hv.
    eapply list_elem_of_lookup_2, Hb. }
  apply lookup_lt_is_Some_2 in Hbs. destruct Hbs as [drv Hdrv].
  destruct (blk_send_total blk s b drv Hb Hdrv) as (s1 & Hsend).
  rewrite (bind_some _ _ _ _ _ Hsend).
  apply blk_send_frame in Hsend. destruct Hsend as (C1 & C2 & C3 & C4).
  do 3 (erewrite bind_some; [|reflexivity]).
  erewrite bind_some; [|reflexivity]. cbn [length] in Hrd, Hfuel.
  match goal with |- context [assert ?c] => assert (Hc : c = true) end.
  { cbn. rewrite C1. apply Z.leb_le. lia. }
  rewrite Hc. erewrite bind_some; [|reflexivity].
  match goal with |- context [flush_loop fuel ?x] => set (s2 := x) end.
  destruct (IH s2) as (r & s' & sent & Hrun & A1 & A2 & A3 & A4 & A5 & A6 & A7 & A8 & A9 & A10 & A11).
  - unfold s2. cbn. lia.
  - unfold s2. cbn. rewrite C1. exact Hrest.
  - unfold s2, devs_valid. cbn. rewrite C1, C2. exact Hv.
  - unfold s2. cbn. rewrite C1. lia.
  - unfold s2 in A1, A3, A4, A5, A6, A7, A8, A9. cbn in A1, A3, A4, A5, A6, A7, A8, A9.
    rewrite C1 in A3, A4, A6, A7. rewrite C3 in A8. rewrite C2 in A9. rewrite C4 in A5.
    exists r, s', (blk :: sent). split; [exact Hrun|].
    split; [cbn; rewrite A1; reflexivity|].
    split; [constructor; [lia | exact A2]|].
    cbn [length]. split; [lia|]. split; [lia|]. split; [lia|].
    split; [exact A6|]. split; [exact A7|]. split; [exact A8|]. split; [exact A9|].
    split; assumption.
Qed.

(** X8: [flush_blks] takes a prefix of the pending queue, in order, and
    sends it: every block it takes has a non-negative result code and is
    counted once in [transferred] and once out of [read_done]; no block is
    dropped.  It returns 0 when the queue is empty or the transport is
    over its rate limit, and otherwise the negative result code of the
    block that is now at the head of the queue. *)
Theorem flush_blks_sends_prefix (s : System.t) :
  let st := System.block_mig_state s in
  Forall (fun blk => (BlkMigBlock.bmds blk < length (BlkMigState.bmds_list st))%nat)
         (BlkMigState.blk_list st) ->
  devs_valid s ->
  Z.of_nat (length (BlkMigState.blk_list st)) <= BlkMigState.read_done st ->
  exists (r : Z) (s' : System.t) (sent : list BlkMigBlock.t),
    let st' := System.block_mig_state s' in
    flush_blks s = Some (r, s')
    /\ BlkMigState.blk_list st = sent ++ BlkMigState.blk_list st'
    /\ Forall (fun blk => 0 <= BlkMigBlock.ret blk) sent
    /\ BlkMigState.transferred st' = BlkMigState.transferred st + Z.of_nat (length sent)
    /\ BlkMigState.read_done st' = BlkMigState.read_done st - Z.of_nat (length sent)
    /\ (r = 0 ->
        BlkMigState.blk_list st' = []
        \/ qemu_file_rate_limit (System.out_file s') = true)
    /\ (r <> 0 ->
        qemu_file_rate_limit (System.out_file s') = false
        /\ exists blk rest,
             BlkMigState.blk_list st' = blk :: rest /\ r = BlkMigBlock.ret blk /\ r < 0).
Proof.
  cbv zeta. intros Hq Hv Hrd. unfold flush_blks.
  rewrite bind_some with (a := System.block_mig_state s) (s' := s) by reflexivity.
  destruct (flush_loop_prefix (S (length (BlkMigState.blk_list (System.block_mig_state s)))) s
              ltac:(cbv zeta; lia) Hq Hv Hrd)
    as (r & s' & sent & Hrun & A1 & A2 & A3 & A4 & _ & _ & _ & _ & _ & A10 & A11).
  exists r, s', sent. auto 10.
Qed.

End FlushQueue.
(** ** Cleanup *)

Section Cleanup.
Context {P : Platform}.

(** [h] applied to the device of index [i], when there is one. *)
Lemma set_bs_eq (i : nat) (h : BlockDriverState.t -> BlockDriverState.t) (s : System.t) :
  set_bs i h s =
  match System.bdrv_states s !! i with
  | None => None
  | Some b => Some (tt, System.set_bdrv_states (<[i := h b]> (System.bdrv_states s)) s)
  end.
Proof. munfold. destruct (_ !! i); reflexivity. Qed.

Lemma foreach_set_bs (G : nat -> M unit -> M unit)
      (h : BlockDriverState.t -> BlockDriverState.t) (l : list nat) (s : System.t) :
  (forall i k s0, G i k s0 = (set_bs i h ;;; k) s0) ->
  Forall (fun i => (i < length (System.bdrv_states s))%nat) l ->
  exists ds,
    foldr G (ret tt) l s = Some (tt, System.set_bdrv_states ds s)
    /\ length ds = length (System.bdrv_states s)
    /\ forall i, ds !! i = Nat.iter (occurrences i l) h <$> System.bdrv_states s !! i.
Proof.
  intros HG. revert s. induction l as [|j l IH]; intros s Hl; cbn [foldr occurrences].
  - exists (System.bdrv_states s). split; [destruct s; reflexivity|].
    split; [reflexivity|]. intros i. cbn. destruct (_ !! i); reflexivity.
  - inversion Hl as [|? ? Hj Hl']; subst.
    apply lookup_lt_is_Some_2 in Hj. destruct Hj as [x Hx].
    rewrite HG. erewrite bind_some; [|rewrite set_bs_eq, Hx; reflexivity].
    destruct (IH (System.set_bdrv_states (<[j := h x]> (System.bdrv_states s)) s))
      as (ds & Hrun & Hlen & Hlook).
    { cbn. rewrite length_insert. exact Hl'. }
    exists ds. split; [rewrite Hrun; destruct s; reflexivity|].
    cbn in Hlen. rewrite length_insert in Hlen. split; [exact Hlen|].
    intros i. rewrite Hlook. cbn [System.bdrv_states System.set_bdrv_states].
    destruct (Nat.eqb_spec j i) as [->|Hne].
    + rewrite list_lookup_insert_eq by (eapply lookup_lt_Some, Hx). rewrite Hx.
      change (1 + occurrences i l)%nat with (S (occurrences i l)).
      cbn [fmap option_fmap option_map]. rewrite Nat.iter_succ_r. reflexivity.
    + rewrite list_lookup_insert_ne by exact Hne. reflexivity.
Qed.

Lemma foldr_over_bs (G : nat -> M unit -> M unit) (l : list BlkMigDevState.t) :
  foldr (fun b k => G (BlkMigDevState.bs b) k) (ret tt) l
  = foldr G (ret tt) (map BlkMigDevState.bs l).
Proof. induction l as [|b l IH]; cbn [foldr map]; [reflexivity | rewrite IH; reflexivity]. Qed.

Lemma devs_agree_bs (l l' : list BlkMigDevState.t) :
  devs_agree l l' -> length l' = length l ->
  map BlkMigDevState.bs l' = map BlkMigDevState.bs l.
Proof.
  intros Ha Hlen. apply list_eq. intros i. rewrite !list_lookup_fmap.
  destruct (l !! i) as [b|] eqn:Eb.
  - destruct (Ha i b Eb) as (b' & Hb' & Hsame). rewrite Hb'. cbn.
    destruct (same_dev_fields _ _ Hsame) as (-> & _). reflexivity.
  - apply lookup_ge_None in Eb. rewrite lookup_ge_None_2 by lia. reflexivity.
Qed.

Lemma iter_tracking_off (n : nat) (b : BlockDriverState.t) :
  Nat.iter n (fun x => BlockDriverState.set_drive_refs (BlockDriverState.drive_refs x - 1)
                         (BlockDriverState.set_in_use 0 x))
    (Nat.iter n (BlockDriverState.set_dirty_bitmap None) b)
  = released n b.
Proof.
  destruct n as [|n]; [reflexivity|].
  assert (H1 : forall m, Nat.iter (S m) (BlockDriverState.set_dirty_bitmap None) b
                         = BlockDriverState.set_dirty_bitmap None b).
  { induction m as [|m IH]; [reflexivity|]. rewrite Nat.iter_succ, IH. reflexivity. }
  rewrite H1.
  assert (H2 : forall m y,
             Nat.iter (S m) (fun x => BlockDriverState.set_drive_refs
                                        (BlockDriverState.drive_refs x - 1)
                                        (BlockDriverState.set_in_use 0 x)) y
             = BlockDriverState.set_drive_refs
                 (BlockDriverState.drive_refs y - Z.of_nat (S m))
                 (BlockDriverState.set_in_use 0 y)).
  { induction m as [|m IH]; intros y; [reflexivity|].
    rewrite Nat.iter_succ, IH. destruct y.
    unfold BlockDriverState.set_drive_refs, BlockDriverState.set_in_use. cbn. f_equal. lia. }
  rewrite H2. reflexivity.
Qed.

(** X9: on a machine whose pointers designate objects, [blk_mig_cleanup]
    (and so [block_migration_cancel]) returns: every read in flight has
    been completed, both queues of the engine are empty, so that
    [blk_mig_active] answers 0; each device that device states pointed to
    has dirty tracking off, is not in use, and has lost one drive reference
    per device state; the other devices and the stream are untouched. *)
Theorem blk_mig_cleanup_releases (s : System.t) :
  well_formed s = true ->
  let st := System.block_mig_state s in
  exists s' : System.t,
    let st' := System.block_mig_state s' in
    block_migration_cancel s = Some (tt, s')
    /\ blk_mig_cleanup s = Some (tt, s')
    /\ BlkMigState.bmds_list st' = []
    /\ BlkMigState.blk_list st' = []
    /\ System.aio_requests s' = []
    /\ blk_mig_active s' = Some (0, s')
    /\ System.out_file s' = System.out_file s
    /\ System.bdrv_states s'
       = imap (fun i b =>
                 released (occurrences i (map BlkMigDevState.bs (BlkMigState.bmds_list st))) b)
              (System.bdrv_states s).
Proof.
  intros Hwf. cbv zeta. unfold block_migration_cancel.
  destruct (bdrv_drain_all_total s Hwf) as (s1 & Hdrain & Hwf1).
  pose proof (bdrv_drain_all_post _ _ Hdrain)
    as [(A1 & A2 & A3 & A4 & A5 & A6 & A7 & A8 & A9 & A10 & A11) L].
  cbn in A1, A2, A4, A5.
  pose proof (devs_agree_bs _ _ A5 L) as Hbs.
  pose proof (proj1 (well_formed_spec s1) Hwf1) as (W1 & _).
  assert (Hvalid : Forall (fun i => (i < length (System.bdrv_states s1))%nat)
                          (map BlkMigDevState.bs
                             (BlkMigState.bmds_list (System.block_mig_state s1)))).
  { apply Forall_forall. intros i Hi. apply list_elem_of_fmap in Hi.
    destruct Hi as (b & -> & Hb). apply list_elem_of_lookup in Hb. destruct Hb as [d Hd].
    eapply W1, Hd. }
  (* dirty tracking off *)
  destruct (foreach_set_bs (fun i k => bdrv_set_dirty_tracking i 0 ;;; k)
              (BlockDriverState.set_dirty_bitmap None) _ s1 ltac:(reflexivity) Hvalid)
    as (ds2 & Hrun2 & Hlen2 & Hlook2).
  (* not in use, references given back *)
  destruct (foreach_set_bs
              (fun i k => bdrv_set_in_use i 0 ;;; drive_put_ref i ;;; k)
              (fun x => BlockDriverState.set_drive_refs (BlockDriverState.drive_refs x - 1)
                          (BlockDriverState.set_in_use 0 x))
              (map BlkMigDevState.bs (BlkMigState.bmds_list (System.block_mig_state s1)))
              (System.set_bdrv_states ds2 s1))
    as (ds3 & Hrun3 & Hlen3 & Hlook3).
  { intros i k s0. unfold bdrv_set_in_use, drive_put_ref, bind. rewrite !set_bs_eq.
    destruct (System.bdrv_states s0 !! i) as [x|] eqn:Ex; [|reflexivity].
    rewrite set_bs_eq. cbn [System.bdrv_states System.set_bdrv_states].
    rewrite list_lookup_insert_eq by (eapply lookup_lt_Some, Ex).
    rewrite list_insert_insert_eq. destruct s0. reflexivity. }
  { cbn. rewrite Hlen2. exact Hvalid. }
  assert (Hrun : blk_mig_cleanup s
                 = Some (tt, System.set_block_mig_state
                               (BlkMigState.set_blk_list []
                                  (BlkMigState.set_bmds_list [] (System.block_mig_state s1)))
                               (System.set_bdrv_states ds3 s1))).
  { unfold blk_mig_cleanup. rewrite (bind_some _ _ _ _ _ Hdrain).
    erewrite bind_some.
    2:{ unfold set_dirty_tracking. erewrite bind_some; [|reflexivity].
        rewrite (foldr_over_bs (fun i k => bdrv_set_dirty_tracking i 0 ;;; k)). exact Hrun2. }
    erewrite bind_some; [|reflexivity].
    erewrite bind_some.
    2:{ cbn [System.block_mig_state System.set_bdrv_states].
        rewrite (foldr_over_bs (fun i k => bdrv_set_in_use i 0 ;;; drive_put_ref i ;;; k)).
        exact Hrun3. }
    destruct s1. reflexivity. }
  eexists. split; [exact Hrun|]. split; [exact Hrun|]. cbn.
  split; [reflexivity|]. split; [reflexivity|]. split; [exact A4|].
  split; [reflexivity|]. split; [exact A2|].
  apply list_eq. intros i. rewrite Hlook3. cbn. rewrite Hlook2, A1, Hbs.
  rewrite list_lookup_imap. destruct (System.bdrv_states s !! i) as [x|]; cbn; [|reflexivity].
  rewrite iter_tracking_off. reflexivity.
Qed.

End Cleanup.
(** ** Convergence and parameters *)

Section Convergence.
Context {P : Platform}.

Lemma remaining_foreach (l : list BlkMigDevState.t) (s : System.t) :
  Forall (fun b => (BlkMigDevState.bs b < length (System.bdrv_states s))%nat) l ->
  foldr (fun b k => n <- bdrv_get_dirty_count (BlkMigDevState.bs b) ;;
                    m <- k ;; ret (n + m))
        (ret 0) l s
  = Some (foldr (fun b acc =>
                   match System.bdrv_states s !! BlkMigDevState.bs b with
                   | Some drv => dirty_count drv + acc
                   | None => acc
                   end) 0 l, s).
Proof.
  induction 1 as [|b l Hb _ IH]; cbn [foldr]; [reflexivity|].
  apply lookup_lt_is_Some_2 in Hb. destruct Hb as [drv Hdrv].
  erewrite bind_some.
  2:{ unfold bdrv_get_dirty_count. erewrite bind_some;
        [reflexivity | unfold get_bs, bind, get, ret; rewrite Hdrv; reflexivity]. }
  rewrite (bind_some _ _ _ _ _ IH). rewrite Hdrv. reflexivity.
Qed.

Lemma get_remaining_dirty_eq (s : System.t) :
  devs_valid s -> get_remaining_dirty s = Some (dirty_chunks s * BLOCK_SIZE, s).
Proof.
  intros Hv. unfold get_remaining_dirty.
  erewrite bind_some; [|reflexivity].
  rewrite (bind_some _ _ _ _ _ (remaining_foreach _ s Hv)). reflexivity.
Qed.

(** X10: [is_stage2_completed] changes nothing and answers 0 or 1.  It
    answers 0 as long as the bulk phase is not complete, and 1, without a
    look at the read times, once the bulk phase is complete and no chunk
    of any device is dirty; with dirty chunks left and no read time
    accumulated the assertion of [compute_read_bwidth] stops it. *)
Theorem is_stage2_completed_gates (s : System.t) :
  let st := System.block_mig_state s in
  devs_valid s ->
  (BlkMigState.bulk_completed st <> 1 -> is_stage2_completed s = Some (0, s))
  /\ (BlkMigState.bulk_completed st = 1 -> dirty_chunks s * BLOCK_SIZE = 0 ->
      is_stage2_completed s = Some (1, s))
  /\ (BlkMigState.bulk_completed st = 1 -> dirty_chunks s * BLOCK_SIZE <> 0 ->
      BlkMigState.total_time st = 0 -> is_stage2_completed s = None)
  /\ (forall r s', is_stage2_completed s = Some (r, s') -> s' = s /\ (r = 0 \/ r = 1)).
Proof.
  cbv zeta. intros Hv. unfold is_stage2_completed.
  rewrite bind_some with (a := System.block_mig_state s) (s' := s) by reflexivity.
  destruct (Z.eqb_spec (BlkMigState.bulk_completed (System.block_mig_state s)) 1) as [E|E].
  2:{ split; [reflexivity|]. split; [contradiction|]. split; [contradiction|].
      intros r s' [= <- <-]. auto. }
  rewrite (bind_some _ _ _ _ _ (get_remaining_dirty_eq s Hv)).
  destruct (Z.eqb_spec (dirty_chunks s * BLOCK_SIZE) 0) as [E0|E0].
  { split; [contradiction|]. split; [reflexivity|]. split; [contradiction|].
    intros r s' [= <- <-]. auto. }
  split; [contradiction|]. split; [contradiction|].
  destruct (Z.eqb_spec (BlkMigState.total_time (System.block_mig_state s)) 0) as [Et|Et];
    cbn [negb assert].
  - split; [reflexivity | discriminate].
  - split; [contradiction|].
    erewrite bind_some; [|reflexivity].
    destruct (downtime_within_budget _ _ _); intros r s' [= <- <-]; auto.
Qed.

End Convergence.

Section Parameters.

(** X11: [block_set_params] stores the [shared] and [sparse] flags, and
    enables block migration exactly when one of [blk], [shared] and
    [sparse] is set: [block_is_active] then answers the disjunction of the
    three.  Nothing else of the engine changes. *)
Theorem block_set_params_active_iff (params : MigrationParams.t) (s : System.t) :
  let on := MigrationParams.blk params || MigrationParams.shared params
            || MigrationParams.sparse params in
  exists s' : System.t,
    block_set_params params s = Some (tt, s')
    /\ block_is_active s' = Some (on, s')
    /\ BlkMigState.blk_enable (System.block_mig_state s') = Z.b2z on
    /\ BlkMigState.shared_base (System.block_mig_state s')
       = Z.b2z (MigrationParams.shared params)
    /\ BlkMigState.sparse_enable (System.block_mig_state s')
       = Z.b2z (MigrationParams.sparse params)
    /\ s' = System.set_block_mig_state
              (BlkMigState.set_params (Z.b2z on) (Z.b2z (MigrationParams.shared params))
                 (Z.b2z (MigrationParams.sparse params)) (System.block_mig_state s)) s.
Proof.
  destruct params as [b sh sp]. cbv zeta. eexists. split; [reflexivity|].
  destruct b, sh, sp; cbn; repeat split; reflexivity.
Qed.

End Parameters.
(** ** A dirty pass over clean devices *)

Section CleanPass.
Context {P : Platform}.

Lemma dirty_count_zero (drv : BlockDriverState.t) (sector : Z) (i : nat) (s : System.t) :
  System.bdrv_states s !! i = Some drv ->
  dirty_count drv = 0 ->
  bdrv_get_dirty i sector s = Some (false, s).
Proof.
  intros Hdrv Hz. rewrite bdrv_get_dirty_eq, Hdrv. unfold dirty_count in Hz.
  destruct (BlockDriverState.dirty_bitmap drv) as [bm|]; [|reflexivity].
  destruct (bm !! Z.to_nat (sector ÷ BDRV_SECTORS_PER_DIRTY_CHUNK)) as [x|] eqn:Ex; cbn;
    [|rewrite andb_false_r; reflexivity].
  destruct x; [|rewrite andb_false_r; reflexivity].
  exfalso. apply list_elem_of_lookup_2 in Ex.
  assert (Hin : true ∈ filter (fun x => x = true) bm) by (apply list_elem_of_filter; auto).
  destruct (filter (fun x => x = true) bm); [inversion Hin | cbn in Hz; lia].
Qed.

Lemma nothing_dirty_quiet (s s' : System.t) :
  quiet s s' -> nothing_dirty s -> nothing_dirty s'.
Proof.
  intros (Q1 & _ & _ & Q4 & Q5 & _) Hn d b' drv Hb' Hdrv.
  destruct (lookup_lt_is_Some_2 (BlkMigState.bmds_list (System.block_mig_state s)) d)
    as [b Hb]; [rewrite <- Q5; eapply lookup_lt_Some, Hb'|].
  destruct (Q4 d b Hb) as (b'' & Hb'' & Hsame). rewrite Hb' in Hb''. injection Hb'' as <-.
  destruct (same_dev_fields _ _ Hsame) as (Fbs & _).
  rewrite Fbs, Q1 in Hdrv. eapply Hn; eassumption.
Qed.

(** The scan of [mig_save_device_dirty] over a device with no dirty chunk. *)
Lemma dirty_scan_clean (d : nat) (a : Z) :
  0 < BDRV_SECTORS_PER_DIRTY_CHUNK ->
  forall (fuel : nat) (sector : Z) (s : System.t) (b : BlkMigDevState.t),
    well_formed s = true ->
    nothing_dirty s ->
    BlkMigState.bmds_list (System.block_mig_state s) !! d = Some b ->
    BlkMigDevState.cur_dirty b = sector ->
    (Z.to_nat (BlkMigDevState.total_sectors b - sector) < fuel)%nat ->
    exists (s' : System.t) (b' : BlkMigDevState.t),
      dirty_scan fuel d a sector s = Some (1, s')
      /\ well_formed s' = true
      /\ quiet s s'
      /\ (System.aio_requests s' = System.aio_requests s \/ System.aio_requests s' = [])
      /\ BlkMigState.bmds_list (System.block_mig_state s') !! d = Some b'
      /\ BlkMigDevState.total_sectors b' <= BlkMigDevState.cur_dirty b'.
Proof.
  intros Hc. induction fuel as [|fuel IH]; intros sector s b Hwf Hclean Hb Hcur Hfuel; [lia|].
  cbn [dirty_scan]. rewrite (bind_some _ _ _ _ _ (get_bmds_ok _ _ _ Hb)).
  destruct (Z.ltb_spec sector (BlkMigDevState.total_sectors b)) as [Hlt|Hge].
  2:{ rewrite (bind_some _ _ _ _ _ (get_bmds_ok _ _ _ Hb)).
      exists s, b. unfold ret.
      destruct (Z.leb_spec (BlkMigDevState.total_sectors b) (BlkMigDevState.cur_dirty b));
        [|lia].
      split; [reflexivity|]. split; [exact Hwf|]. split; [apply quiet_refl|].
      split; [left; reflexivity|]. split; [exact Hb | lia]. }
  pose proof (proj1 (well_formed_spec s) Hwf) as (W1 & _).
  destruct (lookup_lt_is_Some_2 _ _ (W1 d b Hb)) as [drv Hdrv].
  erewrite bind_some; [|rewrite bmds_aio_inflight_eq, Hb, Hdrv; reflexivity].
  match goal with |- context [when ?c bdrv_drain_all] => set (inflight := c) end.
  assert (Hdrain : exists s2 b2,
             when inflight bdrv_drain_all s = Some (tt, s2)
             /\ well_formed s2 = true
             /\ quiet s s2
             /\ (System.aio_requests s2 = System.aio_requests s \/ System.aio_requests s2 = [])
             /\ BlkMigState.bmds_list (System.block_mig_state s2) !! d = Some b2
             /\ same_dev b b2).
  { unfold when. destruct inflight.
    - destruct (bdrv_drain_all_total s Hwf) as (s2 & Hrun & Hwf2).
      destruct (drain_cursor _ _ _ _ Hrun Hb) as (b2 & Hb2 & Hsame & _).
      pose proof (quiet_drain _ _ Hrun) as Hq.
      pose proof (bdrv_drain_all_post _ _ Hrun) as [(_ & _ & _ & A4 & _) _].
      exists s2, b2. cbn in A4. auto 10.
    - exists s, b. split; [reflexivity|]. split; [exact Hwf|]. split; [apply quiet_refl|].
      split; [left; reflexivity|]. split; [exact Hb | apply same_dev_refl]. }
  destruct Hdrain as (s2 & b2 & Hrun & Hwf2 & Hq2 & Haio2 & Hb2 & Hsame).
  rewrite (bind_some _ _ _ _ _ Hrun).
  destruct (same_dev_fields _ _ Hsame) as (Fbs & Ftot & _).
  pose proof (nothing_dirty_quiet _ _ Hq2 Hclean) as Hclean2.
  pose proof (proj1 (well_formed_spec s2) Hwf2) as (V1 & _).
  destruct (lookup_lt_is_Some_2 _ _ (V1 d b2 Hb2)) as [drv2 Hdrv2].
  pose proof (Hclean2 d b2 drv2 Hb2 Hdrv2) as Hz. rewrite Fbs in Hdrv2.
  rewrite (bind_some _ _ _ _ _ (dirty_count_zero drv2 sector _ s2 Hdrv2 Hz)).
  erewrite bind_some; [|rewrite set_bmds_eq, Hb2; reflexivity].
  match goal with |- context [dirty_scan fuel d a _ ?x] => set (s3 := x) end.
  assert (Hq3 : quiet s2 s3).
  { eapply (quiet_set_cur_dirty d). rewrite set_bmds_eq, Hb2. reflexivity. }
  edestruct (IH (sector + BDRV_SECTORS_PER_DIRTY_CHUNK) s3)
    as (s' & b' & Hrun' & Hwf' & Hq' & Haio' & Hb' & Hend).
  - eapply well_formed_insert; [exact Hwf2 | exact Hb2 | reflexivity].
  - eapply nothing_dirty_quiet; eassumption.
  - unfold s3. cbn. apply list_lookup_insert_eq. eapply lookup_lt_Some, Hb2.
  - reflexivity.
  - cbn [BlkMigDevState.total_sectors BlkMigDevState.set_cur_dirty]. lia.
  - exists s', b'. split; [exact Hrun'|]. split; [exact Hwf'|].
    split; [eapply quiet_trans; [exact Hq2|]; eapply quiet_trans; eassumption|].
    split; [|split; assumption].
    unfold s3 in Haio'. cbn in Haio'. destruct Haio' as [E|E]; [rewrite E; exact Haio2 | auto].
Qed.

Lemma dirty_foreach_clean (a : Z) :
  0 < BDRV_SECTORS_PER_DIRTY_CHUNK ->
  forall (ds : list nat) (s : System.t),
    well_formed s = true ->
    nothing_dirty s ->
    Forall (fun d => (d < length (BlkMigState.bmds_list (System.block_mig_state s)))%nat) ds ->
    exists s' : System.t,
      dirty_foreach ds a 1 s = Some (1, s')
      /\ quiet s s'
      /\ (System.aio_requests s' = System.aio_requests s \/ System.aio_requests s' = []).
Proof.
  intros Hc. induction ds as [|d ds IH]; intros s Hwf Hclean Hds; cbn [dirty_foreach].
  - exists s. split; [reflexivity|]. split; [apply quiet_refl | left; reflexivity].
  - inversion Hds as [|? ? Hd Hds']; subst.
    apply lookup_lt_is_Some_2 in Hd. destruct Hd as [b Hb].
    destruct (dirty_scan_clean d a Hc
                (S (Z.to_nat (BlkMigDevState.total_sectors b - BlkMigDevState.cur_dirty b)))
                (BlkMigDevState.cur_dirty b) s b Hwf Hclean Hb eq_refl ltac:(lia))
      as (s1 & b1 & Hrun & Hwf1 & Hq1 & Haio1 & _ & _).
    erewrite bind_some.
    2:{ unfold mig_save_device_dirty. rewrite (bind_some _ _ _ _ _ (get_bmds_ok _ _ _ Hb)).
        exact Hrun. }
    change (1 <=? 0) with false. cbv iota.
    destruct (IH s1 Hwf1 (nothing_dirty_quiet _ _ Hq1 Hclean)) as (s' & Hrun' & Hq' & Haio').
    { destruct Hq1 as (_ & _ & _ & _ & L & _). rewrite L. exact Hds'. }
    exists s'. split; [exact Hrun'|]. split; [eapply quiet_trans; eassumption|].
    destruct Haio' as [E|E]; [rewrite E; exact Haio1 | auto].
Qed.

(** X12: when no chunk of any migrated device is dirty,
    [blk_mig_save_dirty_block] (asynchronous or not) returns 1, "no more
    dirty blocks": it reads nothing, submits no read, leaves the devices
    and the stream as they are, and sends nothing (the reads in flight may
    have been completed on the way). *)
Theorem blk_mig_save_dirty_block_nothing_dirty (is_async : Z) (s : System.t) :
  0 < BDRV_SECTORS_PER_DIRTY_CHUNK ->
  well_formed s = true ->
  nothing_dirty s ->
  exists s' : System.t,
    blk_mig_save_dirty_block is_async s = Some (1, s')
    /\ System.out_file s' = System.out_file s
    /\ System.bdrv_states s' = System.bdrv_states s
    /\ System.total_blocks s' = System.total_blocks s
    /\ BlkMigState.transferred (System.block_mig_state s')
       = BlkMigState.transferred (System.block_mig_state s)
    /\ (System.aio_requests s' = System.aio_requests s \/ System.aio_requests s' = []).
Proof.
  intros Hc Hwf Hclean. unfold blk_mig_save_dirty_block.
  erewrite bind_some; [|reflexivity].
  destruct (dirty_foreach_clean is_async Hc
              (seq 0 (length (BlkMigState.bmds_list (System.block_mig_state s)))) s Hwf Hclean)
    as (s' & Hrun & (Q1 & Q2 & Q3 & _ & _ & _ & Q7) & Haio).
  { apply Forall_forall. intros d Hd. apply list_elem_of_In, in_seq in Hd. lia. }
  exists s'. auto 10.
Qed.

End CleanPass.
(** ** The bulk step over all devices *)

Section BulkedBlock.
Context {P : Platform}.





End BulkedBlock.
(** ** Completion *)

Section StreamShape.
Context {P : Platform}.

Lemma block_frames_app (f g : QEMUFile) :
  block_frames f -> block_frames g -> block_frames (f ++ g).
Proof.
  intros Hf Hg. induction Hg as [|g sector name buf z _ IH].
  - rewrite app_nil_r. exact Hf.
  - rewrite app_assoc. constructor. exact IH.
Qed.

(** What [blk_send] adds to the stream: nothing, or one frame. *)
Lemma blk_send_stream (blk : BlkMigBlock.t) (s s' : System.t) :
  blk_send blk s = Some (tt, s') ->
  exists f, System.out_file s' = System.out_file s ++ f /\ block_frames f.
Proof.
  unfold blk_send. munfold. cbn.
  assert (Hone : forall name, block_frames
            (sent_frame (BlkMigBlock.sector blk) name (BlkMigBlock.buf blk)
               (is_zero_blk (BlkMigBlock.buf blk))))
    by (intros name; apply (block_frames_snoc []); constructor).
  destruct (truthy (is_zero_blk _)) eqn:Ez; cbn;
    (destruct (_ !! BlkMigBlock.bmds blk) as [b|]; [|discriminate]); cbn;
    destruct (truthy (BlkMigDevState.bulk_completed b)); cbn;
    destruct (truthy (BlkMigDevState.sparse_enable b)); cbn;
    try (destruct (_ !! BlkMigDevState.bs b) as [drv|]; [|discriminate]); cbn;
    intros [= <-]; cbn.
  all: try (exists []; split; [rewrite app_nil_r; reflexivity | constructor]).
  all: exists (sent_frame (BlkMigBlock.sector blk) (BlockDriverState.device_name drv)
                 (BlkMigBlock.buf blk) (is_zero_blk (BlkMigBlock.buf blk))).
  all: split; [|apply Hone].
  all: unfold sent_frame; rewrite Ez; cbn [negb];
    unfold qemu_fflush, qemu_put_buffer, qemu_put_byte, qemu_put_be64;
    rewrite <- ?app_assoc; reflexivity.
Qed.

Lemma flush_loop_stream (fuel : nat) (s s' : System.t) (r : Z) :
  flush_loop fuel s = Some (r, s') ->
  exists f, System.out_file s' = System.out_file s ++ f /\ block_frames f.
Proof.
  revert s. induction fuel as [|fuel IH]; intros s H; [discriminate|].
  cbn [flush_loop] in H. apply bind_inv in H. destruct H as (st & s0 & [= <- <-] & H).
  destruct (BlkMigState.blk_list (System.block_mig_state s)) as [|blk rest].
  { injection H as _ <-. exists []. rewrite app_nil_r. split; [reflexivity | constructor]. }
  apply bind_inv in H. destruct H as (sg & s0 & [= <- <-] & H).
  destruct (qemu_file_rate_limit _).
  { injection H as _ <-. exists []. rewrite app_nil_r. split; [reflexivity | constructor]. }
  destruct (_ <? 0).
  { injection H as _ <-. exists []. rewrite app_nil_r. split; [reflexivity | constructor]. }
  apply bind_inv in H. destruct H as ([] & s1 & H1 & H).
  apply blk_send_stream in H1. destruct H1 as (f1 & E1 & F1).
  do 3 (apply bind_inv in H; destruct H as ([] & ? & [= <-] & H)).
  apply bind_inv in H. destruct H as (st' & ? & [= <- <-] & H).
  apply bind_inv in H. destruct H as ([] & s2 & H2 & H).
  unfold assert in H2. destruct (0 <=? _); [|discriminate]. injection H2 as <-.
  apply IH in H. destruct H as (f2 & E2 & F2). cbn in E2.
  exists (f1 ++ f2). split; [rewrite E2, E1, app_assoc; reflexivity|].
  apply block_frames_app; assumption.
Qed.

Lemma flush_blks_stream (s s' : System.t) (r : Z) :
  flush_blks s = Some (r, s') ->
  exists f, System.out_file s' = System.out_file s ++ f /\ block_frames f.
Proof.
  unfold flush_blks. intros H. apply bind_inv in H. destruct H as (st & s0 & [= <- <-] & H).
  eapply flush_loop_stream, H.
Qed.

Lemma dirty_scan_stream (d : nat) (a : Z) (fuel : nat) (sector : Z) (s s' : System.t) (r : Z) :
  dirty_scan fuel d a sector s = Some (r, s') ->
  exists f, System.out_file s' = System.out_file s ++ f /\ block_frames f.
Proof.
  revert sector s. induction fuel as [|fuel IH]; intros sector s H; [discriminate|].
  assert (Hnil : forall s0 : System.t, exists f, System.out_file s0 = System.out_file s0 ++ f
                                                 /\ block_frames f).
  { intros s0. exists []. rewrite app_nil_r. split; [reflexivity | constructor]. }
  cbn [dirty_scan] in H.
  apply bind_inv in H. destruct H as (b & s0 & H0 & H).
  apply get_bmds_inv in H0. destruct H0 as [Hb ->].
  destruct (sector <? BlkMigDevState.total_sectors b).
  2:{ apply bind_inv in H. destruct H as (b1 & s1 & H1 & H).
      apply get_bmds_inv in H1. destruct H1 as [_ ->]. injection H as _ <-. apply Hnil. }
  apply bind_inv in H. destruct H as (v & s1 & H1 & H).
  rewrite bmds_aio_inflight_eq, Hb in H1.
  destruct (System.bdrv_states s !! BlkMigDevState.bs b); [|discriminate].
  injection H1 as _ <-.
  apply bind_inv in H. destruct H as ([] & s2 & H2 & H).
  assert (E2 : System.out_file s2 = System.out_file s).
  { unfold when in H2. destruct (truthy _).
    - apply quiet_drain in H2. destruct H2 as (_ & E & _). exact E.
    - injection H2 as <-. reflexivity. }
  clear H2. apply bind_inv in H. destruct H as (is_dirty & s3 & H3 & H).
  rewrite bdrv_get_dirty_eq in H3.
  destruct (System.bdrv_states s2 !! BlkMigDevState.bs b); [|discriminate].
  injection H3 as _ <-.
  destruct is_dirty.
  2:{ apply bind_inv in H. destruct H as ([] & s4 & H4 & H).
      rewrite set_bmds_eq in H4.
      destruct (BlkMigState.bmds_list (System.block_mig_state s2) !! d); [|discriminate].
      injection H4 as <-. apply IH in H. cbn in H. rewrite E2 in H. exact H. }
  apply bind_inv in H. destruct H as (err & s4 & H4 & H).
  assert (E4 : exists f, System.out_file s4 = System.out_file s2 ++ f /\ block_frames f).
  { destruct (truthy a).
    - apply async_submit_post in H4. destruct H4 as (_ & _ & E & _).
      rewrite E. apply Hnil.
    - apply bind_inv in H4. destruct H4 as (rd & s5 & H5 & H4).
      rewrite bdrv_read_eq in H5.
      destruct (System.bdrv_states s2 !! BlkMigDevState.bs b); [|discriminate].
      injection H5 as <- <-.
      destruct (_ <? 0); [injection H4 as _ <-; apply Hnil|].
      apply bind_inv in H4. destruct H4 as ([] & s5 & H5 & H4). injection H4 as _ <-.
      eapply blk_send_stream, H5. }
  clear H4. destruct E4 as (f & E4 & F4). rewrite E2 in E4.
  destruct err as [e|].
  { injection H as _ <-. eauto. }
  apply bind_inv in H. destruct H as ([] & s5 & H5 & H).
  rewrite bdrv_reset_dirty_eq in H5.
  destruct (System.bdrv_states s4 !! BlkMigDevState.bs b); [|discriminate].
  injection H5 as <-.
  apply bind_inv in H. destruct H as (b5 & s6 & H6 & H).
  apply get_bmds_inv in H6. destruct H6 as [_ ->]. injection H as _ <-. cbn. eauto.
Qed.

Lemma dirty_foreach_stream (ds : list nat) (a r0 : Z) (s s' : System.t) (r : Z) :
  dirty_foreach ds a r0 s = Some (r, s') ->
  exists f, System.out_file s' = System.out_file s ++ f /\ block_frames f.
Proof.
  revert r0 s. induction ds as [|d ds IH]; intros r0 s H; cbn [dirty_foreach] in H.
  - injection H as _ <-. exists []. rewrite app_nil_r. split; [reflexivity | constructor].
  - apply bind_inv in H. destruct H as (rd & s1 & H1 & H).
    unfold mig_save_device_dirty in H1. apply bind_inv in H1.
    destruct H1 as (b & s0 & H0 & H1). apply get_bmds_inv in H0. destruct H0 as [_ ->].
    apply dirty_scan_stream in H1. destruct H1 as (f1 & E1 & F1).
    destruct (rd <=? 0); [injection H as _ <-; eauto|].
    apply IH in H. destruct H as (f2 & E2 & F2).
    exists (f1 ++ f2). split; [rewrite E2, E1, app_assoc; reflexivity|].
    apply block_frames_app; assumption.
Qed.

Lemma complete_loop_stream (fuel : nat) (s s' : System.t) (r : Z) :
  complete_loop fuel s = Some (r, s') ->
  r <> 0 /\ exists f, System.out_file s' = System.out_file s ++ f /\ block_frames f.
Proof.
  revert s. induction fuel as [|fuel IH]; intros s H; [discriminate|].
  cbn [complete_loop] in H. apply bind_inv in H. destruct H as (rd & s1 & H1 & H).
  unfold blk_mig_save_dirty_block in H1. apply bind_inv in H1.
  destruct H1 as (st & s0 & [= <- <-] & H1).
  apply dirty_foreach_stream in H1. destruct H1 as (f1 & E1 & F1).
  destruct (Z.eqb_spec rd 0) as [E|E].
  - apply IH in H. destruct H as (Hr & f2 & E2 & F2). split; [exact Hr|].
    exists (f1 ++ f2). split; [rewrite E2, E1, app_assoc; reflexivity|].
    apply block_frames_app; assumption.
  - injection H as <- <-. split; [exact E | eauto].
Qed.

Lemma foldr_out_file {A : Type} (G : A -> M unit -> M unit) (l : list A) (s s' : System.t) :
  (forall x k s1 s2, G x k s1 = Some (tt, s2) ->
     exists s3, System.out_file s3 = System.out_file s1 /\ k s3 = Some (tt, s2)) ->
  foldr G (ret tt) l s = Some (tt, s') ->
  System.out_file s' = System.out_file s.
Proof.
  intros HG. revert s. induction l as [|x l IH]; intros s H; cbn [foldr] in H.
  - injection H as <-. reflexivity.
  - apply HG in H. destruct H as (s3 & E3 & H). apply IH in H. congruence.
Qed.

Lemma set_bs_then (i : nat) (h : BlockDriverState.t -> BlockDriverState.t) (k : M unit)
      (s1 s2 : System.t) :
  (set_bs i h ;;; k) s1 = Some (tt, s2) ->
  exists s3, System.out_file s3 = System.out_file s1 /\ k s3 = Some (tt, s2).
Proof.
  intros H. apply bind_inv in H. destruct H as ([] & s3 & H3 & H).
  rewrite set_bs_eq in H3. destruct (System.bdrv_states s1 !! i); [|discriminate].
  injection H3 as <-. eexists. split; [|exact H]. reflexivity.
Qed.

(** What [blk_mig_cleanup] leaves. *)
Lemma blk_mig_cleanup_inv (s s' : System.t) :
  blk_mig_cleanup s = Some (tt, s') ->
  BlkMigState.bmds_list (System.block_mig_state s') = []
  /\ BlkMigState.blk_list (System.block_mig_state s') = []
  /\ System.out_file s' = System.out_file s.
Proof.
  unfold blk_mig_cleanup. intros H.
  apply bind_inv in H. destruct H as ([] & s1 & H1 & H).
  apply quiet_drain in H1. destruct H1 as (_ & E1 & _).
  apply bind_inv in H. destruct H as ([] & s2 & H2 & H).
  unfold set_dirty_tracking in H2. apply bind_inv in H2.
  destruct H2 as (st & s0 & [= <- <-] & H2).
  apply (foldr_out_file (fun b k => bdrv_set_dirty_tracking (BlkMigDevState.bs b) 0 ;;; k))
    in H2; [|intros x k s3 s4; apply set_bs_then].
  apply bind_inv in H. destruct H as (st & s0 & [= <- <-] & H).
  apply bind_inv in H. destruct H as ([] & s3 & H3 & H).
  apply (foldr_out_file
           (fun b k => bdrv_set_in_use (BlkMigDevState.bs b) 0 ;;;
                       drive_put_ref (BlkMigDevState.bs b) ;;; k)) in H3.
  2:{ intros x k s4 s5 H4. apply set_bs_then in H4. destruct H4 as (s6 & E6 & H4).
      apply set_bs_then in H4. destruct H4 as (s7 & E7 & H4). exists s7. split; congruence. }
  apply bind_inv in H. destruct H as ([] & s4 & [= <-] & H). injection H as <-.
  cbn. repeat split; congruence.
Qed.

End StreamShape.

Section CompleteTheorem.
Context {P : Platform}.

(** X14: whenever [block_save_complete] returns, it returns a value other
    than 0 and the engine is torn down (no device state, no block queued):
    the loop over the dirty chunks ends only on a value other than 0 (1
    for "no more dirty blocks", or the negative code of a failed read),
    and the function returns that value.  All it has put on the stream is
    device-block frames: the progress word for 100 percent and the EOS
    marker that follow the test of the value are never written. *)
Theorem block_save_complete_never_reports (fuel : nat) (s s' : System.t) (r : Z) :
  block_save_complete fuel s = Some (r, s') ->
  r <> 0
  /\ BlkMigState.bmds_list (System.block_mig_state s') = []
  /\ BlkMigState.blk_list (System.block_mig_state s') = []
  /\ exists f, System.out_file s' = System.out_file s ++ f /\ block_frames f.
Proof.
  unfold block_save_complete. intros H.
  apply bind_inv in H. destruct H as (r1 & s1 & H1 & H).
  apply flush_blks_stream in H1. destruct H1 as (f1 & E1 & F1).
  destruct (truthy r1) eqn:Er1.
  { apply bind_inv in H. destruct H as ([] & s2 & H2 & H). injection H as <- <-.
    apply blk_mig_cleanup_inv in H2. destruct H2 as (A1 & A2 & A3).
    split; [intros ->; discriminate|]. split; [exact A1|]. split; [exact A2|].
    exists f1. split; [congruence | exact F1]. }
  apply bind_inv in H. destruct H as ([] & s2 & [= <-] & H).
  apply bind_inv in H. destruct H as (st & s3 & [= <- <-] & H).
  apply bind_inv in H. destruct H as ([] & s4 & H4 & H).
  unfold assert in H4. destruct (_ =? 0); [|discriminate]. injection H4 as <-.
  apply bind_inv in H. destruct H as (r2 & s5 & H5 & H).
  apply complete_loop_stream in H5. destruct H5 as (Hr2 & f2 & E2 & F2). cbn in E2.
  apply bind_inv in H. destruct H as ([] & s6 & H6 & H).
  apply blk_mig_cleanup_inv in H6. destruct H6 as (A1 & A2 & A3).
  assert (Ht : truthy r2 = true) by (unfold truthy; apply negb_true_iff, Z.eqb_neq, Hr2).
  rewrite Ht in H. injection H as <- <-.
  split; [exact Hr2|]. split; [exact A1|]. split; [exact A2|].
  exists (f1 ++ f2). split; [rewrite A3, E2, E1, app_assoc; reflexivity|].
  apply block_frames_app; assumption.
Qed.

End CompleteTheorem.
(** ** The receiver on arbitrary streams *)

Section LoadRuns.
Context {P : Platform}.

Lemma reads_on_refl (s : System.t) : reads_on s s.
Proof.
  split; [reflexivity|]. split; [lia|]. split; [tauto|].
  exists []. rewrite app_nil_r. reflexivity.
Qed.

Lemma reads_on_trans (s1 s2 s3 : System.t) :
  reads_on s1 s2 -> reads_on s2 s3 -> reads_on s1 s3.
Proof.
  intros (A1 & A2 & A3 & ws1 & A4) (B1 & B2 & B3 & ws2 & B4).
  split; [congruence|]. split; [lia|]. split; [tauto|].
  exists (ws1 ++ ws2). rewrite B4, A4, app_assoc. reflexivity.
Qed.

(** A byte is always delivered; without an error of the transport it was
    taken from the stream. *)
Lemma qemu_get_byte_total (s : System.t) :
  exists b s',
    qemu_get_byte s = Some (b, s')
    /\ reads_on s s'
    /\ (InFile.last_error (System.in_file s') = 0 ->
        S (length (InFile.pending (System.in_file s')))
        = length (InFile.pending (System.in_file s))).
Proof.
  unfold qemu_get_byte, set_in_error. munfold.
  destruct (InFile.pending (System.in_file s)) as [|x rest] eqn:E.
  - eexists _, _. split; [reflexivity|]. cbn. rewrite E.
    split.
    + split; [reflexivity|]. split; [cbn; rewrite E; lia|]. split.
      * cbn. destruct (Z.eqb_spec (InFile.last_error (System.in_file s)) 0); [|tauto].
        unfold EIO. lia.
      * exists []. rewrite app_nil_r. reflexivity.
    + destruct (Z.eqb_spec (InFile.last_error (System.in_file s)) 0); [|tauto].
      unfold EIO. lia.
  - eexists _, _. split; [reflexivity|]. cbn.
    split; [|reflexivity].
    split; [reflexivity|]. split; [cbn; rewrite E; cbn; lia|]. split; [cbn; tauto|].
    exists []. rewrite app_nil_r. reflexivity.
Qed.

Lemma qemu_get_bytes_total (n : nat) (s : System.t) :
  exists bs s',
    qemu_get_bytes n s = Some (bs, s')
    /\ reads_on s s'
    /\ (InFile.last_error (System.in_file s') = 0 ->
        (length (InFile.pending (System.in_file s')) + n
         = length (InFile.pending (System.in_file s)))%nat).
Proof.
  revert s. induction n as [|n IH]; intros s.
  - eexists _, _. split; [reflexivity|]. split; [apply reads_on_refl | lia].
  - destruct (qemu_get_byte_total s) as (b & s1 & H1 & R1 & L1).
    destruct (IH s1) as (bs & s2 & H2 & R2 & L2).
    eexists _, _. cbn [qemu_get_bytes].
    rewrite (bind_some _ _ _ _ _ H1), (bind_some _ _ _ _ _ H2).
    split; [reflexivity|]. split; [eapply reads_on_trans; eassumption|].
    intros E. specialize (L2 E). destruct R2 as (_ & _ & R2 & _).
    specialize (L1 (R2 E)). lia.
Qed.

Lemma qemu_get_buffer_total (buf : list Z) (size : Z) (s : System.t) :
  exists got s', qemu_get_buffer buf size s = Some (got, s') /\ reads_on s s'.
Proof.
  unfold qemu_get_buffer, set_in_error. munfold.
  destruct (_ <? size); eexists _, _; (split; [reflexivity|]); cbn;
    (split; [reflexivity|]); (split; [cbn; rewrite length_drop; lia|]);
    (split; [|exists []; rewrite app_nil_r; reflexivity]); cbn; try tauto.
  destruct (Z.eqb_spec (InFile.last_error (System.in_file s)) 0); [|tauto].
  unfold EIO. lia.
Qed.

Lemma find_device_lookup (states : list BlockDriverState.t) (name : list Z) (i : nat) :
  find_device states name = Some i -> is_Some (states !! i).
Proof.
  unfold find_device. intros H.
  destruct (list_find _ states) as [[j b]|] eqn:E; [|discriminate].
  injection H as <-. apply list_find_Some in E. destruct E as (E & _). eauto.
Qed.

(** One pass through the body of the loop always comes to an end.  When it
    leads to another pass, the transport has reported no error, so the
    eight bytes of the header word were all there. *)
Lemma block_load_body_total (l : LoadLocals.t) (s : System.t) :
  exists step s',
    block_load_body l s = Some (step, s')
    /\ reads_on s s'
    /\ match step with
       | Return r => r <> 0
       | Again _ _ =>
           InFile.last_error (System.in_file s') = 0
           /\ (length (InFile.pending (System.in_file s')) + 8
               <= length (InFile.pending (System.in_file s)))%nat
       end.
Proof.
  unfold block_load_body, qemu_get_be64.
  destruct (qemu_get_bytes_total 8 s) as (bs8 & s1 & H1 & R1 & L1).
  rewrite (bind_some _ (fun w => _) s s1 (be_value 0 bs8))
    by (rewrite (bind_some _ _ _ _ _ H1); reflexivity).
  match goal with |- context [Z.land ?f BLK_MIG_FLAG_DEVICE_BLOCK] => set (fl := f) end.
  match goal with |- context [bdrv_write _ ?a _ _] => set (addr := a) end.
  (* the part of the body before the test of the transport *)
  assert (Hstep : exists step s2,
    (if truthy (Z.land fl BLK_MIG_FLAG_DEVICE_BLOCK) then
       len <- qemu_get_byte ;;
       name <- qemu_get_buffer (LoadLocals.device_name l) len ;;
       let device_name := <[Z.to_nat len := 0]> name in
       found <- bdrv_find device_name ;;
       match found with
       | None => ret (Return (- EINVAL))
       | Some bs =>
           len_or_err <-
             (if negb (bool_decide (Some bs = LoadLocals.bs_prev l)) then
                n <- bdrv_getlength bs ;;
                let total_sectors := Z.shiftr n BDRV_SECTOR_BITS in
                if total_sectors <=? 0 then ret None
                else ret (Some (Some bs, total_sectors))
              else ret (Some (LoadLocals.bs_prev l, LoadLocals.total_sectors l))) ;;
           match len_or_err with
           | None => ret (Return (- EINVAL))
           | Some (bs_prev, total_sectors) =>
               let nr_sectors :=
                 if total_sectors - addr <? BDRV_SECTORS_PER_DIRTY_CHUNK
                 then to_int (total_sectors - addr)
                 else BDRV_SECTORS_PER_DIRTY_CHUNK in
               buf <-
                 (if truthy (Z.land fl BLK_MIG_FLAG_ZERO_BLOCK) then
                    ret (if negb (truthy (LoadLocals.buf_is_zeroed l))
                         then replicate (Z.to_nat BLOCK_SIZE) 0
                                ++ drop (Z.to_nat BLOCK_SIZE) (LoadLocals.buf l)
                         else LoadLocals.buf l, 1)
                  else
                    b <- qemu_get_buffer (LoadLocals.buf l) BLOCK_SIZE ;;
                    ret (b, 0)) ;;
               r <- bdrv_write bs addr (fst buf) nr_sectors ;;
               if r <? 0 then ret (Return r)
               else ret (Again (LoadLocals.mk device_name bs_prev (fst buf)
                                  total_sectors (snd buf)) fl)
           end
       end
     else if truthy (Z.land fl BLK_MIG_FLAG_PROGRESS) then
       ret (Again l fl)
     else if negb (truthy (Z.land fl BLK_MIG_FLAG_EOS)) then
       ret (Return (- EINVAL))
     else ret (Again l fl)) s1 = Some (step, s2)
    /\ reads_on s1 s2
    /\ match step with Return r => r <> 0 | Again _ _ => True end).
  { destruct (truthy (Z.land fl BLK_MIG_FLAG_DEVICE_BLOCK)).
    2:{ destruct (truthy (Z.land fl BLK_MIG_FLAG_PROGRESS)).
        - eexists _, _. split; [reflexivity|]. split; [apply reads_on_refl | exact I].
        - destruct (truthy (Z.land fl BLK_MIG_FLAG_EOS)); cbn [negb];
            eexists _, _; (split; [reflexivity|]); (split; [apply reads_on_refl|]);
            [exact I | unfold EINVAL; lia]. }
    destruct (qemu_get_byte_total s1) as (len & s2 & H2 & R2 & _).
    rewrite (bind_some _ _ _ _ _ H2).
    destruct (qemu_get_buffer_total (LoadLocals.device_name l) len s2) as (name & s3 & H3 & R3).
    rewrite (bind_some _ _ _ _ _ H3).
    pose proof (reads_on_trans _ _ _ R2 R3) as R13.
    assert (Hfind : bdrv_find (<[Z.to_nat len:=0]> name) s3
                    = Some (find_device (System.bdrv_states s3) (<[Z.to_nat len:=0]> name), s3))
      by reflexivity.
    rewrite (bind_some _ _ _ _ _ Hfind). clear Hfind.
    destruct (find_device (System.bdrv_states s3) (<[Z.to_nat len:=0]> name)) as [bs|] eqn:Ef.
    2:{ eexists _, _. split; [reflexivity|]. split; [exact R13 | unfold EINVAL; lia]. }
    apply find_device_lookup in Ef. destruct Ef as [b Eb].
    assert (Hloe : exists loe,
      (if negb (bool_decide (Some bs = LoadLocals.bs_prev l)) then
         n <- bdrv_getlength bs ;;
         let total_sectors := Z.shiftr n BDRV_SECTOR_BITS in
         if total_sectors <=? 0 then ret None
         else ret (Some (Some bs, total_sectors))
       else ret (Some (LoadLocals.bs_prev l, LoadLocals.total_sectors l))) s3
      = Some (loe, s3)).
    { destruct (negb _); [|eexists; reflexivity].
      unfold bdrv_getlength, get_bs, bind, get, ret. rewrite Eb.
      destruct (_ <=? 0); eexists; reflexivity. }
    destruct Hloe as (loe & Hloe). rewrite (bind_some _ _ _ _ _ Hloe).
    destruct loe as [[bp ts]|].
    2:{ eexists _, _. split; [reflexivity|]. split; [exact R13 | unfold EINVAL; lia]. }
    assert (Hbuf : exists buf s4,
      (if truthy (Z.land fl BLK_MIG_FLAG_ZERO_BLOCK) then
         ret (if negb (truthy (LoadLocals.buf_is_zeroed l))
              then replicate (Z.to_nat BLOCK_SIZE) 0
                     ++ drop (Z.to_nat BLOCK_SIZE) (LoadLocals.buf l)
              else LoadLocals.buf l, 1)
       else
         b <- qemu_get_buffer (LoadLocals.buf l) BLOCK_SIZE ;;
         ret (b, 0)) s3 = Some (buf, s4) /\ reads_on s3 s4).
    { destruct (truthy (Z.land fl BLK_MIG_FLAG_ZERO_BLOCK)).
      - eexists _, _. split; [reflexivity | apply reads_on_refl].
      - destruct (qemu_get_buffer_total (LoadLocals.buf l) BLOCK_SIZE s3)
          as (got & s4 & H4 & R4).
        rewrite (bind_some _ _ _ _ _ H4). eexists _, _. split; [reflexivity | exact R4]. }
    destruct Hbuf as (buf & s4 & H4 & R4). rewrite (bind_some _ _ _ _ _ H4).
    pose proof (reads_on_trans _ _ _ R13 R4) as R14.
    assert (Eb4 : System.bdrv_states s4 !! bs = Some b)
      by (destruct R4 as (E & _); rewrite E; exact Eb).
    match goal with |- context [bdrv_write bs addr (fst buf) ?n] => set (nr := n) end.
    pose proof (bdrv_write_eq bs addr (fst buf) nr s4) as Hw. rewrite Eb4 in Hw.
    rewrite (bind_some _ _ _ _ _ Hw).
    assert (R5 : reads_on s1
              (System.set_bdrv_writes
                 (System.bdrv_writes s4 ++
                    [WriteCall.mk bs addr nr
                       (take (Z.to_nat (nr * BDRV_SECTOR_SIZE)) (fst buf))]) s4)).
    { eapply reads_on_trans; [exact R14|].
      split; [reflexivity|]. split; [cbn; lia|]. split; [cbn; tauto|].
      eexists. reflexivity. }
    destruct (Z.ltb_spec (BlockDriverState.write_result b addr nr) 0).
    - eexists _, _. split; [reflexivity|]. split; [exact R5 | lia].
    - eexists _, _. split; [reflexivity|]. split; [exact R5 | exact I]. }
  destruct Hstep as (step & s2 & H2 & R2 & Hr).
  rewrite (bind_some _ _ _ _ _ H2).
  pose proof (reads_on_trans _ _ _ R1 R2) as R12.
  destruct step as [l2 f2 | r].
  2:{ eexists _, _. split; [reflexivity|]. split; [exact R12 | exact Hr]. }
  unfold qemu_file_get_error. munfold.
  destruct (Z.eqb_spec (InFile.last_error (System.in_file s2)) 0) as [E|E]; cbn [negb].
  - eexists _, _. split; [reflexivity|]. split; [exact R12|]. split; [exact E|].
    destruct R2 as (_ & R2a & R2b & _). specialize (L1 (R2b E)). lia.
  - eexists _, _. split; [reflexivity|]. split; [exact R12 | exact E].
Qed.

Lemma block_load_loop_total (fuel : nat) (l : LoadLocals.t) (s : System.t) :
  (length (InFile.pending (System.in_file s)) < fuel)%nat ->
  exists r s',
    block_load_loop fuel l s = Some (r, s')
    /\ reads_on s s'
    /\ (r = 0 ->
        InFile.last_error (System.in_file s') = 0
        /\ (length (InFile.pending (System.in_file s')) + 8
            <= length (InFile.pending (System.in_file s)))%nat).
Proof.
  revert l s. induction fuel as [|fuel IH]; intros l s Hf; [lia|].
  cbn [block_load_loop].
  destruct (block_load_body_total l s) as (step & s1 & H1 & R1 & Hs).
  rewrite (bind_some _ _ _ _ _ H1).
  destruct step as [l1 f1 | r].
  2:{ eexists _, _. split; [reflexivity|]. split; [exact R1 | intros ->; contradiction]. }
  destruct Hs as (E1 & L1).
  destruct (truthy (Z.land f1 BLK_MIG_FLAG_EOS)); cbn [negb].
  - eexists _, _. split; [reflexivity|]. split; [exact R1|]. intros _. split; assumption.
  - destruct (IH l1 s1 ltac:(lia)) as (r & s2 & H2 & R2 & Hr).
    eexists _, _. split; [exact H2|]. split; [eapply reads_on_trans; eassumption|].
    intros E. destruct (Hr E) as (E2 & L2). split; [exact E2 | lia].
Qed.

End LoadRuns.

Section LoadTheorems.
Context {P : Platform}.

(** X15: [block_load] comes to an end on every incoming stream, whatever
    its bytes and wherever it is cut off: every pass through the loop that
    leads to another one has taken the eight bytes of a header word from
    the stream.  It leaves the devices as they are, only adds calls of
    [bdrv_write], and returns 0 only if the transport has reported no
    error and at least one whole header word was read. *)
Theorem block_load_always_returns (stack heap : list Z) (s : System.t) :
  exists r s',
    block_load stack heap s = Some (r, s')
    /\ reads_on s s'
    /\ (r = 0 ->
        InFile.last_error (System.in_file s') = 0
        /\ (length (InFile.pending (System.in_file s')) + 8
            <= length (InFile.pending (System.in_file s)))%nat).
Proof.
  unfold block_load. unfold bind at 1. unfold get at 1.
  apply block_load_loop_total. lia.
Qed.

End LoadTheorems.
(** ** The receiver on markers and on frames it cannot place *)

Section LoadEdges.
Context {P : Platform}.

Lemma flags_of_low (h fl : Z) :
  0 <= BDRV_SECTOR_BITS ->
  0 <= fl < 2 ^ BDRV_SECTOR_BITS ->
  Z.land h (Z.lnot BDRV_SECTOR_MASK) = (h mod 2 ^ BDRV_SECTOR_BITS).
Proof.
  intros Hb Hf. unfold BDRV_SECTOR_MASK. rewrite Z.lnot_involutive.
  unfold BDRV_SECTOR_SIZE.
  change (Z.shiftl 1 BDRV_SECTOR_BITS - 1) with (Z.ones BDRV_SECTOR_BITS).
  apply Z.land_ones. exact Hb.
Qed.

Lemma progress_decode (p : Z) :
  3 <= BDRV_SECTOR_BITS ->
  0 <= p ->
  Z.shiftl (p + 1) BDRV_SECTOR_BITS <= 2 ^ 63 ->
  let h := Z.lor (Z.shiftl p BDRV_SECTOR_BITS) BLK_MIG_FLAG_PROGRESS in
  0 <= h < 2 ^ 63 /\ Z.land h (Z.lnot BDRV_SECTOR_MASK) = BLK_MIG_FLAG_PROGRESS.
Proof.
  intros Hb Hp Hfit h.
  assert (H8 : 8 <= 2 ^ BDRV_SECTOR_BITS)
    by (change 8 with (2 ^ 3); apply Z.pow_le_mono_r; lia).
  rewrite Z.shiftl_mul_pow2 in Hfit by lia.
  assert (Hh : h = p * 2 ^ BDRV_SECTOR_BITS + 4).
  { unfold h. rewrite lor_disjoint_add
      by (apply land_shiftl_low; unfold BLK_MIG_FLAG_PROGRESS; lia).
    rewrite Z.shiftl_mul_pow2 by lia. reflexivity. }
  split; [rewrite Hh; nia|].
  rewrite (flags_of_low h 4) by lia. rewrite Hh.
  rewrite Z.add_comm, Z.mod_add by lia. unfold BLK_MIG_FLAG_PROGRESS.
  apply Z.mod_small. lia.
Qed.

Lemma with_pending_twice (a b : list Z) (s : System.t) :
  with_pending a (with_pending b s) = with_pending a s.
Proof. reflexivity. Qed.

(** A pass through the body on a header word that carries PROGRESS or EOS
    and not DEVICE_BLOCK. *)
Lemma block_load_body_marker (l : LoadLocals.t) (s : System.t) (h fl : Z) (rest : list Z) :
  0 <= h < 2 ^ 63 ->
  Z.land h (Z.lnot BDRV_SECTOR_MASK) = fl ->
  fl = BLK_MIG_FLAG_PROGRESS \/ fl = BLK_MIG_FLAG_EOS ->
  InFile.pending (System.in_file s) = be_bytes 8 (h mod 2 ^ 64) ++ rest ->
  InFile.last_error (System.in_file s) = 0 ->
  block_load_body l s = Some (Again l fl, with_pending rest s).
Proof.
  intros Hh Hfl Hcase Hp He. unfold block_load_body.
  rewrite (bind_some _ _ _ _ _ (qemu_get_be64_ok s h rest ltac:(lia) Hp)).
  rewrite to_int64_small by lia. rewrite Hfl.
  unfold qemu_file_get_error.
  destruct Hcase as [-> | ->].
  - change (truthy (Z.land (to_int BLK_MIG_FLAG_PROGRESS) BLK_MIG_FLAG_DEVICE_BLOCK))
      with false.
    change (truthy (Z.land (to_int BLK_MIG_FLAG_PROGRESS) BLK_MIG_FLAG_PROGRESS)) with true.
    cbv iota. munfold. cbn. rewrite He. reflexivity.
  - change (truthy (Z.land (to_int BLK_MIG_FLAG_EOS) BLK_MIG_FLAG_DEVICE_BLOCK)) with false.
    change (truthy (Z.land (to_int BLK_MIG_FLAG_EOS) BLK_MIG_FLAG_PROGRESS)) with false.
    change (truthy (Z.land (to_int BLK_MIG_FLAG_EOS) BLK_MIG_FLAG_EOS)) with true.
    cbv iota. munfold. cbn. rewrite He. reflexivity.
Qed.

Lemma progress_reports_app (pcts : list Z) (f : QEMUFile) :
  progress_reports pcts f = f ++ progress_reports pcts [].
Proof.
  revert f. induction pcts as [|p ps IH]; intros f; cbn [progress_reports].
  - rewrite app_nil_r. reflexivity.
  - rewrite IH. rewrite (IH (qemu_put_be64 [] _)). unfold qemu_put_be64.
    rewrite app_assoc. reflexivity.
Qed.

Lemma block_load_loop_markers (pcts : list Z) (fuel : nat) (l : LoadLocals.t)
      (s : System.t) (rest : list Z) :
  3 <= BDRV_SECTOR_BITS ->
  Forall (fun p => 0 <= p /\ Z.shiftl (p + 1) BDRV_SECTOR_BITS <= 2 ^ 63) pcts ->
  (length pcts < fuel)%nat ->
  InFile.pending (System.in_file s)
  = bytes_of (progress_reports pcts []) ++ be_bytes 8 (BLK_MIG_FLAG_EOS mod 2 ^ 64) ++ rest ->
  InFile.last_error (System.in_file s) = 0 ->
  block_load_loop fuel l s = Some (0, with_pending rest s).
Proof.
  intros Hb Hps. revert fuel s. induction Hps as [|p ps [Hp Hfit] _ IH]; intros fuel s Hf Hpend He.
  - destruct fuel as [|fuel]; [cbn in Hf; lia|]. cbn [block_load_loop].
    cbn [progress_reports bytes_of app] in Hpend.
    assert (H4 : 4 <= 2 ^ BDRV_SECTOR_BITS)
      by (change 4 with (2 ^ 2); apply Z.pow_le_mono_r; lia).
    erewrite bind_some.
    2:{ apply (block_load_body_marker l s BLK_MIG_FLAG_EOS BLK_MIG_FLAG_EOS rest).
        - unfold BLK_MIG_FLAG_EOS. lia.
        - rewrite (flags_of_low _ 2) by lia. apply Z.mod_small.
          unfold BLK_MIG_FLAG_EOS. lia.
        - right. reflexivity.
        - exact Hpend.
        - exact He. }
    reflexivity.
  - destruct fuel as [|fuel]; [cbn in Hf; lia|]. cbn [block_load_loop].
    cbn [progress_reports] in Hpend. rewrite progress_reports_app in Hpend.
    unfold qemu_put_be64 in Hpend. cbn [app] in Hpend.
    rewrite bytes_of_app, bytes_of_map_Put, <- app_assoc in Hpend.
    destruct (progress_decode p Hb Hp Hfit) as (Hh & Hfl).
    erewrite bind_some.
    2:{ apply (block_load_body_marker l s _ BLK_MIG_FLAG_PROGRESS _ Hh Hfl
                 (or_introl eq_refl) Hpend He). }
    cbn [BLK_MIG_FLAG_PROGRESS BLK_MIG_FLAG_EOS Z.land Pos.land truthy Z.eqb negb].
    change (truthy (Z.land BLK_MIG_FLAG_PROGRESS BLK_MIG_FLAG_EOS)) with false. cbn [negb].
    rewrite (IH fuel (with_pending _ s)); [reflexivity | cbn in Hf; lia | reflexivity | exact He].
Qed.

(** Reading at the end of the stream. *)
Lemma qemu_get_byte_empty (s : System.t) :
  InFile.pending (System.in_file s) = [] ->
  exists s',
    qemu_get_byte s = Some (0, s')
    /\ InFile.last_error (System.in_file s')
       = (if InFile.last_error (System.in_file s) =? 0 then - EIO
          else InFile.last_error (System.in_file s))
    /\ InFile.pending (System.in_file s') = []
    /\ System.bdrv_writes s' = System.bdrv_writes s
    /\ System.bdrv_states s' = System.bdrv_states s.
Proof.
  intros Hp. unfold qemu_get_byte, set_in_error. munfold. rewrite Hp.
  eexists. split; [reflexivity|]. cbn. rewrite Hp. auto.
Qed.

Lemma qemu_get_bytes_empty (n : nat) (s : System.t) :
  InFile.pending (System.in_file s) = [] ->
  exists s',
    qemu_get_bytes (S n) s = Some (replicate (S n) 0, s')
    /\ InFile.last_error (System.in_file s')
       = (if InFile.last_error (System.in_file s) =? 0 then - EIO
          else InFile.last_error (System.in_file s))
    /\ InFile.pending (System.in_file s') = []
    /\ System.bdrv_writes s' = System.bdrv_writes s
    /\ System.bdrv_states s' = System.bdrv_states s.
Proof.
  revert s. induction n as [|n IH]; intros s Hp.
  - destruct (qemu_get_byte_empty s Hp) as (s1 & H1 & A).
    exists s1. split; [|exact A]. cbn [qemu_get_bytes].
    rewrite (bind_some _ _ _ _ _ H1). reflexivity.
  - destruct (qemu_get_byte_empty s Hp) as (s1 & H1 & E1 & P1 & W1 & D1).
    destruct (IH s1 P1) as (s2 & H2 & E2 & P2 & W2 & D2).
    exists s2. split.
    + change (qemu_get_bytes (S (S n))) with (b <- qemu_get_byte ;;
        bs <- qemu_get_bytes (S n) ;; ret (b :: bs)).
      rewrite (bind_some _ _ _ _ _ H1), (bind_some _ _ _ _ _ H2). reflexivity.
    + split; [|split; [exact P2 | split; congruence]].
      rewrite E2, E1.
      destruct (Z.eqb_spec (InFile.last_error (System.in_file s)) 0) as [E|E].
      * reflexivity.
      * destruct (Z.eqb_spec (InFile.last_error (System.in_file s)) 0); [contradiction|].
        reflexivity.
Qed.

End LoadEdges.

Section LoadEdgeTheorems.
Context {P : Platform}.

(** X16: the receiver passes over progress words and stops at the EOS
    marker: on a stream that starts with the progress words of any
    percentages, as [blk_mig_save_bulked_block] writes them, followed by
    the EOS word that closes a section, [block_load] returns 0, writes to
    no device and leaves the bytes after the marker unread. *)
Theorem block_load_skips_progress_until_eos
        (pcts rest stack heap : list Z) (s : System.t) :
  3 <= BDRV_SECTOR_BITS ->
  Forall (fun p => 0 <= p /\ Z.shiftl (p + 1) BDRV_SECTOR_BITS <= 2 ^ 63) pcts ->
  InFile.pending (System.in_file s)
  = bytes_of (qemu_put_be64 (progress_reports pcts []) BLK_MIG_FLAG_EOS) ++ rest ->
  InFile.last_error (System.in_file s) = 0 ->
  block_load stack heap s = Some (0, with_pending rest s).
Proof.
  intros Hb Hps Hpend He. unfold block_load. unfold bind at 1. unfold get at 1.
  unfold qemu_put_be64 in Hpend. rewrite bytes_of_app, bytes_of_map_Put, <- app_assoc in Hpend.
  apply (block_load_loop_markers pcts); [exact Hb | exact Hps | | exact Hpend | exact He].
  rewrite Hpend, !length_app, be_bytes_length.
  assert (Hl : forall ps, length (bytes_of (progress_reports ps [])) = (8 * length ps)%nat).
  { induction ps as [|q ps IH]; [reflexivity|]. cbn [progress_reports].
    rewrite progress_reports_app. unfold qemu_put_be64. cbn [app].
    rewrite bytes_of_app, bytes_of_map_Put, length_app, be_bytes_length, IH. cbn [length]. lia. }
  rewrite Hl. lia.
Qed.

(** X17: on a stream that has come to its end [block_load] returns
    [-EINVAL], not the error of the transport: the header word reads as 0,
    none of the flags DEVICE_BLOCK, PROGRESS and EOS is set in it, and the
    flags are looked at before the transport is asked for its error.  The
    transport has recorded [-EIO] if it had no error before, and nothing is
    written to a device. *)
Theorem block_load_empty_stream (stack heap : list Z) (s : System.t) :
  InFile.pending (System.in_file s) = [] ->
  exists s',
    block_load stack heap s = Some (- EINVAL, s')
    /\ InFile.last_error (System.in_file s')
       = (if InFile.last_error (System.in_file s) =? 0 then - EIO
          else InFile.last_error (System.in_file s))
    /\ InFile.pending (System.in_file s') = []
    /\ System.bdrv_writes s' = System.bdrv_writes s
    /\ System.bdrv_states s' = System.bdrv_states s.
Proof.
  intros Hp. destruct (qemu_get_bytes_empty 7 s Hp) as (s' & H8 & A).
  exists s'. split; [|exact A].
  unfold block_load. unfold bind at 1. unfold get at 1.
  cbn [block_load_loop]. unfold block_load_body, qemu_get_be64.
  erewrite bind_some.
  2:{ erewrite bind_some; [|erewrite bind_some; [|exact H8]; reflexivity].
      reflexivity. }
  reflexivity.
Qed.

(** X18: a device-block frame for a device the receiver does not have
    makes [block_load] return [-EINVAL] right after the name: nothing is
    written to any device, and the payload of the frame, if it has one, is
    left unread in the stream. *)
Theorem block_load_unknown_device
        (sector : Z) (name buf rest stack heap : list Z) (zero : bool) (s : System.t) :
  4 <= BDRV_SECTOR_BITS ->
  0 <= sector ->
  Z.shiftl (sector + 1) BDRV_SECTOR_BITS <= 2 ^ 63 ->
  strlen name < 256 ->
  Z.of_nat (length buf) = BLOCK_SIZE ->
  length stack = 256%nat ->
  InFile.pending (System.in_file s)
  = bytes_of (sent_frame sector name buf (Z.b2z zero)) ++ rest ->
  find_device (System.bdrv_states s) name = None ->
  block_load stack heap s
  = Some (- EINVAL, with_pending ((if zero then [] else buf) ++ rest) s).
Proof.
  intros Hb Hs Hfit Hname Hbuf Hstack Hpend Hfind.
  rewrite sent_frame_layout in Hpend by assumption.
  unfold device_block_frame in Hpend.
  rewrite !bytes_of_app, !bytes_of_map_Put in Hpend. cbn [bytes_of] in Hpend.
  rewrite <- !app_assoc in Hpend.
  destruct (header_decode sector zero Hb Hs Hfit) as (Hh & Hflags & _).
  set (h := Z.lor (Z.lor (Z.shiftl sector BDRV_SECTOR_BITS) BLK_MIG_FLAG_DEVICE_BLOCK)
                  (if zero then BLK_MIG_FLAG_ZERO_BLOCK else 0)) in *.
  assert (Hh64 : 0 <= h < 2 ^ 64) by lia.
  assert (Hbody : block_load_body (LoadLocals.mk stack None heap 0 0) s
                  = Some (Return (- EINVAL),
                          with_pending ((if zero then [] else buf) ++ rest) s)).
  { unfold block_load_body.
    rewrite (bind_some _ _ _ _ _ (qemu_get_be64_ok s h _ Hh64 Hpend)).
    rewrite to_int64_small by lia. rewrite Hflags.
    replace (truthy (Z.land (to_int (if zero then 9 else 1)) BLK_MIG_FLAG_DEVICE_BLOCK))
      with true by (destruct zero; reflexivity).
    pose proof (strlen_bounds name) as Hsl.
    erewrite bind_some.
    2:{ erewrite bind_some; [|apply qemu_get_byte_ok; cbn; reflexivity].
        erewrite bind_some.
        2:{ apply (qemu_get_buffer_ok _ (c_str name)); [apply c_str_length|].
            cbn. reflexivity. }
        cbn [LoadLocals.device_name].
        erewrite bind_some.
        2:{ unfold bdrv_find. munfold.
            cbn [System.bdrv_states with_pending System.set_in_file].
            rewrite (find_device_c_str _ _ name) by (apply c_str_received; lia).
            rewrite Hfind. reflexivity. }
        reflexivity. }
    destruct zero; cbn [bytes_of]; rewrite ?bytes_of_map_Put; reflexivity. }
  unfold block_load. unfold bind at 1. unfold get at 1.
  cbn [block_load_loop]. rewrite (bind_some _ _ _ _ _ Hbody). reflexivity.
Qed.

End LoadEdgeTheorems.
(** ** The hooks of a section *)

Section Hooks.
Context {P : Platform}.



Lemma registered_bs (shared sparse : Z) (drives : list BlockDriverState.t) (k : nat) :
  Forall (fun i => (i < k + length drives)%nat)
         (map BlkMigDevState.bs (registered shared sparse k drives)).
Proof.
  revert k. induction drives as [|b drives IH]; intros k; cbn [registered]; [constructor|].
  rewrite map_app. apply Forall_app. split.
  - destruct (migratable b); cbn; [|constructor].
    constructor; [lia | constructor].
  - eapply Forall_impl; [apply (IH (S k))|]. cbn. intros i Hi. lia.
Qed.

Lemma occurrences_registered (shared sparse : Z) (drives : list BlockDriverState.t)
      (k i : nat) :
  occurrences i (map BlkMigDevState.bs (registered shared sparse k drives))
  = match drives !! (i - k)%nat with
    | Some b => if (k <=? i)%nat && migratable b then 1%nat else 0%nat
    | None => 0%nat
    end.
Proof.
  revert k. induction drives as [|b drives IH]; intros k; cbn [registered]; [reflexivity|].
  rewrite map_app.
  assert (Happ : forall l1 l2, occurrences i (l1 ++ l2) = (occurrences i l1 + occurrences i l2)%nat).
  { induction l1 as [|j l1 IH1]; intros l2; cbn [app occurrences]; [reflexivity|].
    rewrite IH1. lia. }
  rewrite Happ, IH.
  destruct (Nat.eq_dec i k) as [->|Hne].
  - rewrite Nat.sub_diag. cbn [lookup list_lookup].
    replace (k - S k)%nat with 0%nat by lia.
    replace (S k <=? k)%nat with false by (symmetry; apply Nat.leb_gt; lia).
    rewrite Nat.leb_refl. cbn [andb].
    destruct (migratable b); cbn [map occurrences fresh_bmds BlkMigDevState.bs].
    + rewrite Nat.eqb_refl. destruct (drives !! 0%nat); reflexivity.
    + destruct (drives !! 0%nat); reflexivity.
  - destruct (Nat.leb_spec k i) as [Hle|Hgt].
    + replace (i - k)%nat with (S (i - S k)) by lia. cbn [lookup list_lookup].
      replace (S k <=? i)%nat with true by (symmetry; apply Nat.leb_le; lia).
      destruct (migratable b); cbn [map occurrences fresh_bmds BlkMigDevState.bs]; [|reflexivity].
      replace (k =? i)%nat with false by (symmetry; apply Nat.eqb_neq; lia). reflexivity.
    + replace (S k <=? i)%nat with false by (symmetry; apply Nat.leb_gt; lia).
      cbn [andb].
      assert (Hz : match drives !! (i - S k)%nat with
                   | Some _ => 0%nat | None => 0%nat end = 0%nat)
        by (destruct (drives !! (i - S k)%nat); reflexivity).
      rewrite Hz.
      destruct (migratable b); cbn [map occurrences fresh_bmds BlkMigDevState.bs].
      * replace (k =? i)%nat with false by (symmetry; apply Nat.eqb_neq; lia).
        destruct ((b :: drives) !! (i - k)%nat); reflexivity.
      * destruct ((b :: drives) !! (i - k)%nat); reflexivity.
Qed.

Lemma registered_cursors (shared sparse : Z) (drives : list BlockDriverState.t) (k : nat) :
  map (BlkMigDevState.set_cur_dirty 0) (registered shared sparse k drives)
  = registered shared sparse k drives.
Proof.
  revert k. induction drives as [|b drives IH]; intros k; cbn [registered]; [reflexivity|].
  rewrite map_app, IH. destruct (migratable b); reflexivity.
Qed.

End Hooks.

Section HookTheorems.
Context {P : Platform}.

(** X19: on an idle engine (no device state, no block queued)
    [block_save_setup] returns 0.  It registers the migratable devices as
    [init_blk_migration] does, enables dirty tracking on each of them and
    on no other device, and puts exactly one EOS word on the stream; no
    read is issued and the counters of the pipeline are 0. *)
Theorem block_save_setup_idle (s : System.t) :
  let st := System.block_mig_state s in
  BlkMigState.bmds_list st = [] ->
  BlkMigState.blk_list st = [] ->
  exists s' : System.t,
    let st' := System.block_mig_state s' in
    block_save_setup s = Some (0, s')
    /\ System.out_file s' = qemu_put_be64 (System.out_file s) BLK_MIG_FLAG_EOS
    /\ BlkMigState.bmds_list st'
       = registered (BlkMigState.shared_base st) (BlkMigState.sparse_enable st) 0
           (System.bdrv_states s)
    /\ System.bdrv_states s' = map started (System.bdrv_states s)
    /\ System.aio_requests s' = System.aio_requests s
    /\ BlkMigState.blk_list st' = []
    /\ BlkMigState.submitted st' = 0
    /\ BlkMigState.read_done st' = 0
    /\ BlkMigState.transferred st' = 0
    /\ BlkMigState.bulk_completed st' = 0.
Proof.
  cbv zeta. intros Hd Hq. unfold block_save_setup.
  (* registration *)
  assert (Hinit : exists s1,
    init_blk_migration s = Some (tt, s1)
    /\ System.bdrv_states s1 = map claimed (System.bdrv_states s)
    /\ BlkMigState.bmds_list (System.block_mig_state s1)
       = registered (BlkMigState.shared_base (System.block_mig_state s))
           (BlkMigState.sparse_enable (System.block_mig_state s)) 0 (System.bdrv_states s)
    /\ BlkMigState.bulk_completed (System.block_mig_state s1) = 0
    /\ pipeline s1 = ([], System.aio_requests s, 0, 0, 0)
    /\ System.out_file s1 = System.out_file s).
  { unfold init_blk_migration.
    do 9 (erewrite bind_some; [|reflexivity]).
    unfold bdrv_iterate. erewrite bind_some; [|reflexivity].
    match goal with |- context [foldr _ _ _ ?x] => set (s0 := x) end.
    destruct (init_foreach_registers (System.bdrv_states s) [] s0 eq_refl)
      as (s1 & Hrun & A1 & A2 & _ & _ & _ & _ & A7 & A8 & A9).
    exists s1. split; [exact Hrun|]. cbn in A1, A2, A7, A8, A9.
    rewrite Hd in A2. unfold pipeline in A8 |- *. cbn in A8. rewrite Hq in A8.
    rewrite A1, A2, A7, A8, A9. repeat split; reflexivity. }
  destruct Hinit as (s1 & Hrun1 & B1 & B2 & B3 & B4 & B5).
  rewrite (bind_some _ _ _ _ _ Hrun1).
  (* dirty tracking *)
  set (drives := System.bdrv_states s) in *.
  set (regs := registered (BlkMigState.shared_base (System.block_mig_state s))
                 (BlkMigState.sparse_enable (System.block_mig_state s)) 0 drives) in *.
  destruct (foreach_set_bs (fun i k => bdrv_set_dirty_tracking i 1 ;;; k) tracked
              (map BlkMigDevState.bs regs) s1) as (ds & Hrun2 & Hlen & Hlook).
  { intros i k s0. reflexivity. }
  { rewrite B1, length_map. apply (registered_bs _ _ drives 0). }
  assert (Hds : ds = map started drives).
  { apply list_eq. intros i. rewrite Hlook, B1. unfold regs.
    rewrite occurrences_registered, Nat.sub_0_r, !list_lookup_fmap.
    destruct (drives !! i) as [b|]; [|reflexivity]. cbn.
    unfold started, claimed. destruct (migratable b); reflexivity. }
  erewrite bind_some.
  2:{ unfold set_dirty_tracking. erewrite bind_some; [|reflexivity].
      rewrite B2. rewrite (foldr_over_bs (fun i k => bdrv_set_dirty_tracking i 1 ;;; k)).
      exact Hrun2. }
  unfold pipeline in B4. injection B4 as C1 C2 C3 C4 C5.
  erewrite bind_some; [|apply flush_blks_empty; cbn; exact C1].
  change (truthy 0) with false. cbv iota.
  unfold blk_mig_reset_dirty_cursor, with_file. munfold.
  eexists. split; [reflexivity|]. cbn.
  rewrite B2, B3, B5, C1, C2, C3, C4, C5, Hds. fold regs.
  unfold regs. rewrite registered_cursors. repeat split; reflexivity.
Qed.


End HookTheorems.
(** ** The further properties on the example machines *)

Lemma is_zero_blk_iff_all_zero_witness :
  is_zero_blk (P := Example.tiny) (replicate 31 0 ++ [7]) = 0.
Proof.
  destruct (is_zero_blk_iff_all_zero (P := Example.tiny) (replicate 31 0 ++ [7]))
    as (_ & _ & H).
  - reflexivity.
  - exists 2. reflexivity.
  - apply H. apply Exists_app. right. constructor. discriminate.
Defined.

Lemma bmds_set_aio_inflight_then_test_witness :
  exists s',
    bmds_set_aio_inflight (P := Example.tiny) 0 0 2 1 Example.tiny_started = Some (tt, s')
    /\ bmds_aio_inflight (P := Example.tiny) 0 1 s' = Some (1, s')
    /\ fst <$> bmds_aio_inflight (P := Example.tiny) 0 2 s'
       = fst <$> bmds_aio_inflight (P := Example.tiny) 0 2 Example.tiny_started.
Proof.
  destruct (bmds_set_aio_inflight_then_test (P := Example.tiny) 0 0 2 1 Example.tiny_started
              Session.tiny_dev Session.tiny_drive)
    as (s' & Hset & Hin & Hout).
  - reflexivity.
  - vm_compute. discriminate.
  - reflexivity.
  - reflexivity.
  - lia.
  - lia.
  - vm_compute. discriminate.
  - reflexivity.
  - reflexivity.
  - exists s'. split; [exact Hset|]. split.
    + apply (Hin 1). lia.
    + apply (Hout 2); [lia|]. right. reflexivity.
Defined.


Lemma blk_mig_bytes_exact_witness :
  blk_mig_bytes_total (P := Example.qemu) Example.dirty_2m = Some (2097152, Example.dirty_2m)
  /\ blk_mig_bytes_remaining (P := Example.qemu) Example.dirty_2m
     = Some (0, Example.dirty_2m).
Proof.
  destruct (blk_mig_bytes_exact (P := Example.qemu) Example.dirty_2m) as (H1 & _ & H3 & _).
  - vm_compute. discriminate.
  - repeat constructor; vm_compute; discriminate.
  - reflexivity.
  - split; [exact H1 | exact H3].
Defined.

Lemma mig_save_device_bulk_step_witness :
  exists r s' b',
    mig_save_device_bulk (P := Example.tiny) 0 Example.tiny_started = Some (r, s')
    /\ BlkMigState.bmds_list (System.block_mig_state s') !! 0%nat = Some b'
    /\ System.aio_requests s' = [(0%nat, BlkMigBlock.mk [] 0 0 2 0)]
    /\ BlkMigDevState.cur_sector b' = 2.
Proof.
  destruct (mig_save_device_bulk_step (P := Example.tiny) 0 Example.tiny_started
              Session.tiny_dev 1) as (r & s' & b' & Hrun & Hb' & _ & _ & _ & Hmore & _).
  - lia.
  - reflexivity.
  - reflexivity.
  - reflexivity.
  - reflexivity.
  - reflexivity.
  - vm_compute. discriminate.
  - destruct Hmore as (Hreq & _ & _ & Hcur & _); [reflexivity|].
    exists r, s', b'. split; [exact Hrun|]. split; [exact Hb'|].
    split; [exact Hreq | exact Hcur].
Defined.

Lemma bulk_phase_reads_every_chunk_once_witness :
  exists s',
    bulk_run (P := Example.tiny) 2 0 Example.tiny_started = Some ([0; 1], s')
    /\ System.aio_requests s'
       = [(0%nat, BlkMigBlock.mk [] 0 0 2 0); (0%nat, BlkMigBlock.mk [] 0 2 1 0)].
Proof.
  destruct (bulk_phase_reads_every_chunk_once (P := Example.tiny) 0 Example.tiny_started
              Session.tiny_dev 1) as (s' & b' & Hrun & Hreq & _).
  - lia.
  - reflexivity.
  - reflexivity.
  - reflexivity.
  - reflexivity.
  - reflexivity.
  - reflexivity.
  - reflexivity.
  - exists s'. split; [exact Hrun | exact Hreq].
Defined.

Lemma flush_blks_sends_prefix_witness :
  exists r s' sent,
    flush_blks (P := Example.tiny) Session.two_queued = Some (r, s')
    /\ BlkMigState.blk_list (System.block_mig_state Session.two_queued)
       = sent ++ BlkMigState.blk_list (System.block_mig_state s')
    /\ Forall (fun blk => 0 <= BlkMigBlock.ret blk) sent
    /\ BlkMigState.transferred (System.block_mig_state s') = 1 + Z.of_nat (length sent).
Proof.
  destruct (flush_blks_sends_prefix (P := Example.tiny) Session.two_queued)
    as (r & s' & sent & Hrun & Hq & Hok & Ht & _).
  - repeat constructor.
  - repeat constructor.
  - vm_compute. discriminate.
  - exists r, s', sent. split; [exact Hrun|]. split; [exact Hq|]. split; [exact Hok | exact Ht].
Defined.

Lemma blk_mig_cleanup_releases_witness :
  exists s',
    blk_mig_cleanup (P := Example.tiny) Example.tiny_started = Some (tt, s')
    /\ BlkMigState.bmds_list (System.block_mig_state s') = []
    /\ System.bdrv_states s' = System.bdrv_states Example.tiny_machine.
Proof.
  destruct (blk_mig_cleanup_releases (P := Example.tiny) Example.tiny_started)
    as (s' & _ & Hrun & Hd & _ & _ & _ & _ & Hdrv).
  - reflexivity.
  - exists s'. split; [exact Hrun|]. split; [exact Hd|]. rewrite Hdrv. reflexivity.
Defined.

Lemma is_stage2_completed_gates_witness :
  is_stage2_completed (P := Example.tiny) Example.tiny_sender = Some (1, Example.tiny_sender)
  /\ is_stage2_completed (P := Example.tiny) Example.tiny_started
     = Some (0, Example.tiny_started).
Proof.
  split.
  - destruct (is_stage2_completed_gates (P := Example.tiny) Example.tiny_sender)
      as (_ & H & _).
    + repeat constructor.
    + apply H; reflexivity.
  - destruct (is_stage2_completed_gates (P := Example.tiny) Example.tiny_started)
      as (H & _).
    + repeat constructor.
    + apply H. vm_compute. discriminate.
Defined.

Lemma blk_mig_save_dirty_block_nothing_dirty_witness :
  exists s',
    blk_mig_save_dirty_block (P := Example.tiny) 1 Example.tiny_sender = Some (1, s')
    /\ System.out_file s' = [].
Proof.
  destruct (blk_mig_save_dirty_block_nothing_dirty (P := Example.tiny) 1 Example.tiny_sender)
    as (s' & Hrun & Hout & _).
  - reflexivity.
  - reflexivity.
  - intros d b drv Hb Hdrv. destruct d as [|d]; [|discriminate Hb].
    injection Hb as <-. injection Hdrv as <-. reflexivity.
  - exists s'. split; [exact Hrun | exact Hout].
Defined.

Lemma block_save_complete_never_reports_witness :
  exists r s' f,
    block_save_complete (P := Example.tiny) 3 Session.tiny_dirty = Some (r, s')
    /\ r <> 0
    /\ BlkMigState.bmds_list (System.block_mig_state s') = []
    /\ System.out_file s' = f
    /\ block_frames (P := Example.tiny) f.
Proof.
  assert (Hrun : block_save_complete (P := Example.tiny) 3 Session.tiny_dirty
                 = Some (1, Session.tiny_completed)) by (vm_compute; reflexivity).
  destruct (block_save_complete_never_reports (P := Example.tiny) 3 Session.tiny_dirty
              Session.tiny_completed 1 Hrun) as (Hr & Hd & _ & f & Hf & Hfr).
  exists 1, Session.tiny_completed, f.
  split; [exact Hrun|]. split; [exact Hr|]. split; [exact Hd|]. split; [exact Hf | exact Hfr].
Defined.

Lemma block_load_skips_progress_until_eos_witness :
  block_load (P := Example.tiny) (replicate 256 0) (replicate 32 0) Session.progress_receiver
  = Some (0, with_pending [9] Session.progress_receiver).
Proof.
  apply (block_load_skips_progress_until_eos (P := Example.tiny) [50; 100] [9]).
  - vm_compute. discriminate.
  - repeat constructor; vm_compute; discriminate.
  - reflexivity.
  - reflexivity.
Defined.

Lemma block_load_empty_stream_witness :
  exists s',
    block_load (P := Example.tiny) (replicate 256 0) (replicate 32 0) Example.tiny_machine
    = Some (- EINVAL, s')
    /\ InFile.last_error (System.in_file s') = - EIO.
Proof.
  destruct (block_load_empty_stream (P := Example.tiny) (replicate 256 0) (replicate 32 0)
              Example.tiny_machine) as (s' & Hrun & He & _).
  - reflexivity.
  - exists s'. split; [exact Hrun | exact He].
Defined.

Lemma block_load_unknown_device_witness :
  block_load (P := Example.tiny) (replicate 256 0) (replicate 32 0) Session.bare_receiver
  = Some (- EINVAL,
          with_pending (replicate 32 7 ++ [0; 0; 0; 0; 0; 0; 0; 2]) Session.bare_receiver).
Proof.
  apply (block_load_unknown_device (P := Example.tiny) 2 Example.vda (replicate 32 7)
           [0; 0; 0; 0; 0; 0; 0; 2] (replicate 256 0) (replicate 32 0) false).
  - vm_compute. discriminate.
  - lia.
  - vm_compute. discriminate.
  - reflexivity.
  - reflexivity.
  - reflexivity.
  - reflexivity.
  - reflexivity.
Defined.

Lemma block_save_setup_idle_witness :
  exists s',
    block_save_setup (P := Example.tiny) Example.tiny_machine = Some (0, s')
    /\ System.out_file s' = map Put [0; 0; 0; 0; 0; 0; 0; 2]
    /\ BlkMigState.bmds_list (System.block_mig_state s') = [Session.tiny_dev]
    /\ System.bdrv_states s' = [Session.tiny_drive].
Proof.
  destruct (block_save_setup_idle (P := Example.tiny) Example.tiny_machine)
    as (s' & Hrun & Hout & Hd & Hdrv & _).
  - reflexivity.
  - reflexivity.
  - exists s'. split; [exact Hrun|]. split; [exact Hout|]. split; [exact Hd | exact Hdrv].
Defined.

